(** * RIAN Learning Platform backend: a model of [backend/server.py]

    The service is a set of request handlers over a MongoDB database.
    Every handler is embedded as a function in a small state-and-error
    monad over the [World] (the database plus the log of calls made to
    the external chat backend).  Collections are lists of documents in
    insertion order.  A collection holds each document as a read
    returns it: the driver encodes a document before anything is sent
    (which fails for an integer outside 64 bits), and a datetime comes
    back without timezone and cut to the millisecond.  Python [float]s
    are IEEE-754 binary64 values (Rocq's primitive floats); clock
    readings and uuid draws are passed to the handlers as explicit
    arguments, in the order the handler makes them. *)

From Stdlib Require Import ZArith QArith Qabs List Bool Lia Sorted Permutation.
From Stdlib Require Import PrimFloat FloatOps SpecFloat Uint63.
From stdpp Require Import gmap strings list pretty.

Set Warnings "-register-all".

Local Open Scope string_scope.
Local Open Scope Z_scope.

(** ** Python values *)

(** [datetime]: the wall-clock fields as microseconds since the epoch,
    and the UTC offset (in microseconds) of an aware value; a naive
    value has [tzinfo = None]. *)
Record datetime := {
  wall : Z;
  tzinfo : option Z
}.

(** [datetime.now(timezone.utc)] at clock reading [t]. *)
Definition datetime_now_utc (t : Z) : datetime :=
  {| wall := t; tzinfo := Some 0 |}.

(** [dt.replace(tzinfo=timezone.utc)]. *)
Definition replace_tzinfo_utc (dt : datetime) : datetime :=
  {| wall := wall dt; tzinfo := Some 0 |}.

(** [a < b] on datetimes: aware values compare by UTC instant, naive
    values by their fields, and a mixed comparison raises [TypeError]
    (here [None]). *)
Definition datetime_lt (a b : datetime) : option bool :=
  match tzinfo a, tzinfo b with
  | Some oa, Some ob => Some (wall a - oa <? wall b - ob)
  | None, None => Some (wall a <? wall b)
  | _, _ => None
  end.

(** The UTC instant a stored expiry denotes, a naive value being read
    as UTC. *)
Definition utc_instant (dt : datetime) : Z :=
  match tzinfo dt with
  | Some o => wall dt - o
  | None => wall dt
  end.

(** A datetime after a round trip through the database: BSON keeps the
    UTC instant in whole milliseconds, rounded down (a naive value is
    taken as UTC), and the driver decodes it as a naive value. *)
Definition bson_datetime (dt : datetime) : datetime :=
  {| wall := 1000 * (utc_instant dt / 1000); tzinfo := None |}.

(** The integers BSON can hold: eight bytes, signed. *)
Definition int64 (z : Z) : bool := (- 2 ^ 63 <=? z) && (z <? 2 ^ 63).

(** Conversion of a Python [int] to [float]; list lengths and counts are
    far below [2^53], where the conversion is exact. *)
Definition float_of_int (z : Z) : float :=
  PrimFloat.of_uint63 (Uint63.of_Z z).

(** The rational number a finite float denotes. *)
Definition float_to_Q (f : float) : option Q :=
  match Prim2SF f with
  | S754_zero _ => Some 0%Q
  | S754_finite s m e =>
      Some ((if s then (-1)%Q else 1%Q) * inject_Z (Z.pos m) * Qpower 2 e)%Q
  | _ => None
  end.

(** [exactly f q]: the float [f] is finite and its value is the
    rational [q], with no rounding error. *)
Definition exactly (f : float) (q : Q) : Prop :=
  match float_to_Q f with
  | Some v => (v == q)%Q
  | None => False
  end.

(** [within f q eps]: the float [f] is finite and its value is at most
    [eps] away from the rational [q]; [withinb] decides it. *)
Definition withinb (f : float) (q eps : Q) : bool :=
  match float_to_Q f with
  | Some v => Qle_bool (Qabs (v - q)) eps
  | None => false
  end.

Definition within (f : float) (q eps : Q) : Prop :=
  match float_to_Q f with
  | Some v => (Qabs (v - q) <= eps)%Q
  | None => False
  end.

(** JSON-like values a handler returns in a [dict] literal. *)
Inductive pyval :=
| PyNone
| PyBool (b : bool)
| PyInt (z : Z)
| PyFloat (f : float)
| PyStr (s : string)
| PyList (l : list pyval)
| PyDict (d : gmap string pyval).

(** ** Models (the pydantic classes and the session document) *)

Record User := {
  u_id : string;
  u_email : string;
  u_name : string;
  u_picture : option string;
  u_role : string;
  u_created_at : datetime;
  u_profile_completed : bool
}.

(** A document of [db.user_sessions], as [process_session] inserts it. *)
Record UserSession := {
  s_user_id : string;
  s_session_token : string;
  s_expires_at : datetime;
  s_created_at : datetime
}.

Record Competence := {
  c_id : string;
  c_number : Z;
  c_title : string;
  c_description : string;
  c_duration_hours : Z;
  c_units : Z;
  c_learning_objectives : list string;
  c_evaluation_method : string;
  c_evaluation_description : string;
  c_evaluation_criteria : list string;
  c_success_threshold : float;
  c_created_at : datetime
}.

Record UserProgress := {
  p_id : string;
  p_user_id : string;
  p_competence_id : string;
  p_status : string;
  p_current_score : float;
  p_quiz_attempts : Z;
  p_assignment_submitted : bool;
  p_assignment_score : option float;
  p_exam_taken : bool;
  p_exam_score : option float;
  p_certified : bool;
  p_started_at : option datetime;
  p_completed_at : option datetime;
  p_last_activity : datetime
}.

Record QuizQuestion := {
  q_id : string;
  q_competence_id : string;
  q_question : string;
  q_options : list string;
  q_correct_answer : Z;
  q_explanation : option string
}.

Record QuizAttempt := {
  a_id : string;
  a_user_id : string;
  a_competence_id : string;
  a_answers : list Z;
  a_score : float;
  a_passed : bool;
  a_attempt_number : Z;
  a_created_at : datetime
}.

(** One entry of a workshop transcript; the timestamp is the
    [isoformat()] of the clock reading, kept as the reading itself. *)
Record ChatMessage := {
  m_role : string;
  m_content : string;
  m_timestamp : datetime
}.

Record AIWorkshopSession := {
  w_id : string;
  w_user_id : string;
  w_competence_id : string;
  w_session_type : string;
  w_status : string;
  w_messages : list ChatMessage;
  w_created_at : datetime
}.

Record Certificate := {
  ct_id : string;
  ct_user_id : string;
  ct_competence_id : string;
  ct_certificate_number : string;
  ct_issued_date : datetime;
  ct_score : float;
  ct_valid : bool
}.

(** ** Documents on their way into the database *)

(** What the driver does with a document handed to [insert_one]:
    [encodable d] tells whether the BSON encoding succeeds, and
    [stored d] is the document as a later read returns it. *)
Class Bson (D : Type) := {
  encodable : D -> bool;
  stored : D -> D
}.

Definition stored_user (u : User) : User :=
  {| u_id := u_id u;
     u_email := u_email u;
     u_name := u_name u;
     u_picture := u_picture u;
     u_role := u_role u;
     u_created_at := bson_datetime (u_created_at u);
     u_profile_completed := u_profile_completed u |}.

Definition stored_session (s : UserSession) : UserSession :=
  {| s_user_id := s_user_id s;
     s_session_token := s_session_token s;
     s_expires_at := bson_datetime (s_expires_at s);
     s_created_at := bson_datetime (s_created_at s) |}.

Definition stored_competence (c : Competence) : Competence :=
  {| c_id := c_id c;
     c_number := c_number c;
     c_title := c_title c;
     c_description := c_description c;
     c_duration_hours := c_duration_hours c;
     c_units := c_units c;
     c_learning_objectives := c_learning_objectives c;
     c_evaluation_method := c_evaluation_method c;
     c_evaluation_description := c_evaluation_description c;
     c_evaluation_criteria := c_evaluation_criteria c;
     c_success_threshold := c_success_threshold c;
     c_created_at := bson_datetime (c_created_at c) |}.

Definition stored_progress (p : UserProgress) : UserProgress :=
  {| p_id := p_id p;
     p_user_id := p_user_id p;
     p_competence_id := p_competence_id p;
     p_status := p_status p;
     p_current_score := p_current_score p;
     p_quiz_attempts := p_quiz_attempts p;
     p_assignment_submitted := p_assignment_submitted p;
     p_assignment_score := p_assignment_score p;
     p_exam_taken := p_exam_taken p;
     p_exam_score := p_exam_score p;
     p_certified := p_certified p;
     p_started_at := option_map bson_datetime (p_started_at p);
     p_completed_at := option_map bson_datetime (p_completed_at p);
     p_last_activity := bson_datetime (p_last_activity p) |}.

Definition stored_attempt (a : QuizAttempt) : QuizAttempt :=
  {| a_id := a_id a;
     a_user_id := a_user_id a;
     a_competence_id := a_competence_id a;
     a_answers := a_answers a;
     a_score := a_score a;
     a_passed := a_passed a;
     a_attempt_number := a_attempt_number a;
     a_created_at := bson_datetime (a_created_at a) |}.

Definition stored_workshop (s : AIWorkshopSession) : AIWorkshopSession :=
  {| w_id := w_id s;
     w_user_id := w_user_id s;
     w_competence_id := w_competence_id s;
     w_session_type := w_session_type s;
     w_status := w_status s;
     w_messages := w_messages s;
     w_created_at := bson_datetime (w_created_at s) |}.

(** The integers of the documents the handlers build are constants of
    the program or counts of stored documents, far below [2^63], with
    one exception: the answers of a quiz attempt, which come from the
    request.  The encoding of an attempt fails when one of them is
    outside 64 bits. *)
#[global] Instance user_bson : Bson User :=
  {| encodable := fun _ => true; stored := stored_user |}.

#[global] Instance session_bson : Bson UserSession :=
  {| encodable := fun _ => true; stored := stored_session |}.

#[global] Instance competence_bson : Bson Competence :=
  {| encodable := fun _ => true; stored := stored_competence |}.

#[global] Instance progress_bson : Bson UserProgress :=
  {| encodable := fun _ => true; stored := stored_progress |}.

(** A question has no datetime. *)
#[global] Instance question_bson : Bson QuizQuestion :=
  {| encodable := fun _ => true; stored := fun q => q |}.

#[global] Instance attempt_bson : Bson QuizAttempt :=
  {| encodable := fun a => forallb int64 (a_answers a);
     stored := stored_attempt |}.

#[global] Instance workshop_bson : Bson AIWorkshopSession :=
  {| encodable := fun _ => true; stored := stored_workshop |}.

(** ** The database and the world *)

Record Database := {
  users : list User;
  user_sessions : list UserSession;
  competences : list Competence;
  user_progress : list UserProgress;
  quiz_questions : list QuizQuestion;
  quiz_attempts : list QuizAttempt;
  ai_workshop_sessions : list AIWorkshopSession;
  certificates : list Certificate
}.

(** One call to the external chat backend: [LlmChat(session_id,
    system_message).send_message(UserMessage(text))]. *)
Record LlmCall := {
  llm_session_id : string;
  llm_system_message : string;
  llm_text : string
}.

Record World := {
  db : Database;
  llm_calls : list LlmCall
}.

(** ** Handlers: state and exceptions *)

(** What running a handler yields: a returned value, an [HTTPException]
    raised by the handler, or any other exception left uncaught (which
    the framework answers with status 500). *)
Inductive Outcome (A : Type) : Type :=
| Return (a : A)
| HTTPException (status_code : Z) (detail : string)
| Uncaught (exn_type : string) (message : string).

Arguments Return {A} a.
Arguments HTTPException {A} status_code detail.
Arguments Uncaught {A} exn_type message.

Definition Handler (A : Type) : Type := World -> Outcome A * World.

Definition ret {A} (a : A) : Handler A := fun w => (Return a, w).

Definition raise_http {A} (status_code : Z) (detail : string) : Handler A :=
  fun w => (HTTPException status_code detail, w).

Definition throw {A} (exn_type message : string) : Handler A :=
  fun w => (Uncaught exn_type message, w).

Definition bind {A B} (m : Handler A) (k : A -> Handler B) : Handler B :=
  fun w =>
    match m w with
    | (Return a, w') => k a w'
    | (HTTPException c d, w') => (HTTPException c d, w')
    | (Uncaught t e, w') => (Uncaught t e, w')
    end.

Notation "x <- m ;; k" := (bind m (fun x => k))
  (at level 100, m at next level, right associativity).

(** [try: body  except Exception as e: handler(str(e))]. *)
Definition try_except {A} (body : Handler A) (handler : string -> Handler A)
  : Handler A :=
  fun w =>
    match body w with
    | (Return a, w') => (Return a, w')
    | (HTTPException c d, w') => handler (pretty c ++ ": " ++ d) w'
    | (Uncaught _ e, w') => handler e w'
    end.

(** [for i, x in enumerate(l): acc = body(acc, i, x)], counting from [i]. *)
Fixpoint for_enumerate {A St} (body : St -> nat -> A -> Handler St)
    (i : nat) (l : list A) (acc : St) : Handler St :=
  match l with
  | [] => ret acc
  | x :: l' => acc' <- body acc i x ;; for_enumerate body (S i) l' acc'
  end.

(** ** MongoDB collections *)

Section Collection.
Context {D : Type}.

(** [coll.find(q).to_list(length=None)] *)
Definition find (q : D -> bool) (coll : list D) : list D :=
  List.filter q coll.

(** [coll.find_one(q)]: the first matching document, or [None]. *)
Definition find_one (q : D -> bool) (coll : list D) : option D :=
  List.find q coll.

(** [coll.count_documents(q)] *)
Definition count_documents (q : D -> bool) (coll : list D) : Z :=
  Z.of_nat (length (List.filter q coll)).

(** [coll.insert_one(d)] *)
Definition insert_one (d : D) (coll : list D) : list D :=
  (coll ++ [d])%list.

(** [coll.update_one(q, {"$set": ...})]: the first matching document is
    updated; nothing is inserted when none matches (no upsert). *)
Fixpoint update_one (q : D -> bool) (set : D -> D) (coll : list D) : list D :=
  match coll with
  | [] => []
  | d :: rest => if q d then set d :: rest else d :: update_one q set rest
  end.

End Collection.

(** A read of the database. *)
Definition query {A} (f : Database -> A) : Handler A :=
  fun w => (Return (f (db w)), w).

(** A write to the database. *)
Definition modify (f : Database -> Database) : Handler unit :=
  fun w => (Return tt, {| db := f (db w); llm_calls := llm_calls w |}).

(** [await coll.insert_one(d)] as a handler runs it, [with_coll]
    naming the collection: the driver encodes the document first and
    raises [OverflowError] when it cannot, before anything is sent;
    otherwise the collection gains the document in its stored form. *)
Definition db_insert_one {D} `{Bson D}
    (with_coll : (list D -> list D) -> Database -> Database) (d : D)
  : Handler unit :=
  if encodable d then modify (with_coll (insert_one (stored d)))
  else throw "OverflowError" "MongoDB can only handle up to 8-byte ints".

(** [await coll.insert_many(ds)]: all the documents are encoded before
    the first is sent. *)
Definition db_insert_many {D} `{Bson D}
    (with_coll : (list D -> list D) -> Database -> Database) (ds : list D)
  : Handler unit :=
  if forallb encodable ds
  then modify (with_coll (fun coll => (coll ++ map stored ds)%list))
  else throw "OverflowError" "MongoDB can only handle up to 8-byte ints".

Definition with_user_progress (f : list UserProgress -> list UserProgress)
    (d : Database) : Database :=
  {| users := users d;
     user_sessions := user_sessions d;
     competences := competences d;
     user_progress := f (user_progress d);
     quiz_questions := quiz_questions d;
     quiz_attempts := quiz_attempts d;
     ai_workshop_sessions := ai_workshop_sessions d;
     certificates := certificates d |}.

Definition with_quiz_attempts (f : list QuizAttempt -> list QuizAttempt)
    (d : Database) : Database :=
  {| users := users d;
     user_sessions := user_sessions d;
     competences := competences d;
     user_progress := user_progress d;
     quiz_questions := quiz_questions d;
     quiz_attempts := f (quiz_attempts d);
     ai_workshop_sessions := ai_workshop_sessions d;
     certificates := certificates d |}.

Definition with_ai_workshop_sessions
    (f : list AIWorkshopSession -> list AIWorkshopSession)
    (d : Database) : Database :=
  {| users := users d;
     user_sessions := user_sessions d;
     competences := competences d;
     user_progress := user_progress d;
     quiz_questions := quiz_questions d;
     quiz_attempts := quiz_attempts d;
     ai_workshop_sessions := f (ai_workshop_sessions d);
     certificates := certificates d |}.

(** ** Authentication: [get_current_user] *)

(** What [HTTPBearer(auto_error=False)] hands over for an
    [Authorization: Bearer ...] header. *)
Record HTTPAuthorizationCredentials := {
  scheme : string;
  credentials : string
}.

Record Request := {
  cookies : gmap string string
}.

(** The token selection at the head of [get_current_user]: the cookie
    first, the bearer credentials otherwise. *)
Definition select_session_token (request : Request)
    (creds : option HTTPAuthorizationCredentials) : option string :=
  match cookies request !! "session_token" with
  | Some t => Some t
  | None =>
      match creds with
      | Some c => Some (credentials c)
      | None => None
      end
  end.

(** [not session_token]: [None] and the empty string are falsy. *)
Definition not_token (session_token : option string) : bool :=
  match session_token with
  | None => true
  | Some t => String.eqb t ""
  end.

Definition get_current_user (request : Request)
    (creds : option HTTPAuthorizationCredentials) (now : Z)
  : Handler (option User) :=
  let session_token := select_session_token request creds in
  if not_token session_token then ret None else
  let session_token := default "" session_token in
  session_data <- query (fun d =>
    find_one (fun s => String.eqb (s_session_token s) session_token)
             (user_sessions d)) ;;
  match session_data with
  | None => ret None
  | Some session_data =>
      let expires_at := s_expires_at session_data in
      let expires_at :=
        match tzinfo expires_at with
        | None => replace_tzinfo_utc expires_at
        | Some _ => expires_at
        end in
      match datetime_lt expires_at (datetime_now_utc now) with
      | None =>
          throw "TypeError"
                "can't compare offset-naive and offset-aware datetimes"
      | Some true => ret None
      | Some false =>
          user <- query (fun d =>
            find_one (fun u => String.eqb (u_id u) (s_user_id session_data))
                     (users d)) ;;
          ret user
      end
  end.

(** ** Progress: [start_competence] *)

(** [fresh_id] is the uuid drawn for the new row; [now_started] and
    [now_activity] are the two clock readings ([started_at] and the
    default of [last_activity]). *)
Definition start_competence (competence_id : string) (user : option User)
    (fresh_id : string) (now_started now_activity : Z)
  : Handler UserProgress :=
  match user with
  | None => raise_http 401 "Not authenticated"
  | Some user =>
      competence <- query (fun d =>
        find_one (fun c => String.eqb (c_id c) competence_id) (competences d)) ;;
      match competence with
      | None => raise_http 404 "Competence not found"
      | Some _ =>
          existing_progress <- query (fun d =>
            find_one (fun p => String.eqb (p_user_id p) (u_id user)
                               && String.eqb (p_competence_id p) competence_id)
                     (user_progress d)) ;;
          match existing_progress with
          | Some existing_progress => ret existing_progress
          | None =>
              let progress :=
                {| p_id := fresh_id;
                   p_user_id := u_id user;
                   p_competence_id := competence_id;
                   p_status := "in_progress";
                   p_current_score := 0%float;
                   p_quiz_attempts := 0;
                   p_assignment_submitted := false;
                   p_assignment_score := None;
                   p_exam_taken := false;
                   p_exam_score := None;
                   p_certified := false;
                   p_started_at := Some (datetime_now_utc now_started);
                   p_completed_at := None;
                   p_last_activity := datetime_now_utc now_activity |} in
              _ <- db_insert_one with_user_progress progress ;;
              ret progress
          end
      end
  end.

(** ** Quiz: [get_quiz_questions] and [submit_quiz] *)

(** The dict built for one question in [get_quiz_questions]. *)
Definition redact (q : QuizQuestion) : pyval :=
  PyDict (<["id" := PyStr (q_id q)]>
          (<["question" := PyStr (q_question q)]>
           (<["options" := PyList (map PyStr (q_options q))]> ∅))).

Definition get_quiz_questions (competence_id : string) (user : option User)
  : Handler (list pyval) :=
  match user with
  | None => raise_http 401 "Not authenticated"
  | Some user =>
      questions <- query (fun d =>
        find (fun q => String.eqb (q_competence_id q) competence_id)
             (quiz_questions d)) ;;
      ret (map redact questions)
  end.

(** [a / b] on two ints: the binary64 quotient, or [ZeroDivisionError]. *)
Definition truediv (a b : Z) : Handler float :=
  if b =? 0 then throw "ZeroDivisionError" "division by zero"
  else ret (PrimFloat.div (float_of_int a) (float_of_int b)).

(** [l[i]] for an index [i >= 0]: out of range raises [IndexError]. *)
Definition getitem (l : list Z) (i : nat) : Handler Z :=
  match l !! i with
  | Some a => ret a
  | None => throw "IndexError" "list index out of range"
  end.

(** The body of the scoring loop; [and] evaluates [answers[i]] only
    when [i < len(answers)]. *)
Definition score_body (answers : list Z) (correct_answers : Z) (i : nat)
    (question : QuizQuestion) : Handler Z :=
  if (i <? length answers)%nat then
    a <- getitem answers i ;;
    if a =? q_correct_answer question
    then ret (correct_answers + 1)
    else ret correct_answers
  else ret correct_answers.

(** The [$set] of [submit_quiz] on a progress row; [last_activity] is
    the datetime as the database keeps it. *)
Definition set_quiz_result (score : float) (attempts : Z)
    (last_activity : datetime) (p : UserProgress) : UserProgress :=
  {| p_id := p_id p;
     p_user_id := p_user_id p;
     p_competence_id := p_competence_id p;
     p_status := p_status p;
     p_current_score := score;
     p_quiz_attempts := attempts;
     p_assignment_submitted := p_assignment_submitted p;
     p_assignment_score := p_assignment_score p;
     p_exam_taken := p_exam_taken p;
     p_exam_score := p_exam_score p;
     p_certified := p_certified p;
     p_started_at := p_started_at p;
     p_completed_at := p_completed_at p;
     p_last_activity := last_activity |}.

(** The query [{"user_id": user.id, "competence_id": competence_id}]. *)
Definition of_user_and_competence {D} (uid : D -> string) (cid : D -> string)
    (user : User) (competence_id : string) (d : D) : bool :=
  String.eqb (uid d) (u_id user) && String.eqb (cid d) competence_id.

(** [fresh_id] is the uuid of the attempt; [now_created] and
    [now_activity] are the clock readings for the attempt's
    [created_at] and the row's [last_activity]. *)
Definition submit_quiz (competence_id : string) (answers : list Z)
    (user : option User) (fresh_id : string) (now_created now_activity : Z)
  : Handler pyval :=
  match user with
  | None => raise_http 401 "Not authenticated"
  | Some user =>
      questions <- query (fun d =>
        find (fun q => String.eqb (q_competence_id q) competence_id)
             (quiz_questions d)) ;;
      match questions with
      | [] => raise_http 404 "Quiz not found"
      | _ :: _ =>
          correct_answers <- for_enumerate (score_body answers) 0 questions 0 ;;
          ratio <- truediv correct_answers (Z.of_nat (length questions)) ;;
          let score := PrimFloat.mul ratio (float_of_int 100) in
          competence <- query (fun d =>
            find_one (fun c => String.eqb (c_id c) competence_id)
                     (competences d)) ;;
          match competence with
          | None => throw "TypeError" "'NoneType' object is not subscriptable"
          | Some competence =>
              let passed := PrimFloat.leb (c_success_threshold competence) score in
              existing_attempts <- query (fun d =>
                count_documents
                  (of_user_and_competence a_user_id a_competence_id
                                          user competence_id)
                  (quiz_attempts d)) ;;
              let attempt :=
                {| a_id := fresh_id;
                   a_user_id := u_id user;
                   a_competence_id := competence_id;
                   a_answers := answers;
                   a_score := score;
                   a_passed := passed;
                   a_attempt_number := existing_attempts + 1;
                   a_created_at := datetime_now_utc now_created |} in
              _ <- db_insert_one with_quiz_attempts attempt ;;
              _ <- modify (with_user_progress
                     (update_one
                        (of_user_and_competence p_user_id p_competence_id
                                                user competence_id)
                        (set_quiz_result score (existing_attempts + 1)
                           (bson_datetime (datetime_now_utc now_activity))))) ;;
              ret (PyDict
                     (<["score" := PyFloat score]>
                      (<["passed" := PyBool passed]>
                       (<["correct_answers" := PyInt correct_answers]>
                        (<["total_questions" :=
                             PyInt (Z.of_nat (length questions))]> ∅)))))
          end
      end
  end.

(** ** AI workshop: [chat_with_ai] *)

(** The external chat backend: what it answers to a call, a reply or an
    exception message. *)
Inductive LlmReply :=
| Reply (text : string)
| Failure (exn_type : string) (message : string).

Definition LlmBackend : Type := LlmCall -> LlmReply.

(** [await chat.send_message(...)]: the call is logged in the world. *)
Definition send_message (llm : LlmBackend) (call : LlmCall) : Handler string :=
  fun w =>
    let w' := {| db := db w; llm_calls := (llm_calls w ++ [call])%list |} in
    match llm call with
    | Reply text => (Return text, w')
    | Failure t e => (Uncaught t e, w')
    end.

Definition nl : string := String (Ascii.ascii_of_nat 10) EmptyString.
Definition indent : string := "            ".

(** The f-string passed as [system_message]. *)
Definition system_message_of (competence : Competence) : string :=
  "Vous êtes un mentor pédagogique bienveillant spécialisé dans l'alphabétisation numérique. " ++ nl ++
  indent ++ "Vous aidez un apprenant dans le module: " ++ c_title competence ++ "." ++ nl ++
  indent ++ nl ++
  indent ++ "Objectifs du module: " ++ String.concat ", " (c_learning_objectives competence) ++ nl ++
  indent ++ nl ++
  indent ++ "Votre rôle:" ++ nl ++
  indent ++ "- Être encourageant et patient" ++ nl ++
  indent ++ "- Expliquer les concepts simplement" ++ nl ++
  indent ++ "- Donner des exemples pratiques" ++ nl ++
  indent ++ "- Poser des questions pour vérifier la compréhension" ++ nl ++
  indent ++ "- Adapter votre niveau à celui de l'apprenant" ++ nl ++
  indent ++ nl ++
  indent ++ "Répondez toujours en français et de manière bienveillante.".

Definition set_messages (messages : list ChatMessage) (s : AIWorkshopSession)
  : AIWorkshopSession :=
  {| w_id := w_id s;
     w_user_id := w_user_id s;
     w_competence_id := w_competence_id s;
     w_session_type := w_session_type s;
     w_status := w_status s;
     w_messages := messages;
     w_created_at := w_created_at s |}.

(** [now_user] and [now_assistant] are the clock readings stamped on the
    two transcript entries. *)
Definition chat_with_ai (llm : LlmBackend) (session_id message : string)
    (user : option User) (now_user now_assistant : Z) : Handler pyval :=
  match user with
  | None => raise_http 401 "Not authenticated"
  | Some user =>
      session_data <- query (fun d =>
        find_one (fun s => String.eqb (w_id s) session_id
                           && String.eqb (w_user_id s) (u_id user))
                 (ai_workshop_sessions d)) ;;
      match session_data with
      | None => raise_http 404 "Workshop session not found"
      | Some session_data =>
          competence <- query (fun d =>
            find_one (fun c => String.eqb (c_id c) (w_competence_id session_data))
                     (competences d)) ;;
          try_except
            (system_message <-
               match competence with
               | None => throw "TypeError" "'NoneType' object is not subscriptable"
               | Some competence => ret (system_message_of competence)
               end ;;
             response <- send_message llm
               {| llm_session_id := session_id;
                  llm_system_message := system_message;
                  llm_text := message |} ;;
             let messages := (w_messages session_data ++
               [ {| m_role := "user"; m_content := message;
                    m_timestamp := datetime_now_utc now_user |};
                 {| m_role := "assistant"; m_content := response;
                    m_timestamp := datetime_now_utc now_assistant |} ])%list in
             _ <- modify (with_ai_workshop_sessions
                    (update_one (fun s => String.eqb (w_id s) session_id)
                                (set_messages messages))) ;;
             ret (PyDict (<["response" := PyStr response]> ∅)))
            (fun e => raise_http 500 ("AI service error: " ++ e))
      end
  end.

(** ** Dashboard: [get_dashboard] *)

(** A document as [find(...).to_list()] hands it over: the stored
    fields together with the [_id] the server gave the document on
    insertion, a [bson.ObjectId].  The other handlers rebuild a model
    from such a document or pick fields out of it, which leaves [_id]
    behind; [get_dashboard] passes the documents on as they are.  Of
    the [_id] only the presence is modelled. *)
Record RawDocument (D : Type) := WithObjectId { doc_fields : D }.

Arguments WithObjectId {D} doc_fields.
Arguments doc_fields {D} _.

(** The dict [get_dashboard] returns, one field per key. *)
Record Dashboard := {
  d_user : User;
  d_overall_progress : pyval;
  d_total_competences : Z;
  d_completed_competences : Z;
  d_in_progress_competences : Z;
  d_certificates_earned : Z;
  d_progress_list : list (RawDocument UserProgress);
  d_certificates : list (RawDocument Certificate)
}.

(** [len([p for p in progress_list if p["status"] == status])] *)
Definition count_status (status : string)
    (progress_list : list (RawDocument UserProgress)) : Z :=
  Z.of_nat (length (List.filter
    (fun p => String.eqb (p_status (doc_fields p)) status) progress_list)).

Definition get_dashboard (user : option User) : Handler Dashboard :=
  match user with
  | None => raise_http 401 "Not authenticated"
  | Some user =>
      progress_list <- query (fun d =>
        map WithObjectId
            (find (fun p => String.eqb (p_user_id p) (u_id user))
                  (user_progress d))) ;;
      certs <- query (fun d =>
        map WithObjectId
            (find (fun c => String.eqb (ct_user_id c) (u_id user))
                  (certificates d))) ;;
      total_competences <- query (fun d =>
        count_documents (fun _ => true) (competences d)) ;;
      let completed_competences := count_status "completed" progress_list in
      let in_progress_competences := count_status "in_progress" progress_list in
      overall_progress <-
        (if 0 <? total_competences then
           ratio <- truediv completed_competences total_competences ;;
           ret (PyFloat (PrimFloat.mul ratio (float_of_int 100)))
         else ret (PyInt 0)) ;;
      ret {| d_user := user;
             d_overall_progress := overall_progress;
             d_total_competences := total_competences;
             d_completed_competences := completed_competences;
             d_in_progress_competences := in_progress_competences;
             d_certificates_earned := Z.of_nat (length certs);
             d_progress_list := progress_list;
             d_certificates := certs |}
  end.

(** *** The response of [GET /dashboard] *)

Definition dq : string := String (Ascii.ascii_of_nat 34) EmptyString.

(** [str] of the [ValueError] the response encoder raises on an
    [ObjectId]: the two errors it met, converting the value to a dict
    and reading its attributes. *)
Definition not_jsonable : string :=
  "[TypeError(" ++ dq ++ "'ObjectId' object is not iterable" ++ dq
  ++ "), TypeError('vars() argument must have __dict__ attribute')]".

(** [jsonable_encoder] on the returned dict.  The user (a model), the
    numbers and an empty list are encoded as they are; a document with
    its [_id] is not, the encoder has no rule for an [ObjectId]. *)
Definition jsonable_encoder (content : Dashboard) : Handler Dashboard :=
  match d_progress_list content, d_certificates content with
  | [], [] => ret content
  | _, _ => throw "ValueError" not_jsonable
  end.

(** The route: the framework runs the coroutine and encodes what it
    returned; an exception of the encoder is answered like any other
    uncaught one, with status 500. *)
Definition dashboard_endpoint (user : option User) : Handler Dashboard :=
  content <- get_dashboard user ;;
  jsonable_encoder content.

(** ** Further collection operations *)

Section MoreCollection.
Context {D : Type}.

(** [coll.delete_one(q)]: the first matching document is removed. *)
Fixpoint delete_one (q : D -> bool) (coll : list D) : list D :=
  match coll with
  | [] => []
  | d :: rest => if q d then rest else d :: delete_one q rest
  end.

(** Insertion into a list sorted by [key], after the documents of equal
    key. *)
Fixpoint insert_by (key : D -> Z) (d : D) (sorted : list D) : list D :=
  match sorted with
  | [] => [d]
  | x :: rest =>
      if key d <? key x then d :: x :: rest
      else x :: insert_by key d rest
  end.

(** [cursor.sort(key, 1)]: ascending by [key].  The order among
    documents of equal key is a choice of this model (stored order);
    nothing proved about the sort depends on it. *)
Definition sort_ascending (key : D -> Z) (coll : list D) : list D :=
  fold_left (fun sorted d => insert_by key d sorted) coll [].

End MoreCollection.

Definition with_users (f : list User -> list User) (d : Database) : Database :=
  {| users := f (users d);
     user_sessions := user_sessions d;
     competences := competences d;
     user_progress := user_progress d;
     quiz_questions := quiz_questions d;
     quiz_attempts := quiz_attempts d;
     ai_workshop_sessions := ai_workshop_sessions d;
     certificates := certificates d |}.

Definition with_user_sessions (f : list UserSession -> list UserSession)
    (d : Database) : Database :=
  {| users := users d;
     user_sessions := f (user_sessions d);
     competences := competences d;
     user_progress := user_progress d;
     quiz_questions := quiz_questions d;
     quiz_attempts := quiz_attempts d;
     ai_workshop_sessions := ai_workshop_sessions d;
     certificates := certificates d |}.

Definition with_competences (f : list Competence -> list Competence)
    (d : Database) : Database :=
  {| users := users d;
     user_sessions := user_sessions d;
     competences := f (competences d);
     user_progress := user_progress d;
     quiz_questions := quiz_questions d;
     quiz_attempts := quiz_attempts d;
     ai_workshop_sessions := ai_workshop_sessions d;
     certificates := certificates d |}.

Definition with_quiz_questions (f : list QuizQuestion -> list QuizQuestion)
    (d : Database) : Database :=
  {| users := users d;
     user_sessions := user_sessions d;
     competences := competences d;
     user_progress := user_progress d;
     quiz_questions := f (quiz_questions d);
     quiz_attempts := quiz_attempts d;
     ai_workshop_sessions := ai_workshop_sessions d;
     certificates := certificates d |}.

(** ** Login and logout: [get_session_data], [process_session],
    [logout], [get_me] *)

(** A JSON object whose values are strings: the request body of
    [process_session], and the object the auth service describes a
    user with. *)
Definition JsonObject : Type := gmap string string.

(** What [await response.json()] gives for a reply of the auth service:
    any JSON value, [None] for a reply without a body.  An object is
    kept with the strings the service describes a user by ([email],
    [name], [picture], [session_token]); a key whose value is [null]
    is a key the object does not have. *)
Inductive JsonValue :=
| JsonNull
| JsonBool (b : bool)
| JsonInt (z : Z)
| JsonFloat (f : float)
| JsonString (s : string)
| JsonArray (items : list JsonValue)
| JsonDict (d : JsonObject).

(** What the GET carrying [X-Session-ID] comes to: a reply with its
    status and body, or an exception of the HTTP client (no connection,
    a header it refuses to send, a body that is not JSON). *)
Inductive AuthResponse :=
| AuthReply (status : Z) (json : JsonValue)
| AuthFailure (exn_type : string) (message : string).

(** The status and the body of a reply; a call that raised has neither
    (no HTTP status is 0). *)
Definition ar_status (response : AuthResponse) : Z :=
  match response with
  | AuthReply status _ => status
  | AuthFailure _ _ => 0
  end.

Definition ar_json (response : AuthResponse) : JsonValue :=
  match response with
  | AuthReply _ json => json
  | AuthFailure _ _ => JsonNull
  end.

Definition AuthService : Type := string -> AuthResponse.

(** The field of an object; other values have no fields. *)
#[global] Instance json_lookup : Lookup string string JsonValue :=
  fun key user_data =>
    match user_data with
    | JsonDict d => d !! key
    | _ => None
    end.

Definition get_session_data (auth : AuthService) (session_id : string)
  : Handler JsonValue :=
  match auth session_id with
  | AuthFailure exn_type message => throw exn_type message
  | AuthReply status json =>
      if status =? 200 then ret json else ret JsonNull
  end.

(** [not user_data]: [None], [False], zero, and the empty string, list
    and dict are falsy. *)
Definition not_value (user_data : JsonValue) : bool :=
  match user_data with
  | JsonNull => true
  | JsonBool b => negb b
  | JsonInt z => z =? 0
  | JsonFloat f => PrimFloat.eqb f 0
  | JsonString s => String.eqb s ""
  | JsonArray items => match items with [] => true | _ :: _ => false end
  | JsonDict d => bool_decide (d = ∅)
  end.

(** [type(user_data).__name__] *)
Definition type_name (user_data : JsonValue) : string :=
  match user_data with
  | JsonNull => "NoneType"
  | JsonBool _ => "bool"
  | JsonInt _ => "int"
  | JsonFloat _ => "float"
  | JsonString _ => "str"
  | JsonArray _ => "list"
  | JsonDict _ => "dict"
  end.

(** The message of the [TypeError] raised by [user_data[key]] on a
    value that is no dict. *)
Definition not_subscriptable (user_data : JsonValue) : string :=
  match user_data with
  | JsonString _ => "string indices must be integers, not 'str'"
  | JsonArray _ => "list indices must be integers or slices, not str"
  | _ => "'" ++ type_name user_data ++ "' object is not subscriptable"
  end.

(** [user_data[key]]: a missing key of a dict raises [KeyError]; the
    other values cannot be subscripted with a string. *)
Definition getitem_key (user_data : JsonValue) (key : string)
  : Handler string :=
  match user_data with
  | JsonDict d =>
      match d !! key with
      | Some v => ret v
      | None => throw "KeyError" ("'" ++ key ++ "'")
      end
  | _ => throw "TypeError" (not_subscriptable user_data)
  end.

(** [user_data.get(key)]: only a dict has the method. *)
Definition get_key (user_data : JsonValue) (key : string)
  : Handler (option string) :=
  match user_data with
  | JsonDict d => ret (d !! key)
  | _ =>
      throw "AttributeError"
            ("'" ++ type_name user_data ++ "' object has no attribute 'get'")
  end.

(** [timedelta(days=7)] in microseconds. *)
Definition seven_days : Z := 7 * 24 * 60 * 60 * 1000000.

(** [dt + timedelta(days=7)] *)
Definition plus_seven_days (dt : datetime) : datetime :=
  {| wall := wall dt + seven_days; tzinfo := tzinfo dt |}.

(** The arguments of [response.set_cookie]. *)
Record SetCookie := {
  sc_key : string;
  sc_value : string;
  sc_max_age : Z;
  sc_httponly : bool;
  sc_secure : bool;
  sc_samesite : string;
  sc_path : string
}.

(** What [process_session] hands back: the returned dict and the cookie
    set on the response. *)
Record LoginResult := {
  lr_user : User;
  lr_session_token : string;
  lr_set_cookie : SetCookie
}.

(** [body] is the JSON body of the request; [fresh_id] and [now_user]
    are the uuid and the clock reading of a newly created user,
    [now_expires] and [now_created] the two readings for the session
    row. *)
Definition process_session (auth : AuthService) (body : JsonObject)
    (fresh_id : string) (now_user now_expires now_created : Z)
  : Handler LoginResult :=
  let session_id := body !! "session_id" in
  if not_token session_id then raise_http 400 "Session ID required" else
  let session_id := default "" session_id in
  user_data <- get_session_data auth session_id ;;
  if not_value user_data then raise_http 400 "Invalid session ID" else
  email <- getitem_key user_data "email" ;;
  existing_user <- query (fun d =>
    find_one (fun u => String.eqb (u_email u) email) (users d)) ;;
  user <-
    match existing_user with
    | Some existing_user => ret existing_user
    | None =>
        email <- getitem_key user_data "email" ;;
        name <- getitem_key user_data "name" ;;
        picture <- get_key user_data "picture" ;;
        let user :=
          {| u_id := fresh_id;
             u_email := email;
             u_name := name;
             u_picture := picture;
             u_role := "learner";
             u_created_at := datetime_now_utc now_user;
             u_profile_completed := false |} in
        _ <- db_insert_one with_users user ;;
        ret user
    end ;;
  session_token <- getitem_key user_data "session_token" ;;
  let expires_at := plus_seven_days (datetime_now_utc now_expires) in
  _ <- db_insert_one with_user_sessions
         {| s_user_id := u_id user;
            s_session_token := session_token;
            s_expires_at := expires_at;
            s_created_at := datetime_now_utc now_created |} ;;
  ret {| lr_user := user;
         lr_session_token := session_token;
         lr_set_cookie :=
           {| sc_key := "session_token";
              sc_value := session_token;
              sc_max_age := 7 * 24 * 60 * 60;
              sc_httponly := true;
              sc_secure := true;
              sc_samesite := "none";
              sc_path := "/" |} |}.

(** The returned message and the [(key, path)] of
    [response.delete_cookie]. *)
Record LogoutResult := {
  lo_message : string;
  lo_delete_cookie : string * string
}.

Definition logout (request : Request) : Handler LogoutResult :=
  let session_token := cookies request !! "session_token" in
  _ <- (if not_token session_token then ret tt
        else modify (with_user_sessions (delete_one
               (fun s => String.eqb (s_session_token s)
                                    (default "" session_token))))) ;;
  ret {| lo_message := "Logged out successfully";
         lo_delete_cookie := ("session_token", "/") |}.

Definition get_me (user : option User) : Handler User :=
  match user with
  | None => raise_http 401 "Not authenticated"
  | Some user => ret user
  end.

(** [Depends(get_current_user)]: the framework resolves the user, then
    runs the handler on it. *)
Definition depends_current_user {A} (request : Request)
    (creds : option HTTPAuthorizationCredentials) (now : Z)
    (handler : option User -> Handler A) : Handler A :=
  user <- get_current_user request creds now ;;
  handler user.

(** ** Catalog and progress: [get_competences], [get_competence],
    [get_user_progress] *)

Definition get_competences : Handler (list Competence) :=
  query (fun d => sort_ascending c_number (find (fun _ => true) (competences d))).

Definition get_competence (competence_id : string) : Handler Competence :=
  competence <- query (fun d =>
    find_one (fun c => String.eqb (c_id c) competence_id) (competences d)) ;;
  match competence with
  | None => raise_http 404 "Competence not found"
  | Some competence => ret competence
  end.

Definition get_user_progress (user : option User)
  : Handler (list UserProgress) :=
  match user with
  | None => raise_http 401 "Not authenticated"
  | Some user =>
      query (fun d =>
        find (fun p => String.eqb (p_user_id p) (u_id user)) (user_progress d))
  end.

(** ** AI workshop: [start_ai_workshop] *)

(** [fresh_id] and [now_created] are the uuid and the clock reading of
    the new session. *)
Definition start_ai_workshop (competence_id : string) (user : option User)
    (fresh_id : string) (now_created : Z) : Handler pyval :=
  match user with
  | None => raise_http 401 "Not authenticated"
  | Some user =>
      let session :=
        {| w_id := fresh_id;
           w_user_id := u_id user;
           w_competence_id := competence_id;
           w_session_type := "individual";
           w_status := "active";
           w_messages := [];
           w_created_at := datetime_now_utc now_created |} in
      _ <- db_insert_one with_ai_workshop_sessions session ;;
      ret (PyDict (<["session_id" := PyStr (w_id session)]>
                   (<["message" := PyStr "Workshop session started"]> ∅)))
  end.

(** ** Seeding: [initialize_data] *)

(** An entry of [competences_data]: a competence before its id and
    creation time are drawn. *)
Record CompetenceData := {
  cd_number : Z;
  cd_title : string;
  cd_description : string;
  cd_duration_hours : Z;
  cd_units : Z;
  cd_learning_objectives : list string;
  cd_evaluation_method : string;
  cd_evaluation_description : string;
  cd_evaluation_criteria : list string;
  cd_success_threshold : float
}.

(** An entry of [sample_questions]. *)
Record QuestionData := {
  qd_competence_id : string;
  qd_question : string;
  qd_options : list string;
  qd_correct_answer : Z;
  qd_explanation : option string
}.

(** [competences_data], the curriculum of [initialize_data]. *)
Definition competences_data : list CompetenceData :=
  [
  {| cd_number := 1;
     cd_title := "Se familiariser avec le métier et la formation";
     cd_description := "Découverte du métier d'alphabétiseur numérique et de son environnement professionnel";
     cd_duration_hours := 15;
     cd_units := 1;
     cd_learning_objectives :=
       ["Présentation des objectifs de formation";
        "Connaissance de l'environnement professionnel";
        "Sensibilisation au développement durable";
        "Présentation et adaptation du parcours de formation";
        "Description de l'environnement de travail";
        "Informations sur les réalités du métier et des perspectives professionnelles";
        "Confirmation ou infirmation de son orientation professionnelle"];
     cd_evaluation_method := "Évaluation par jury";
     cd_evaluation_description := "L'épreuve comportera les items suivants : Sa perception (le métier, le marché du travail, la formation offerte, les possibilités de poursuite des études) ; Son auto positionnement (Se situer par rapport au métier, au marché du travail par rapport au parcours de formation).";
     cd_evaluation_criteria := ["Cohérence des réponses"; "Pertinence des réponses"];
     cd_success_threshold := 50%float |};
  {| cd_number := 2;
     cd_title := "Communiquer en français";
     cd_description := "Développement des compétences de communication écrite et orale en français";
     cd_duration_hours := 30;
     cd_units := 2;
     cd_learning_objectives :=
       ["Maniement de la langue (vocabulaire, grammaire, conjugaison, orthographe)";
        "Communication orale";
        "Communication écrite"];
     cd_evaluation_method := "Tâche complexe";
     cd_evaluation_description := "Vu l'importance de cette compétence axée sur les connaissances de base indispensables pour l'exercice du métier, l'épreuve portera sur la mobilisation des connaissances (savoir) traitée individuellement. La capacité de communication de l'apprenant est mesurée à partir de sa production écrite.";
     cd_evaluation_criteria := ["Cohérence des réponses"; "Pertinence des réponses"];
     cd_success_threshold := 50%float |};
  {| cd_number := 3;
     cd_title := "Prévenir les atteintes à la santé, à la sécurité au travail et à l'environnement";
     cd_description := "Application des mesures de prévention et de sécurité au travail";
     cd_duration_hours := 15;
     cd_units := 1;
     cd_learning_objectives :=
       ["Identification des situations de travail à risques et leurs effets sur la santé, la sécurité et l'intégrité physique du travailleur";
        "Application des lois et les règlements en matière de santé, de sécurité, d'hygiène, de salubrité et de protection de l'environnement au travail";
        "Application des moyens de prévention et de traitement relatifs de l'environnement";
        "Application des mesures préventives à l'égard de la santé et de la sécurité au travail"];
     cd_evaluation_method := "Tâche complexe";
     cd_evaluation_description := "Vu l'importance de cette compétence axée sur l'application des mesures de préservation de la santé, de la sécurité au travail et à l'environnement, l'évaluation portera sur une épreuve de connaissances pratiques";
     cd_evaluation_criteria := ["Précision de la terminologie"; "Clarté"; "Concision"];
     cd_success_threshold := 50%float |};
  {| cd_number := 4;
     cd_title := "Utiliser l'outil numérique";
     cd_description := "Maîtrise des outils numériques pour la formation à distance";
     cd_duration_hours := 30;
     cd_units := 2;
     cd_learning_objectives :=
       ["Recherche d'informations à partir de l'outil numérique";
        "Création de supports pédagogiques et didactiques numériques";
        "Conduite d'une formation à distance"];
     cd_evaluation_method := "Évaluation des acquis d'apprentissage à distance";
     cd_evaluation_description := "Vu l'importance de cette compétence axée sur les soins du corps, l'évaluation portera sur une épreuve de connaissances pratiques administrée individuellement et portant sur une situation de soins à l'eau. Le candidat travaille dans le respect des consignes de sécurité, d'hygiène et d'environnement.";
     cd_evaluation_criteria := ["Maîtrise technique"; "Créativité"; "Efficacité pédagogique"];
     cd_success_threshold := 75%float |};
  {| cd_number := 5;
     cd_title := "Planifier un cours d'alphabétisation";
     cd_description := "Conception et planification de séances d'alphabétisation";
     cd_duration_hours := 60;
     cd_units := 4;
     cd_learning_objectives :=
       ["Interprétation des documents contractuels d'une formation";
        "Analyse des documents pédagogiques d'une formation";
        "Détermination des objectifs d'apprentissage";
        "Construction d'une stratégie d'apprentissage";
        "Définition des critères et les démarches d'évaluation formative à mettre en œuvre";
        "Identification des ressources nécessaires pour l'atteinte des objectifs d'apprentissage";
        "Établissement d'un plan de déroulement de module de formation"];
     cd_evaluation_method := "Tâche complexe";
     cd_evaluation_description := "Vu l'importance de cette compétence axée sur la planification d'un cours d'alphabétisation, l'évaluation portera sur une épreuve de connaissances pratiques";
     cd_evaluation_criteria := ["Précision de la terminologie"; "Clarté"; "Concision"];
     cd_success_threshold := 50%float |};
  {| cd_number := 6;
     cd_title := "Animer un cours d'alphabétisation";
     cd_description := "Animation et gestion de groupes d'apprenants en alphabétisation";
     cd_duration_hours := 60;
     cd_units := 4;
     cd_learning_objectives :=
       ["Préparation de l'intervention d'animation";
        "Motiver les apprenants";
        "Gérer un groupe d'apprenants";
        "Mettre en œuvre des mesures de remédiation"];
     cd_evaluation_method := "Tâche complexe";
     cd_evaluation_description := "Vu l'importance de cette compétence axée sur le massage relaxant, l'évaluation portera sur une épreuve de connaissances pratiques administrée individuellement et portant sur un massage relaxant. Le candidat travaille dans le respect des consignes de sécurité, d'hygiène et d'environnement.";
     cd_evaluation_criteria := ["Précision de la terminologie"; "Clarté"; "Concision"];
     cd_success_threshold := 75%float |};
  {| cd_number := 7;
     cd_title := "Évaluer les acquis de l'apprentissage";
     cd_description := "Évaluation des progrès et acquis des apprenants";
     cd_duration_hours := 60;
     cd_units := 4;
     cd_learning_objectives :=
       ["Planification de l'évaluation des apprentissages";
        "Élaboration des outils et épreuves d'évaluation";
        "Conduite des séances d'évaluation";
        "Analyse des résultats de l'évaluation";
        "Mise en œuvre des mesures de remédiation"];
     cd_evaluation_method := "Tâche complexe";
     cd_evaluation_description := "Vu l'importance de cette compétence axée sur les soins du corps, l'évaluation portera sur une épreuve de connaissances pratiques administrée individuellement et portant sur une situation de soins de corps. Le candidat travaille dans le respect des consignes de sécurité, d'hygiène et d'environnement.";
     cd_evaluation_criteria := ["Précision de la terminologie"; "Clarté"; "Concision"];
     cd_success_threshold := 75%float |};
  {| cd_number := 8;
     cd_title := "Appliquer une démarche entrepreneuriale";
     cd_description := "Développement de l'esprit entrepreneurial et des compétences de gestion";
     cd_duration_hours := 15;
     cd_units := 1;
     cd_learning_objectives :=
       ["Caractérisation de l'entrepreneuriat"];
     cd_evaluation_method := "Projet entrepreneurial";
     cd_evaluation_description := "Développement d'un projet entrepreneurial dans le domaine de l'alphabétisation numérique";
     cd_evaluation_criteria := ["Innovation"; "Faisabilité"; "Impact social"];
     cd_success_threshold := 50%float |};
  {| cd_number := 9;
     cd_title := "Utiliser des moyens de recherche d'emploi";
     cd_description := "Techniques de recherche d'emploi et d'insertion professionnelle";
     cd_duration_hours := 15;
     cd_units := 1;
     cd_learning_objectives :=
       ["Identification des opportunités d'emploi";
        "Rédaction de CV et lettres de motivation";
        "Préparation aux entretiens d'embauche";
        "Développement du réseau professionnel"];
     cd_evaluation_method := "Simulation d'entretien";
     cd_evaluation_description := "Mise en situation d'entretien d'embauche et évaluation des outils de recherche d'emploi";
     cd_evaluation_criteria := ["Présentation personnelle"; "Argumentation"; "Motivation"];
     cd_success_threshold := 50%float |};
  {| cd_number := 10;
     cd_title := "S'intégrer en milieu de travail";
     cd_description := "Intégration professionnelle et adaptation au milieu de travail";
     cd_duration_hours := 360;
     cd_units := 24;
     cd_learning_objectives :=
       ["Adaptation aux règles et procédures de l'entreprise";
        "Développement des relations professionnelles";
        "Application des compétences acquises en situation réelle";
        "Évaluation de sa performance professionnelle"];
     cd_evaluation_method := "Stage pratique";
     cd_evaluation_description := "Stage d'immersion en milieu professionnel avec suivi et évaluation continue";
     cd_evaluation_criteria := ["Adaptation"; "Performance"; "Relations interpersonnelles"; "Autonomie"];
     cd_success_threshold := 75%float |}
  ].

(** [sample_questions] for a competence, by its number. *)
Definition sample_questions (competence : Competence) : list QuestionData :=
  let comp_id := c_id competence in
  if c_number competence =? 1 then
    [
    {| qd_competence_id := comp_id;
       qd_question := "Quel est l'objectif principal de la formation d'alphabétiseur numérique ?";
       qd_options :=
         ["Apprendre uniquement l'informatique";
          "Former des personnes capables d'enseigner la lecture et l'écriture avec des outils numériques";
          "Devenir développeur web";
          "Vendre des ordinateurs"];
       qd_correct_answer := 1;
       qd_explanation := Some "L'alphabétiseur numérique combine l'enseignement traditionnel de la lecture/écriture avec les outils numériques." |};
    {| qd_competence_id := comp_id;
       qd_question := "Quelle est une compétence essentielle de l'alphabétiseur numérique ?";
       qd_options :=
         ["Programmer des applications";
          "Réparer des ordinateurs";
          "Adapter les outils numériques aux besoins des apprenants";
          "Vendre des logiciels"];
       qd_correct_answer := 2;
       qd_explanation := Some "L'adaptation pédagogique des outils numériques est fondamentale dans ce métier." |}
    ]
  else if c_number competence =? 2 then
    [
    {| qd_competence_id := comp_id;
       qd_question := "Quelle est la règle d'accord du participe passé avec l'auxiliaire être ?";
       qd_options :=
         ["Il ne s'accorde jamais";
          "Il s'accorde toujours avec le sujet";
          "Il s'accorde avec le complément d'objet direct";
          "Il s'accorde selon l'humeur"];
       qd_correct_answer := 1;
       qd_explanation := Some "Le participe passé employé avec être s'accorde toujours avec le sujet." |}
    ]
  else if c_number competence =? 4 then
    [
    {| qd_competence_id := comp_id;
       qd_question := "Quel outil est le plus approprié pour créer une présentation interactive ?";
       qd_options :=
         ["Bloc-notes";
          "PowerPoint ou Google Slides";
          "Calculatrice";
          "Lecteur vidéo"];
       qd_correct_answer := 1;
       qd_explanation := Some "Les outils de présentation permettent d'intégrer texte, images et interactivité." |}
    ]
  else [].

(** The [Competence] built from [comp_data], with the uuid and clock
    reading drawn. *)
Definition make_competence (fresh_id : string) (now : Z)
    (comp_data : CompetenceData) : Competence :=
  {| c_id := fresh_id;
     c_number := cd_number comp_data;
     c_title := cd_title comp_data;
     c_description := cd_description comp_data;
     c_duration_hours := cd_duration_hours comp_data;
     c_units := cd_units comp_data;
     c_learning_objectives := cd_learning_objectives comp_data;
     c_evaluation_method := cd_evaluation_method comp_data;
     c_evaluation_description := cd_evaluation_description comp_data;
     c_evaluation_criteria := cd_evaluation_criteria comp_data;
     c_success_threshold := cd_success_threshold comp_data;
     c_created_at := datetime_now_utc now |}.

(** The [QuizQuestion] built from [q_data], with the uuid drawn. *)
Definition make_question (fresh_id : string) (q_data : QuestionData)
  : QuizQuestion :=
  {| q_id := fresh_id;
     q_competence_id := qd_competence_id q_data;
     q_question := qd_question q_data;
     q_options := qd_options q_data;
     q_correct_answer := qd_correct_answer q_data;
     q_explanation := qd_explanation q_data |}.

(** The supplies [initialize_data] draws from: the uuid and the clock
    reading of the [i]-th competence, the uuid of the [j]-th question. *)
Record SeedDraws := {
  competence_uuid : nat -> string;
  competence_now : nat -> Z;
  question_uuid : nat -> string
}.

(** The inner loop: [for q_data in sample_questions: insert one
    question]; [drawn] counts the question uuids drawn so far. *)
Definition insert_sample_question (draws : SeedDraws) (drawn : nat) (_ : nat)
    (q_data : QuestionData) : Handler nat :=
  _ <- db_insert_one with_quiz_questions
         (make_question (question_uuid draws drawn) q_data) ;;
  ret (S drawn).

(** The outer loop body: the sample questions of one competence. *)
Definition seed_questions_of (draws : SeedDraws) (drawn : nat) (_ : nat)
    (competence : Competence) : Handler nat :=
  for_enumerate (insert_sample_question draws) 0
                (sample_questions competence) drawn.

Definition initialize_data (draws : SeedDraws) : Handler pyval :=
  existing_count <- query (fun d =>
    count_documents (fun _ => true) (competences d)) ;;
  if 0 <? existing_count then
    ret (PyDict (<["message" := PyStr "Data already initialized"]> ∅))
  else
    let seeded :=
      imap (fun i comp_data =>
              make_competence (competence_uuid draws i) (competence_now draws i)
                              comp_data)
           competences_data in
    _ <- db_insert_many with_competences seeded ;;
    _ <- for_enumerate (seed_questions_of draws) 0 seeded O ;;
    ret (PyDict (<["message" :=
                     PyStr ("Initialized " ++ pretty (length seeded)
                            ++ " competences with sample quizzes")]> ∅)).

(** ** Specification-side notions *)

(** *** Quiz *)

(** Position [i] counts as correct when the answer list has an entry at
    [i] and it equals the correct-answer index of question [i]. *)
Definition position_correct (questions : list QuizQuestion) (answers : list Z)
    (i : nat) : bool :=
  match answers !! i, questions !! i with
  | Some a, Some q => a =? q_correct_answer q
  | _, _ => false
  end.

(** The number of correct positions below [len(questions)]. *)
Definition count_correct_positions (questions : list QuizQuestion)
    (answers : list Z) : Z :=
  Z.of_nat (length (List.filter (position_correct questions answers)
                                (seq 0 (length questions)))).

(** The questions stored for a competence id, in stored order. *)
Definition questions_of (competence_id : string) (d : Database)
  : list QuizQuestion :=
  List.filter (fun q => String.eqb (q_competence_id q) competence_id)
              (quiz_questions d).

(** The response of [submit_quiz] as a dict. *)
Definition quiz_result (score : float) (passed : bool) (correct total : Z)
  : pyval :=
  PyDict (<["score" := PyFloat score]>
          (<["passed" := PyBool passed]>
           (<["correct_answers" := PyInt correct]>
            (<["total_questions" := PyInt total]> ∅)))).

(** The binary64 percentage the handlers compute: the quotient is
    rounded, then its product with [100] is rounded. *)
Definition percentage (k n : Z) : float :=
  PrimFloat.mul (PrimFloat.div (float_of_int k) (float_of_int n))
                (float_of_int 100).

(** The value stored under a key of a returned dict. *)
Definition py_get (key : string) (v : pyval) : option pyval :=
  match v with
  | PyDict d => d !! key
  | _ => None
  end.

(** The attempt row [submit_quiz] leaves in the collection. *)
Definition attempt_of (user : User) (competence_id : string) (answers : list Z)
    (fresh_id : string) (now_created : Z) (competence : Competence)
    (d : Database) : QuizAttempt :=
  let questions := questions_of competence_id d in
  let score := percentage (count_correct_positions questions answers)
                          (Z.of_nat (length questions)) in
  {| a_id := fresh_id;
     a_user_id := u_id user;
     a_competence_id := competence_id;
     a_answers := answers;
     a_score := score;
     a_passed := PrimFloat.leb (c_success_threshold competence) score;
     a_attempt_number :=
       count_documents (of_user_and_competence a_user_id a_competence_id
                                               user competence_id)
                       (quiz_attempts d) + 1;
     a_created_at := bson_datetime (datetime_now_utc now_created) |}.

(** The progress collection after [submit_quiz]. *)
Definition progress_after_submit (user : User) (competence_id : string)
    (answers : list Z) (now_activity : Z) (d : Database) : list UserProgress :=
  let questions := questions_of competence_id d in
  let score := percentage (count_correct_positions questions answers)
                          (Z.of_nat (length questions)) in
  update_one
    (of_user_and_competence p_user_id p_competence_id user competence_id)
    (set_quiz_result score
       (count_documents (of_user_and_competence a_user_id a_competence_id
                                                user competence_id)
                        (quiz_attempts d) + 1)
       (bson_datetime (datetime_now_utc now_activity)))
    (user_progress d).

(** The world a successful submission leaves. *)
Definition world_after_submit (w : World) (user : User)
    (competence_id : string) (answers : list Z) (fresh_id : string)
    (now_created now_activity : Z) (competence : Competence) : World :=
  {| db := with_user_progress
             (fun _ => progress_after_submit user competence_id answers
                                             now_activity (db w))
             (with_quiz_attempts
                (insert_one (attempt_of user competence_id answers fresh_id
                                        now_created competence (db w)))
                (db w));
     llm_calls := llm_calls w |}.

(** The steps of [submit_quiz] for a user, laid out by cases on the
    stored questions, the catalog and the answers. *)
Definition submission_outcome (w : World) (user : User)
    (competence_id : string) (answers : list Z) (fresh_id : string)
    (now_created now_activity : Z) : Outcome pyval * World :=
  let questions := questions_of competence_id (db w) in
  let k := count_correct_positions questions answers in
  let n := Z.of_nat (length questions) in
  let score := percentage k n in
  match questions with
  | [] => (HTTPException 404 "Quiz not found", w)
  | _ :: _ =>
      match find_one (fun c => String.eqb (c_id c) competence_id)
                     (competences (db w)) with
      | None =>
          (Uncaught "TypeError" "'NoneType' object is not subscriptable", w)
      | Some competence =>
          if forallb int64 answers
          then (Return (quiz_result score
                          (PrimFloat.leb (c_success_threshold competence)
                                         score) k n),
                world_after_submit w user competence_id answers fresh_id
                                   now_created now_activity competence)
          else (Uncaught "OverflowError"
                         "MongoDB can only handle up to 8-byte ints", w)
      end
  end.

(** The query of [start_competence] and [submit_quiz] on progress rows. *)
Definition progress_of (user : User) (competence_id : string)
  : UserProgress -> bool :=
  fun p => String.eqb (p_user_id p) (u_id user)
           && String.eqb (p_competence_id p) competence_id.

(** The row [start_competence] builds for a pair without one. *)
Definition new_progress (fresh_id : string) (user : User)
    (competence_id : string) (now_started now_activity : Z) : UserProgress :=
  {| p_id := fresh_id;
     p_user_id := u_id user;
     p_competence_id := competence_id;
     p_status := "in_progress";
     p_current_score := 0%float;
     p_quiz_attempts := 0;
     p_assignment_submitted := false;
     p_assignment_score := None;
     p_exam_taken := false;
     p_exam_score := None;
     p_certified := false;
     p_started_at := Some (datetime_now_utc now_started);
     p_completed_at := None;
     p_last_activity := datetime_now_utc now_activity |}.

(** The world after the insertion of a progress row. *)
Definition add_progress (row : UserProgress) (w : World) : World :=
  {| db := with_user_progress (insert_one (stored row)) (db w);
     llm_calls := llm_calls w |}.

(** A row keeps every field that is not one of [current_score],
    [quiz_attempts] and [last_activity]. *)
Definition same_outside_quiz_fields (row row' : UserProgress) : Prop :=
  p_id row' = p_id row /\
  p_user_id row' = p_user_id row /\
  p_competence_id row' = p_competence_id row /\
  p_status row' = p_status row /\
  p_assignment_submitted row' = p_assignment_submitted row /\
  p_assignment_score row' = p_assignment_score row /\
  p_exam_taken row' = p_exam_taken row /\
  p_exam_score row' = p_exam_score row /\
  p_certified row' = p_certified row /\
  p_started_at row' = p_started_at row /\
  p_completed_at row' = p_completed_at row.

(** *** Percentages *)

(** The rounding slack of a percentage: [2^-45], two units in the last
    place of a binary64 value between 64 and 128. *)
Definition slack : Q := 1 # (2 ^ 45).

(** The sizes (of a quiz, of a catalog) up to which the percentages
    are checked one by one. *)
Definition checked_size : nat := 128.

(** All percentages [(k / n) * 100] with [k <= n], for every [n] from
    [1] to [bound], are within [slack] of [100 k / n]. *)
Definition percentages_close (bound : nat) : bool :=
  forallb (fun n =>
    forallb (fun k =>
      withinb (percentage (Z.of_nat k) (Z.of_nat n))
              (100 * inject_Z (Z.of_nat k) / inject_Z (Z.of_nat n)) slack)
      (seq 0 (S n)))
    (seq 1 bound).


(** *** Authentication *)

(** The first session row stored for a token. *)
Definition session_row (t : string) (d : Database) : option UserSession :=
  find_one (fun s => String.eqb (s_session_token s) t) (user_sessions d).

(** No user row carries the id a session refers to. *)
Definition user_missing (s : UserSession) (d : Database) : Prop :=
  forall u, In u (users d) -> u_id u <> s_user_id s.

(** The user [get_current_user] resolves, as a function of the token. *)
Definition resolve (session_token : option string) (now : Z) (d : Database)
  : option User :=
  match session_token with
  | None => None
  | Some t =>
      if String.eqb t "" then None else
      match session_row t d with
      | None => None
      | Some s =>
          if utc_instant (s_expires_at s) <? now then None
          else find_one (fun u => String.eqb (u_id u) (s_user_id s)) (users d)
      end
  end.

(** A request carrying only the cookie, and the credentials of a
    request carrying only the bearer header. *)
Definition cookie_request (others : gmap string string) (token : string)
  : Request :=
  {| cookies := <["session_token" := token]> others |}.

Definition plain_request (others : gmap string string) : Request :=
  {| cookies := delete "session_token" others |}.

Definition bearer (token : string) : HTTPAuthorizationCredentials :=
  {| scheme := "Bearer"; credentials := token |}.

(** *** Dashboard *)

(** The number of competences in the catalog, and the number of the
    user's progress rows whose status is [completed]. *)
Definition total_of (d : Database) : Z :=
  Z.of_nat (length (competences d)).

Definition completed_of (user : User) (d : Database) : Z :=
  Z.of_nat (length (List.filter
    (fun p => String.eqb (p_user_id p) (u_id user)
              && String.eqb (p_status p) "completed")
    (user_progress d))).

(** *** Login *)

(** The user row [process_session] creates for a new email. *)
Definition new_user (fresh_id email name : string) (picture : option string)
    (now_user : Z) : User :=
  {| u_id := fresh_id; u_email := email; u_name := name;
     u_picture := picture; u_role := "learner";
     u_created_at := datetime_now_utc now_user;
     u_profile_completed := false |}.

(** The session row it leaves in the collection: seven days from
    [now_expires], as the database keeps datetimes. *)
Definition session_for (user : User) (token : string)
    (now_expires now_created : Z) : UserSession :=
  {| s_user_id := u_id user; s_session_token := token;
     s_expires_at :=
       bson_datetime (plus_seven_days (datetime_now_utc now_expires));
     s_created_at := bson_datetime (datetime_now_utc now_created) |}.

(** What a successful login hands back. *)
Definition login_result (user : User) (token : string) : LoginResult :=
  {| lr_user := user; lr_session_token := token;
     lr_set_cookie :=
       {| sc_key := "session_token"; sc_value := token;
          sc_max_age := 604800; sc_httponly := true; sc_secure := true;
          sc_samesite := "none"; sc_path := "/" |} |}.

(** The world after the insertion of a user, of a session row. *)
Definition add_user (user : User) (w : World) : World :=
  {| db := with_users (insert_one (stored user)) (db w);
     llm_calls := llm_calls w |}.

Definition add_session (s : UserSession) (w : World) : World :=
  {| db := with_user_sessions (insert_one s) (db w);
     llm_calls := llm_calls w |}.

(** What [process_session] does once the auth service has described
    the user with the object [d]. *)
Definition login_with (d : JsonObject) (fresh_id : string)
    (now_user now_expires now_created : Z) (w : World)
  : Outcome LoginResult * World :=
  match d !! "email" with
  | None => (Uncaught "KeyError" "'email'", w)
  | Some email =>
      match find_one (fun u => String.eqb (u_email u) email)
                     (users (db w)) with
      | Some user =>
          match d !! "session_token" with
          | None => (Uncaught "KeyError" "'session_token'", w)
          | Some token =>
              (Return (login_result user token),
               add_session (session_for user token now_expires
                                        now_created) w)
          end
      | None =>
          match d !! "name" with
          | None => (Uncaught "KeyError" "'name'", w)
          | Some name =>
              let user := new_user fresh_id email name
                                   (d !! "picture") now_user in
              match d !! "session_token" with
              | None =>
                  (Uncaught "KeyError" "'session_token'",
                   add_user user w)
              | Some token =>
                  (Return (login_result user token),
                   add_session (session_for user token now_expires
                                            now_created)
                               (add_user user w))
              end
          end
      end
  end.

(** The steps of [process_session] laid out by cases on the request
    body, the auth service's reply and the user store. *)
Definition login_outcome (auth : AuthService) (body : JsonObject)
    (fresh_id : string) (now_user now_expires now_created : Z) (w : World)
  : Outcome LoginResult * World :=
  match body !! "session_id" with
  | None => (HTTPException 400 "Session ID required", w)
  | Some sid =>
      if String.eqb sid "" then (HTTPException 400 "Session ID required", w)
      else
        match auth sid with
        | AuthFailure exn_type message => (Uncaught exn_type message, w)
        | AuthReply status json =>
            if negb (status =? 200) || not_value json
            then (HTTPException 400 "Invalid session ID", w)
            else
              match json with
              | JsonDict d =>
                  login_with d fresh_id now_user now_expires now_created w
              | _ => (Uncaught "TypeError" (not_subscriptable json), w)
              end
        end
  end.

(** A reply of the auth service that [process_session] refuses: another
    status than 200, or a body that is falsy (no body, [null], [false],
    zero, an empty string, array or object). *)
Definition refused_reply (response : AuthResponse) : Prop :=
  exists status json,
    response = AuthReply status json /\
    (status <> 200 \/ not_value json = true).

(** *** Logout *)

(** What [logout] always hands back. *)
Definition logged_out : LogoutResult :=
  {| lo_message := "Logged out successfully";
     lo_delete_cookie := ("session_token", "/") |}.

(** The query [{"session_token": token}]. *)
Definition has_token (token : string) (s : UserSession) : bool :=
  String.eqb (s_session_token s) token.

(** *** Workshop *)

(** The two queries of [chat_with_ai] on workshop sessions: the
    ownership lookup and the update. *)
Definition owned_session (session_id : string) (user : User)
  : AIWorkshopSession -> bool :=
  fun s => String.eqb (w_id s) session_id
           && String.eqb (w_user_id s) (u_id user).

Definition session_with_id (session_id : string) : AIWorkshopSession -> bool :=
  fun s => String.eqb (w_id s) session_id.

(** The call [chat_with_ai] makes to the chat backend. *)
Definition chat_call (session_id : string) (competence : Competence)
    (message : string) : LlmCall :=
  {| llm_session_id := session_id;
     llm_system_message := system_message_of competence;
     llm_text := message |}.

(** The two transcript entries of one exchange. *)
Definition exchange (message response : string) (now_user now_assistant : Z)
  : list ChatMessage :=
  [ {| m_role := "user"; m_content := message;
       m_timestamp := datetime_now_utc now_user |};
    {| m_role := "assistant"; m_content := response;
       m_timestamp := datetime_now_utc now_assistant |} ].

(** The dicts the workshop handlers return. *)
Definition chat_response (response : string) : pyval :=
  PyDict (<["response" := PyStr response]> ∅).

Definition workshop_started (session_id : string) : pyval :=
  PyDict (<["session_id" := PyStr session_id]>
          (<["message" := PyStr "Workshop session started"]> ∅)).

(** The session row [start_ai_workshop] leaves in the collection. *)
Definition new_workshop (fresh_id : string) (user : User)
    (competence_id : string) (now_created : Z) : AIWorkshopSession :=
  {| w_id := fresh_id; w_user_id := u_id user;
     w_competence_id := competence_id; w_session_type := "individual";
     w_status := "active"; w_messages := [];
     w_created_at := bson_datetime (datetime_now_utc now_created) |}.

(** *** Attempts *)

(** The query [{"user_id": user.id, "competence_id": competence_id}] on
    attempts. *)
Definition attempt_of_pair (user : User) (competence_id : string)
  : QuizAttempt -> bool :=
  of_user_and_competence a_user_id a_competence_id user competence_id.

(** The progress rows and the certificates of a user. *)
Definition progress_rows_of (user : User) (d : Database) : list UserProgress :=
  find (fun p => String.eqb (p_user_id p) (u_id user)) (user_progress d).

Definition certificates_of (user : User) (d : Database) : list Certificate :=
  find (fun c => String.eqb (ct_user_id c) (u_id user)) (certificates d).

(** The snapshot [get_dashboard] computes from the database. *)
Definition dashboard_of (user : User) (d : Database) : Dashboard :=
  let progress_list := map WithObjectId (progress_rows_of user d) in
  let certs := map WithObjectId (certificates_of user d) in
  let total := count_documents (fun _ => true) (competences d) in
  let completed := count_status "completed" progress_list in
  {| d_user := user;
     d_overall_progress :=
       if 0 <? total then PyFloat (percentage completed total) else PyInt 0;
     d_total_competences := total;
     d_completed_competences := completed;
     d_in_progress_competences := count_status "in_progress" progress_list;
     d_certificates_earned := Z.of_nat (length certs);
     d_progress_list := progress_list;
     d_certificates := certs |}.

(** *** Seeding *)

(** The competences [initialize_data] leaves in the catalog, and the
    questions: the sample questions of the seeded competences, in
    catalog order, with their uuids drawn one after the other. *)
Definition seeded_competences (draws : SeedDraws) : list Competence :=
  imap (fun i comp_data =>
          stored (make_competence (competence_uuid draws i)
                                  (competence_now draws i) comp_data))
       competences_data.

Definition seeded_questions (draws : SeedDraws) : list QuizQuestion :=
  imap (fun j q_data => make_question (question_uuid draws j) q_data)
       (flat_map sample_questions (seeded_competences draws)).

Definition already_initialized : pyval :=
  PyDict (<["message" := PyStr "Data already initialized"]> ∅).

Definition initialized_ten : pyval :=
  PyDict (<["message" :=
              PyStr "Initialized 10 competences with sample quizzes"]> ∅).

(** The world after a seeding of an empty catalog. *)
Definition seeded_world (draws : SeedDraws) (w : World) : World :=
  {| db := with_quiz_questions
             (fun coll => (coll ++ seeded_questions draws)%list)
             (with_competences (fun _ => seeded_competences draws) (db w));
     llm_calls := llm_calls w |}.

(** Uuids and clock readings numbered by their draw. *)
Definition numbered_draws : SeedDraws :=
  {| competence_uuid := fun i => "c-" ++ pretty i;
     competence_now := fun i => Z.of_nat i;
     question_uuid := fun j => "q-" ++ pretty j |}.

(** ** Sample data *)

(** The epoch as the database returns it. *)
Definition epoch : datetime := bson_datetime (datetime_now_utc 0).

Definition alice : User :=
  {| u_id := "u-alice"; u_email := "alice@example.org"; u_name := "Alice";
     u_picture := None; u_role := "learner"; u_created_at := epoch;
     u_profile_completed := false |}.

Definition bob : User :=
  {| u_id := "u-bob"; u_email := "bob@example.org"; u_name := "Bob";
     u_picture := None; u_role := "learner"; u_created_at := epoch;
     u_profile_completed := false |}.

(** The first competence of the seeded curriculum, threshold 50.0. *)
Definition competence_1 : Competence :=
  {| c_id := "c-1"; c_number := 1;
     c_title := "Se familiariser avec le métier et la formation";
     c_description := "Découverte du métier";
     c_duration_hours := 15; c_units := 1;
     c_learning_objectives := ["Présentation des objectifs de formation"];
     c_evaluation_method := "Évaluation par jury";
     c_evaluation_description := "Perception et auto positionnement";
     c_evaluation_criteria := ["Cohérence des réponses"; "Pertinence des réponses"];
     c_success_threshold := 50%float;
     c_created_at := epoch |}.

(** The [i]-th competence of a catalog: [competence_1] under the id
    [c-i]. *)
Definition competence_n (i : nat) : Competence :=
  {| c_id := "c-" ++ pretty i; c_number := Z.of_nat i;
     c_title := c_title competence_1;
     c_description := c_description competence_1;
     c_duration_hours := 15; c_units := 1;
     c_learning_objectives := c_learning_objectives competence_1;
     c_evaluation_method := c_evaluation_method competence_1;
     c_evaluation_description := c_evaluation_description competence_1;
     c_evaluation_criteria := c_evaluation_criteria competence_1;
     c_success_threshold := 50%float;
     c_created_at := epoch |}.

(** The [i]-th question of competence [c-1], whose correct option is
    [correct]. *)
Definition question_1 (i : nat) (correct : Z) : QuizQuestion :=
  {| q_id := "q-" ++ pretty i; q_competence_id := "c-1";
     q_question := "Quel est l'objectif principal de la formation ?";
     q_options := ["A"; "B"; "C"; "D"];
     q_correct_answer := correct;
     q_explanation := None |}.

Definition progress_1 : UserProgress :=
  {| p_id := "p-1"; p_user_id := "u-alice"; p_competence_id := "c-1";
     p_status := "in_progress"; p_current_score := 0%float;
     p_quiz_attempts := 0; p_assignment_submitted := false;
     p_assignment_score := None; p_exam_taken := false; p_exam_score := None;
     p_certified := false; p_started_at := Some epoch; p_completed_at := None;
     p_last_activity := epoch |}.

(** Alice, competence [c-1] and a quiz of [n] questions whose correct
    option is always [1]. *)
Definition quiz_database (n : nat) : Database :=
  {| users := [alice]; user_sessions := []; competences := [competence_1];
     user_progress := [progress_1];
     quiz_questions := map (fun i => question_1 i 1) (seq 1 n);
     quiz_attempts := []; ai_workshop_sessions := []; certificates := [] |}.

Definition world_of (d : Database) : World :=
  {| db := d; llm_calls := [] |}.

(** A week-long session of Alice's token, created at the epoch, stored
    naive as the driver returns it. *)
Definition alice_session : UserSession :=
  {| s_user_id := "u-alice"; s_session_token := "tok-alice";
     s_expires_at := {| wall := 604800000000; tzinfo := None |};
     s_created_at := epoch |}.

(** Bob's session, with the same expiry. *)
Definition bob_session : UserSession :=
  {| s_user_id := "u-bob"; s_session_token := "tok-bob";
     s_expires_at := {| wall := 604800000000; tzinfo := None |};
     s_created_at := epoch |}.

(** Alice and Bob, each with one session. *)
Definition session_database : Database :=
  {| users := [alice; bob]; user_sessions := [alice_session; bob_session];
     competences := []; user_progress := []; quiz_questions := [];
     quiz_attempts := []; ai_workshop_sessions := []; certificates := [] |}.

(** The session row is there, the user row is not. *)
Definition dangling_database : Database :=
  {| users := [bob]; user_sessions := [alice_session]; competences := [];
     user_progress := []; quiz_questions := []; quiz_attempts := [];
     ai_workshop_sessions := []; certificates := [] |}.

(** Alice owns workshop session [ws-1]. *)
Definition workshop_1 : AIWorkshopSession :=
  {| w_id := "ws-1"; w_user_id := "u-alice"; w_competence_id := "c-1";
     w_session_type := "individual"; w_status := "active";
     w_messages := []; w_created_at := epoch |}.

Definition workshop_database : Database :=
  {| users := [alice; bob]; user_sessions := []; competences := [competence_1];
     user_progress := []; quiz_questions := []; quiz_attempts := [];
     ai_workshop_sessions := [workshop_1]; certificates := [] |}.

(** The same store after the competence has gone from the catalog. *)
Definition orphan_workshop_database : Database :=
  {| users := [alice; bob]; user_sessions := []; competences := [];
     user_progress := []; quiz_questions := []; quiz_attempts := [];
     ai_workshop_sessions := [workshop_1]; certificates := [] |}.

(** A chat backend that answers every call. *)
Definition echo_llm : LlmBackend := fun call => Reply (llm_text call).

(** Alice's completed row for competence [c-i]. *)
Definition completed_n (i : nat) : UserProgress :=
  {| p_id := "p-" ++ pretty i; p_user_id := "u-alice";
     p_competence_id := "c-" ++ pretty i;
     p_status := "completed"; p_current_score := 80%float;
     p_quiz_attempts := 1; p_assignment_submitted := false;
     p_assignment_score := None; p_exam_taken := false; p_exam_score := None;
     p_certified := false; p_started_at := Some epoch;
     p_completed_at := Some epoch; p_last_activity := epoch |}.

(** A catalog of [total] competences of which Alice completed the
    first [completed]. *)
Definition dashboard_database (completed total : nat) : Database :=
  {| users := [alice]; user_sessions := [];
     competences := map competence_n (seq 1 total);
     user_progress := map completed_n (seq 1 completed);
     quiz_questions := []; quiz_attempts := [];
     ai_workshop_sessions := []; certificates := [] |}.

(** The three-question quiz of competence [c-1] whose correct options
    are [1], [1] and [2]. *)
Definition scenario_database : Database :=
  {| users := [alice]; user_sessions := []; competences := [competence_1];
     user_progress := [];
     quiz_questions := [question_1 1 1; question_1 2 1; question_1 3 2];
     quiz_attempts := []; ai_workshop_sessions := []; certificates := [] |}.

(** A question whose competence id has no row in the catalog. *)
Definition orphan_database : Database :=
  {| users := [alice]; user_sessions := []; competences := [];
     user_progress := []; quiz_questions := [question_1 1 1];
     quiz_attempts := []; ai_workshop_sessions := []; certificates := [] |}.

(** A database with nothing in it. *)
Definition empty_database : Database :=
  {| users := []; user_sessions := []; competences := [];
     user_progress := []; quiz_questions := []; quiz_attempts := [];
     ai_workshop_sessions := []; certificates := [] |}.

(** An auth service that knows one external session, Alice's, and
    answers 401 to any other. *)
Definition alice_reply : JsonObject :=
  <["email" := "alice@example.org"]>
    (<["name" := "Alice"]> (<["session_token" := "tok-alice"]> ∅)).

Definition sample_auth : AuthService :=
  fun session_id =>
    if String.eqb session_id "ext-alice"
    then AuthReply 200 (JsonDict alice_reply)
    else AuthReply 401 (JsonDict ∅).

Definition alice_body : JsonObject := <["session_id" := "ext-alice"]> ∅.

(** An auth service whose reply for Alice lacks the session token. *)
Definition tokenless_auth : AuthService :=
  fun _ => AuthReply 200 (JsonDict (delete "session_token" alice_reply)).

(** ** The claims as the specification words them, where the code
    departs from them *)

(** Scoring as stated: the returned score is the rational [100 k / N]
    itself. *)
Definition scoring_as_stated (w : World) (user : User) (competence_id : string)
    (answers : list Z) (fresh_id : string) (now_created now_activity : Z)
    (competence : Competence) : Prop :=
  let questions := questions_of competence_id (db w) in
  let k := count_correct_positions questions answers in
  let n := Z.of_nat (length questions) in
  exists score passed,
    fst (submit_quiz competence_id answers (Some user) fresh_id now_created
                     now_activity w)
      = Return (quiz_result score passed k n) /\
    exactly score (100 * inject_Z k / inject_Z n) /\
    passed = PrimFloat.leb (c_success_threshold competence) score.

(** The three reasons for "unauthenticated" that the specification
    lists: no token, no session row, or an expiry strictly before now. *)
Definition unauthenticated_as_stated (request : Request)
    (creds : option HTTPAuthorizationCredentials) (now : Z) (w : World) : Prop :=
  select_session_token request creds = None \/
  (exists t, select_session_token request creds = Some t /\
             forall s, In s (user_sessions (db w)) -> s_session_token s <> t) \/
  (exists t s, select_session_token request creds = Some t /\
               session_row t (db w) = Some s /\
               utc_instant (s_expires_at s) < now).

(** Idempotent start as stated: two calls in a row return the same
    row. *)
Definition same_row_twice_as_stated (w : World) (user : User)
    (competence_id id1 id2 : string) (t1 t1' t2 t2' : Z) : Prop :=
  exists row w1 w2,
    start_competence competence_id (Some user) id1 t1 t1' w
      = (Return row, w1) /\
    start_competence competence_id (Some user) id2 t2 t2' w1
      = (Return row, w2).

(** The dashboard percentage as stated, of the dict the coroutine
    builds: [0] for an empty catalog, the rational [100 completed /
    total] itself otherwise. *)
Definition overall_progress_as_stated (w : World) (user : User) : Prop :=
  exists dash,
    fst (get_dashboard (Some user) w) = Return dash /\
    (total_of (db w) = 0 -> d_overall_progress dash = PyInt 0) /\
    (total_of (db w) <> 0 ->
     exists f, d_overall_progress dash = PyFloat f /\
               exactly f (100 * inject_Z (completed_of user (db w))
                          / inject_Z (total_of (db w)))).

(** * Proofs *)

(** ** The scoring loop *)

Section ScoringLoop.
Variable answers : list Z.

(** The loop from index [i] over the remaining questions [qs]. *)
Lemma for_enumerate_score qs : forall i acc w,
  for_enumerate (score_body answers) i qs acc w =
  (Return (acc + Z.of_nat (length (List.filter
      (fun j => match answers !! j, qs !! (j - i)%nat with
                | Some a, Some q => a =? q_correct_answer q
                | _, _ => false
                end)
      (seq i (length qs))))), w).
Proof.
  induction qs as [|q qs IH]; intros i acc w.
  - simpl. unfold ret. f_equal. f_equal. lia.
  - cbn [for_enumerate length seq List.filter].
    rewrite Nat.sub_diag. cbn [lookup list_lookup].
    assert (Hbody : exists b : bool,
      score_body answers acc i q w
        = (Return (if b then acc + 1 else acc), w) /\
      b = match answers !! i with
          | Some a => a =? q_correct_answer q
          | None => false
          end).
    { unfold score_body, getitem, bind, ret, throw.
      destruct (Nat.ltb_spec i (length answers)) as [Hlt|Hge].
      - destruct (lookup_lt_is_Some_2 answers i Hlt) as [a Ha].
        rewrite Ha. exists (a =? q_correct_answer q).
        destruct (a =? q_correct_answer q); auto.
      - rewrite (lookup_ge_None_2 answers i Hge). exists false. auto. }
    destruct Hbody as (b & Hb & Hbeq).
    unfold bind at 1. rewrite Hb, IH. f_equal. f_equal.
    rewrite <- Hbeq.
    assert (Htail :
      List.filter
        (fun j => match answers !! j, (q :: qs) !! (j - i)%nat with
                  | Some a, Some q' => a =? q_correct_answer q'
                  | _, _ => false
                  end) (seq (S i) (length qs)) =
      List.filter
        (fun j => match answers !! j, qs !! (j - S i)%nat with
                  | Some a, Some q' => a =? q_correct_answer q'
                  | _, _ => false
                  end) (seq (S i) (length qs))).
    { apply filter_ext_in. intros j Hj. apply in_seq in Hj.
      replace (j - i)%nat with (S (j - S i)) by lia. reflexivity. }
    rewrite Htail. destruct b; cbn [length]; lia.
Qed.

(** The whole loop returns the number of correct positions and raises
    no [IndexError]. *)
Lemma for_enumerate_count questions w :
  for_enumerate (score_body answers) 0 questions 0 w =
  (Return (count_correct_positions questions answers), w).
Proof.
  rewrite for_enumerate_score. unfold count_correct_positions, position_correct.
  f_equal. f_equal. simpl.
  rewrite (filter_ext_in _
    (fun i => match answers !! i, questions !! i with
              | Some a, Some q => a =? q_correct_answer q
              | _, _ => false
              end)); [reflexivity|].
  intros j _. rewrite Nat.sub_0_r. reflexivity.
Qed.

End ScoringLoop.

(** ** [submit_quiz]: what a run does *)

Lemma submit_quiz_cases w user competence_id answers fresh_id now_created
    now_activity :
  submit_quiz competence_id answers (Some user) fresh_id now_created
              now_activity w
  = submission_outcome w user competence_id answers fresh_id now_created
                       now_activity.
Proof.
  unfold submit_quiz, submission_outcome, world_after_submit, attempt_of,
    progress_after_submit.
  cbv zeta.
  unfold bind at 1. unfold query at 1. unfold find.
  fold (questions_of competence_id (db w)).
  destruct (questions_of competence_id (db w)) as [|q qs]; [reflexivity|].
  unfold bind at 1. rewrite for_enumerate_count.
  unfold bind at 1. unfold truediv.
  assert (Hn : (Z.of_nat (length (q :: qs)) =? 0) = false).
  { apply Z.eqb_neq. simpl length. lia. }
  rewrite Hn. unfold ret at 1.
  unfold bind at 1. unfold query at 1.
  destruct (find_one _ (competences (db w))) as [competence|]; [|reflexivity].
  unfold bind at 1. unfold query at 1.
  unfold db_insert_one. cbn [encodable attempt_bson a_answers].
  destruct (forallb int64 answers); reflexivity.
Qed.

(** A submission whose answers the database can hold, to a quiz with
    questions and a competence: it succeeds. *)
Lemma submit_quiz_run w user competence_id answers fresh_id now_created
    now_activity competence :
  questions_of competence_id (db w) <> [] ->
  find_one (fun c => String.eqb (c_id c) competence_id) (competences (db w))
    = Some competence ->
  forallb int64 answers = true ->
  let questions := questions_of competence_id (db w) in
  let k := count_correct_positions questions answers in
  let n := Z.of_nat (length questions) in
  let score := percentage k n in
  submit_quiz competence_id answers (Some user) fresh_id now_created
              now_activity w =
  (Return (quiz_result score
             (PrimFloat.leb (c_success_threshold competence) score) k n),
   world_after_submit w user competence_id answers fresh_id now_created
                      now_activity competence).
Proof.
  intros Hne Hc Hfit. cbv zeta.
  rewrite submit_quiz_cases. unfold submission_outcome. cbv zeta.
  rewrite Hc, Hfit.
  destruct (questions_of competence_id (db w)); [contradiction|reflexivity].
Qed.

(** An answer outside 64 bits: the attempt cannot be encoded, the
    submission ends in an uncaught [OverflowError] and nothing is
    written. *)
Lemma submit_quiz_overflow w user competence_id answers fresh_id now_created
    now_activity competence :
  questions_of competence_id (db w) <> [] ->
  find_one (fun c => String.eqb (c_id c) competence_id) (competences (db w))
    = Some competence ->
  forallb int64 answers = false ->
  submit_quiz competence_id answers (Some user) fresh_id now_created
              now_activity w =
  (Uncaught "OverflowError" "MongoDB can only handle up to 8-byte ints", w).
Proof.
  intros Hne Hc Hfit.
  rewrite submit_quiz_cases. unfold submission_outcome. cbv zeta.
  rewrite Hc, Hfit.
  destruct (questions_of competence_id (db w)); [contradiction|reflexivity].
Qed.

(** A submission returns only in the case [submit_quiz_run]
    describes. *)
Lemma submit_quiz_Return w user competence_id answers fresh_id now_created
    now_activity result w' :
  submit_quiz competence_id answers (Some user) fresh_id now_created
              now_activity w = (Return result, w') ->
  questions_of competence_id (db w) <> [] /\
  forallb int64 answers = true /\
  exists competence,
    find_one (fun c => String.eqb (c_id c) competence_id) (competences (db w))
      = Some competence /\
    py_get "score" result
      = Some (PyFloat (percentage
                (count_correct_positions (questions_of competence_id (db w))
                                         answers)
                (Z.of_nat (length (questions_of competence_id (db w)))))) /\
    w' = world_after_submit w user competence_id answers fresh_id now_created
                            now_activity competence.
Proof.
  rewrite submit_quiz_cases. unfold submission_outcome. cbv zeta.
  destruct (questions_of competence_id (db w)) as [|q qs]; [discriminate|].
  destruct (find_one _ (competences (db w))) as [competence|];
    [|discriminate].
  destruct (forallb int64 answers); [|discriminate].
  intros H. injection H as <- <-.
  split; [discriminate|]. split; [reflexivity|].
  exists competence. repeat split; reflexivity.
Qed.

(** ** Percentages *)

Lemma withinb_within f q eps : withinb f q eps = true -> within f q eps.
Proof.
  unfold withinb, within. destruct (float_to_Q f); [|discriminate].
  apply Qle_bool_iff.
Qed.

(** For sizes up to [checked_size] the binary64 percentage is within
    [slack] of the exact one. *)
Lemma percentage_close (k n : Z) :
  1 <= n <= Z.of_nat checked_size -> 0 <= k <= n ->
  within (percentage k n) (100 * inject_Z k / inject_Z n) slack.
Proof.
  intros Hn Hk.
  assert (Hall : percentages_close checked_size = true) by (vm_compute; reflexivity).
  unfold percentages_close in Hall.
  rewrite forallb_forall in Hall.
  specialize (Hall (Z.to_nat n)).
  rewrite forallb_forall in Hall.
  assert (Hin : In (Z.to_nat n) (seq 1 checked_size)) by (apply in_seq; lia).
  specialize (Hall Hin (Z.to_nat k)).
  assert (Hik : In (Z.to_nat k) (seq 0 (S (Z.to_nat n)))) by (apply in_seq; lia).
  specialize (Hall Hik).
  rewrite !Z2Nat.id in Hall by lia.
  apply withinb_within. exact Hall.
Qed.

Lemma count_correct_positions_bounds questions answers :
  0 <= count_correct_positions questions answers
    <= Z.of_nat (length questions).
Proof.
  unfold count_correct_positions. split; [lia|].
  apply inj_le.
  etransitivity; [apply filter_length_le|]. rewrite length_seq. reflexivity.
Qed.

(** ** Quiz scoring *)

(** C1 (as amended). For an authenticated user, a competence found in
    the catalog, a non-empty question list of length [N] and an answer
    list whose integers fit in 64 bits, the submission returns
    [correct_answers = k], the number of positions [i < N] at which
    the answer list has an entry equal to question [i]'s correct index
    (the loop makes no out-of-range access: the run returns),
    [total_questions = N], the score computed in binary64 as
    [(k / N) * 100], and [passed] true exactly when that score is at
    least the stored threshold.  With an answer outside 64 bits the
    submission returns nothing: it ends in an uncaught [OverflowError]
    and the world is unchanged.  The score is not always the rational
    [100 k / N]; for quizzes of up to 128 questions it is within
    [2^-45] of it. *)
Theorem submit_quiz_scoring :
  forall (w : World) (user : User) (competence_id : string) (answers : list Z)
         (fresh_id : string) (now_created now_activity : Z)
         (competence : Competence),
    questions_of competence_id (db w) <> [] ->
    find_one (fun c => String.eqb (c_id c) competence_id) (competences (db w))
      = Some competence ->
    let questions := questions_of competence_id (db w) in
    let k := count_correct_positions questions answers in
    let n := Z.of_nat (length questions) in
    let score := percentage k n in
    (forallb int64 answers = true ->
     fst (submit_quiz competence_id answers (Some user) fresh_id now_created
                      now_activity w)
     = Return (quiz_result score
                 (PrimFloat.leb (c_success_threshold competence) score) k n)) /\
    (forallb int64 answers = false ->
     exists message,
       submit_quiz competence_id answers (Some user) fresh_id now_created
                   now_activity w
       = (Uncaught "OverflowError" message, w)) /\
    (n <= Z.of_nat checked_size ->
     within score (100 * inject_Z k / inject_Z n) slack).
Proof.
  intros w user competence_id answers fresh_id now_created now_activity
         competence Hne Hc questions k n score.
  split; [|split].
  - intros Hfit.
    pose proof (submit_quiz_run w user competence_id answers fresh_id
                  now_created now_activity competence Hne Hc Hfit) as Hrun.
    cbv zeta in Hrun. fold questions k n score in Hrun.
    rewrite Hrun. reflexivity.
  - intros Hfit. eexists.
    exact (submit_quiz_overflow w user competence_id answers fresh_id
             now_created now_activity competence Hne Hc Hfit).
  - intros Hsize. apply percentage_close.
    + split; [|exact Hsize]. unfold n, questions.
      destruct (questions_of competence_id (db w)); [contradiction|].
      simpl length. lia.
    + apply count_correct_positions_bounds.
Qed.

(** Two correct answers out of four: score 50.0, passed at threshold
    50.0; the same submission with [2^63] as third answer returns
    nothing. *)
Lemma submit_quiz_scoring_witness :
  questions_of "c-1" (db (world_of (quiz_database 4))) <> [] /\
  find_one (fun c => String.eqb (c_id c) "c-1")
           (competences (db (world_of (quiz_database 4)))) = Some competence_1 /\
  fst (submit_quiz "c-1" [1; 1; 0; 0] (Some alice) "a-1" 0 0
                   (world_of (quiz_database 4)))
  = Return (quiz_result 50%float true 2 4) /\
  exists message,
    submit_quiz "c-1" [1; 1; 2 ^ 63; 0] (Some alice) "a-1" 0 0
                (world_of (quiz_database 4))
    = (Uncaught "OverflowError" message, world_of (quiz_database 4)).
Proof.
  assert (Hne : questions_of "c-1" (db (world_of (quiz_database 4))) <> [])
    by discriminate.
  split; [exact Hne|]. split; [reflexivity|]. split.
  - exact (proj1 (submit_quiz_scoring (world_of (quiz_database 4)) alice "c-1"
                    [1; 1; 0; 0] "a-1" 0 0 competence_1 Hne eq_refl) eq_refl).
  - exact (proj1 (proj2 (submit_quiz_scoring (world_of (quiz_database 4)) alice
                    "c-1" [1; 1; 2 ^ 63; 0] "a-1" 0 0 competence_1 Hne
                    eq_refl)) eq_refl).
Defined.

(** Answers [1, 0, 2] against correct options [1, 1, 2]: two correct,
    and a score that is the binary64 value printed 66.66666666666666
    (the one nearest to two thirds of 100 is the next one up). *)
Example submit_quiz_two_of_three :
  fst (submit_quiz "c-1" [1; 0; 2] (Some alice) "a-1" 0 0
                   (world_of scenario_database))
  = Return (quiz_result 0x1.0aaaaaaaaaaaap+6%float true 2 3) /\
  PrimFloat.div (float_of_int 200) (float_of_int 3)
  = 0x1.0aaaaaaaaaaabp+6%float.
Proof. split; reflexivity. Qed.

(** C1 as stated fails: with 11 correct answers out of 20 the handler
    returns 55.00000000000001, not 55. *)
Lemma submit_quiz_score_not_exact :
  ~ scoring_as_stated (world_of (quiz_database 20)) alice "c-1"
      (repeat 1 11) "a-1" 0 0 competence_1.
Proof.
  intros (score & passed & Hrun & Hexact & _).
  apply (f_equal (fun o => match o with
                           | Return v => py_get "score" v
                           | _ => None
                           end)) in Hrun.
  vm_compute in Hrun.
  injection Hrun as <-.
  vm_compute in Hexact. discriminate Hexact.
Qed.

(** ** Collections: [find_one] *)

Lemma find_one_None_iff {D} (q : D -> bool) (coll : list D) :
  find_one q coll = None <-> forall d, In d coll -> q d = false.
Proof.
  unfold find_one. split.
  - intros H d Hd. exact (find_none q coll H d Hd).
  - intros H. induction coll as [|d coll IH]; [reflexivity|].
    simpl. rewrite (H d (or_introl eq_refl)).
    apply IH. intros d' Hd'. apply H. right. exact Hd'.
Qed.

Lemma find_one_Some {D} (q : D -> bool) (coll : list D) (d : D) :
  find_one q coll = Some d -> In d coll /\ q d = true.
Proof. unfold find_one. apply find_some. Qed.

Lemma find_one_insert_one {D} (q : D -> bool) (coll : list D) (d : D) :
  find_one q coll = None -> q d = true ->
  find_one q (insert_one d coll) = Some d.
Proof.
  unfold find_one, insert_one. intros Hnone Hq.
  induction coll as [|x coll IH]; simpl in *.
  - rewrite Hq. reflexivity.
  - destruct (q x); [discriminate|]. apply IH. exact Hnone.
Qed.

(** ** Authentication *)

(** After the normalisation of a naive expiry the comparison with the
    current time is between aware values: it raises nothing and tests
    the UTC instants. *)
Lemma normalised_expiry_lt (e : datetime) (now : Z) :
  datetime_lt (match tzinfo e with
               | None => replace_tzinfo_utc e
               | Some _ => e
               end) (datetime_now_utc now)
  = Some (utc_instant e <? now).
Proof.
  unfold datetime_lt, utc_instant, replace_tzinfo_utc, datetime_now_utc.
  destruct e as [wl [o|]]; simpl; rewrite ?Z.sub_0_r; reflexivity.
Qed.

(** [get_current_user] always returns, leaves the world as it is, and
    depends on the request only through the selected token. *)
Lemma get_current_user_run request creds now w :
  get_current_user request creds now w =
  (Return (resolve (select_session_token request creds) now (db w)), w).
Proof.
  unfold get_current_user, resolve, not_token, session_row.
  destruct (select_session_token request creds) as [t|]; [|reflexivity].
  simpl. destruct (String.eqb t ""); [reflexivity|].
  unfold bind at 1. unfold query at 1.
  destruct (find_one _ (user_sessions (db w))) as [s|]; [|reflexivity].
  rewrite normalised_expiry_lt.
  destruct (utc_instant (s_expires_at s) <? now); reflexivity.
Qed.

(** C3 (as amended). Current-user resolution always returns, never
    touches the world (no session row is refreshed or deleted), and
    returns no user exactly when: no token is presented or the selected
    token is the empty string; or the token has no session row; or the
    stored expiry, read as UTC when naive, is strictly before the
    current UTC time; or the session's user id has no row in the user
    store. *)
Theorem get_current_user_unauthenticated_iff :
  forall (request : Request) (creds : option HTTPAuthorizationCredentials)
         (now : Z) (w : World),
    snd (get_current_user request creds now w) = w /\
    (exists r, fst (get_current_user request creds now w) = Return r) /\
    (fst (get_current_user request creds now w) = Return None <->
       (select_session_token request creds = None \/
        select_session_token request creds = Some "") \/
       (exists t, select_session_token request creds = Some t /\
                  forall s, In s (user_sessions (db w)) ->
                            s_session_token s <> t) \/
       (exists t s, select_session_token request creds = Some t /\
                    session_row t (db w) = Some s /\
                    utc_instant (s_expires_at s) < now) \/
       (exists t s, select_session_token request creds = Some t /\
                    session_row t (db w) = Some s /\
                    user_missing s (db w))).
Proof.
  intros request creds now w. rewrite get_current_user_run. simpl.
  split; [reflexivity|]. split; [eauto|].
  unfold resolve.
  destruct (select_session_token request creds) as [t|]; [|tauto].
  destruct (String.eqb_spec t "") as [->|Hne]; [tauto|].
  destruct (session_row t (db w)) as [s|] eqn:Hrow.
  - destruct (Z.ltb_spec (utc_instant (s_expires_at s)) now) as [Hlt|Hge].
    + split; [intros _|reflexivity].
      right. right. left. exists t, s. auto.
    + split.
      * intros H. injection H as H.
        right. right. right. exists t, s. split; [reflexivity|].
        split; [exact Hrow|]. intros u Hu Heq.
        apply (proj1 (find_one_None_iff _ _)) with (d := u) in H; [|exact Hu].
        apply String.eqb_neq in H. contradiction.
      * intros [[H|H] | [(t' & H & Hnone) | [(t' & s' & H & Hs & Hlt)
                                            | (t' & s' & H & Hs & Hmiss)]]];
          try discriminate H.
        -- congruence.
        -- injection H as <-.
           apply find_one_Some in Hrow. destruct Hrow as [Hin Htok].
           apply String.eqb_eq in Htok. destruct (Hnone s Hin Htok).
        -- injection H as <-. rewrite Hrow in Hs. injection Hs as <-. lia.
        -- injection H as <-. rewrite Hrow in Hs. injection Hs as <-. f_equal.
           apply find_one_None_iff. intros u Hu.
           apply String.eqb_neq. apply Hmiss. exact Hu.
  - split; [intros _|reflexivity].
    right. left. exists t. split; [reflexivity|].
    intros s Hs Heq.
    apply (proj1 (find_one_None_iff _ _)) with (d := s) in Hrow; [|exact Hs].
    apply String.eqb_neq in Hrow. contradiction.
Qed.

(** C3 as stated fails: an unexpired session whose user row is missing
    resolves to no user although a token is presented, its row exists
    and its expiry is not before the current time. *)
Lemma get_current_user_dangling_not_listed :
  ~ (fst (get_current_user (cookie_request ∅ "tok-alice") None 1000
                           (world_of dangling_database)) = Return None <->
     unauthenticated_as_stated (cookie_request ∅ "tok-alice") None 1000
                               (world_of dangling_database)).
Proof.
  intros [H _]. specialize (H eq_refl).
  destruct H as [H | [(t & H & Hnone) | (t & s & H & Hs & Hlt)]].
  - discriminate H.
  - injection H as <-. apply (Hnone alice_session); [left|]; reflexivity.
  - injection H as <-. injection Hs as <-. vm_compute in Hlt. discriminate Hlt.
Qed.

(** C6. The same token resolves to the same result whether it comes
    only as the [session_token] cookie or only as bearer credentials,
    whatever the other cookies; and when both are presented the cookie
    is the token used. *)
Theorem credential_channel_equivalence :
  forall (token cookie_token : string) (others : gmap string string)
         (now : Z) (w : World),
    get_current_user (cookie_request others token) None now w
    = get_current_user (plain_request others) (Some (bearer token)) now w /\
    select_session_token (cookie_request others cookie_token)
                         (Some (bearer token)) = Some cookie_token /\
    get_current_user (cookie_request others cookie_token)
                     (Some (bearer token)) now w
    = get_current_user (cookie_request others cookie_token) None now w.
Proof.
  intros token cookie_token others now w.
  rewrite !get_current_user_run.
  unfold select_session_token, cookie_request, plain_request, bearer.
  simpl. rewrite !lookup_insert_eq, lookup_delete_eq. auto.
Qed.

(** C10. A presented token whose session row exists and is unexpired,
    but whose user id has no row in the user store, resolves to no
    user: the same result, with the world untouched, as for any token
    that has no session row. *)
Theorem get_current_user_dangling_session :
  forall (request : Request) (creds : option HTTPAuthorizationCredentials)
         (now : Z) (w : World) (t : string) (s : UserSession),
    select_session_token request creds = Some t ->
    session_row t (db w) = Some s ->
    now <= utc_instant (s_expires_at s) ->
    user_missing s (db w) ->
    get_current_user request creds now w = (Return None, w) /\
    forall request' creds' t',
      select_session_token request' creds' = Some t' ->
      (forall s', In s' (user_sessions (db w)) -> s_session_token s' <> t') ->
      get_current_user request' creds' now w
      = get_current_user request creds now w.
Proof.
  intros request creds now w t s Hsel Hrow Hexp Hmiss.
  assert (Hdangling : resolve (Some t) now (db w) = None).
  { unfold resolve. destruct (String.eqb t ""); [reflexivity|].
    rewrite Hrow.
    destruct (Z.ltb_spec (utc_instant (s_expires_at s)) now); [reflexivity|].
    apply find_one_None_iff. intros u Hu.
    apply String.eqb_neq. apply Hmiss. exact Hu. }
  rewrite get_current_user_run, Hsel, Hdangling.
  split; [reflexivity|].
  intros request' creds' t' Hsel' Hnone.
  rewrite get_current_user_run, Hsel'. f_equal. f_equal.
  unfold resolve. destruct (String.eqb t' ""); [reflexivity|].
  assert (Hrow' : session_row t' (db w) = None).
  { apply find_one_None_iff. intros s' Hs'.
    apply String.eqb_neq. apply Hnone. exact Hs'. }
  rewrite Hrow'. reflexivity.
Qed.

(** Alice's token, a week from expiry, with no row for Alice. *)
Lemma get_current_user_dangling_session_witness :
  get_current_user (cookie_request ∅ "tok-alice") None 1000
                   (world_of dangling_database)
  = (Return None, world_of dangling_database).
Proof.
  refine (proj1 (get_current_user_dangling_session
            (cookie_request ∅ "tok-alice") None 1000
            (world_of dangling_database) "tok-alice" alice_session
            eq_refl eq_refl _ _)).
  - vm_compute. discriminate.
  - intros u [<-|[]]. discriminate.
Defined.

(** ** Question redaction *)

Lemma questions_of_spec competence_id d q :
  In q (questions_of competence_id d) <->
  In q (quiz_questions d) /\ q_competence_id q = competence_id.
Proof.
  unfold questions_of. rewrite filter_In, String.eqb_eq. reflexivity.
Qed.

(** C2. For every competence id and every stored set of questions, an
    unauthenticated caller gets no question at all, and an
    authenticated one gets one item per question stored for the
    competence, in stored order; each item is a dict whose keys are
    exactly [id], [question] and [options], carrying the question's
    values: it has no [correct_answer] entry. *)
Theorem get_quiz_questions_redacted :
  forall (w : World) (competence_id : string) (user : option User),
    match user with
    | None =>
        get_quiz_questions competence_id user w
        = (HTTPException 401 "Not authenticated", w)
    | Some _ =>
        exists items,
          get_quiz_questions competence_id user w = (Return items, w) /\
          length items = length (questions_of competence_id (db w)) /\
          Forall2
            (fun q item =>
               exists d : gmap string pyval,
                 item = PyDict d /\
                 dom d = {[ "id"; "question"; "options" ]} /\
                 d !! "correct_answer" = None /\
                 d !! "id" = Some (PyStr (q_id q)) /\
                 d !! "question" = Some (PyStr (q_question q)) /\
                 d !! "options" = Some (PyList (map PyStr (q_options q))))
            (questions_of competence_id (db w)) items
    end.
Proof.
  intros w competence_id [user|]; [|reflexivity].
  exists (map redact (questions_of competence_id (db w))).
  split; [reflexivity|]. split; [apply length_map|].
  induction (questions_of competence_id (db w)) as [|q qs IH]; simpl.
  - constructor.
  - constructor; [|exact IH].
    eexists. split; [reflexivity|].
    split.
    { rewrite !dom_insert_L, dom_empty_L. set_solver. }
    repeat split; reflexivity.
Qed.

(** ** Idempotent start *)

(** *** Datetimes in the database *)

(** Storing what was read back changes nothing. *)
Lemma bson_datetime_idem dt :
  bson_datetime (bson_datetime dt) = bson_datetime dt.
Proof.
  unfold bson_datetime. cbn [utc_instant tzinfo wall].
  assert (H : 1000 * (utc_instant dt / 1000) / 1000 = utc_instant dt / 1000).
  { rewrite Z.mul_comm. apply Z.div_mul. lia. }
  rewrite H. reflexivity.
Qed.

(** The stored instant is the instant cut to the millisecond: at most
    the instant, and less than a millisecond before it. *)
Lemma bson_datetime_instant dt :
  utc_instant (bson_datetime dt) = 1000 * (utc_instant dt / 1000) /\
  utc_instant dt - 1000 < utc_instant (bson_datetime dt) <= utc_instant dt.
Proof.
  unfold bson_datetime. cbn [utc_instant tzinfo wall].
  split; [reflexivity|].
  pose proof (Z.mul_div_le (utc_instant dt) 1000 ltac:(lia)).
  pose proof (Z.mul_succ_div_gt (utc_instant dt) 1000 ltac:(lia)).
  lia.
Qed.

Lemma stored_progress_idem row :
  stored (stored row) = stored (row : UserProgress).
Proof.
  cbn [stored progress_bson]. unfold stored_progress.
  cbn [p_id p_user_id p_competence_id p_status p_current_score
       p_quiz_attempts p_assignment_submitted p_assignment_score p_exam_taken
       p_exam_score p_certified p_started_at p_completed_at p_last_activity].
  rewrite bson_datetime_idem.
  destruct (p_started_at row), (p_completed_at row); cbn [option_map];
    rewrite ?bson_datetime_idem; reflexivity.
Qed.

Lemma stored_user_idem user :
  stored (stored user) = stored (user : User).
Proof.
  cbn [stored user_bson]. unfold stored_user.
  cbn [u_id u_email u_name u_picture u_role u_created_at
       u_profile_completed].
  rewrite bson_datetime_idem. reflexivity.
Qed.

(** ** Idempotent start *)

(** [start_competence] by cases on the catalog and the progress rows. *)
Lemma start_competence_run w user competence_id fresh_id now_started
    now_activity :
  start_competence competence_id (Some user) fresh_id now_started
                   now_activity w =
  match find_one (fun c => String.eqb (c_id c) competence_id)
                 (competences (db w)) with
  | None => (HTTPException 404 "Competence not found", w)
  | Some _ =>
      match find_one (progress_of user competence_id)
                     (user_progress (db w)) with
      | Some row => (Return row, w)
      | None =>
          (Return (new_progress fresh_id user competence_id now_started
                                now_activity),
           add_progress (new_progress fresh_id user competence_id now_started
                                      now_activity) w)
      end
  end.
Proof.
  unfold start_competence. unfold bind at 1. unfold query at 1.
  destruct (find_one _ (competences (db w))); [|reflexivity].
  unfold bind at 1. unfold query at 1.
  fold (progress_of user competence_id).
  destruct (find_one (progress_of user competence_id) (user_progress (db w)));
    reflexivity.
Qed.

(** C5 (as amended). For an authenticated user and a competence id
    found in the catalog: when a progress row exists for the pair,
    [start] returns the stored row and leaves the world unchanged; when
    none exists, it returns a new [in_progress] row for the pair,
    started at the current time, and inserts it.  A second call (with
    any other uuid and clock readings) changes nothing and returns the
    row the database holds for the pair: the row the first call
    returned, up to the way the database keeps datetimes (without
    timezone, cut to the millisecond) when the first call created it.
    So the two returned rows are the same once stored, and
    [started_at] is not reset. *)
Theorem start_competence_idempotent :
  forall (w : World) (user : User) (competence_id : string)
         (competence : Competence)
         (id1 id2 : string) (t1 t1' t2 t2' : Z),
    find_one (fun c => String.eqb (c_id c) competence_id) (competences (db w))
      = Some competence ->
    (forall row,
        find_one (progress_of user competence_id) (user_progress (db w))
          = Some row ->
        start_competence competence_id (Some user) id1 t1 t1' w
        = (Return row, w)) /\
    (find_one (progress_of user competence_id) (user_progress (db w)) = None ->
     exists row,
       start_competence competence_id (Some user) id1 t1 t1' w
       = (Return row,
          {| db := with_user_progress (insert_one (stored row)) (db w);
             llm_calls := llm_calls w |}) /\
       p_status row = "in_progress" /\
       p_user_id row = u_id user /\
       p_competence_id row = competence_id /\
       p_started_at row = Some (datetime_now_utc t1)) /\
    (exists row1 row2 w1,
        start_competence competence_id (Some user) id1 t1 t1' w
        = (Return row1, w1) /\
        start_competence competence_id (Some user) id2 t2 t2' w1
        = (Return row2, w1) /\
        find_one (progress_of user competence_id) (user_progress (db w1))
        = Some row2 /\
        (row2 = row1 \/ row2 = stored row1) /\
        stored row2 = stored row1).
Proof.
  intros w user competence_id competence id1 id2 t1 t1' t2 t2' Hc.
  assert (Hexisting : forall w0 i t t' row,
    find_one (fun c => String.eqb (c_id c) competence_id) (competences (db w0))
      = Some competence ->
    find_one (progress_of user competence_id) (user_progress (db w0))
      = Some row ->
    start_competence competence_id (Some user) i t t' w0 = (Return row, w0)).
  { intros w0 i t t' row Hc0 Hrow.
    rewrite start_competence_run, Hc0, Hrow. reflexivity. }
  split; [|split].
  - intros row Hrow. apply Hexisting; assumption.
  - intros Hnone. eexists. split.
    + rewrite start_competence_run, Hc, Hnone. reflexivity.
    + repeat split; reflexivity.
  - destruct (find_one (progress_of user competence_id) (user_progress (db w)))
      as [row|] eqn:Hrow.
    + exists row, row, w.
      split; [apply Hexisting; assumption|].
      split; [apply Hexisting; assumption|]. auto.
    + exists (new_progress id1 user competence_id t1 t1'),
             (stored (new_progress id1 user competence_id t1 t1')),
             (add_progress (new_progress id1 user competence_id t1 t1') w).
      assert (Hfound :
        find_one (progress_of user competence_id)
          (user_progress
             (db (add_progress (new_progress id1 user competence_id t1 t1')
                               w)))
        = Some (stored (new_progress id1 user competence_id t1 t1'))).
      { cbn [add_progress db with_user_progress user_progress].
        apply find_one_insert_one; [exact Hrow|].
        unfold progress_of. simpl. rewrite !String.eqb_refl. reflexivity. }
      split; [rewrite start_competence_run, Hc, Hrow; reflexivity|].
      split; [apply Hexisting; [exact Hc|exact Hfound]|].
      split; [exact Hfound|]. split; [right; reflexivity|].
      apply stored_progress_idem.
Qed.

(** Alice starts [c-1], for which she already has a row. *)
Lemma start_competence_idempotent_witness :
  start_competence "c-1" (Some alice) "p-2" 5 6 (world_of (quiz_database 1))
  = (Return progress_1, world_of (quiz_database 1)).
Proof.
  exact (proj1 (start_competence_idempotent (world_of (quiz_database 1)) alice
                  "c-1" competence_1 "p-2" "p-3" 5 6 7 8 eq_refl)
               progress_1 eq_refl).
Defined.

(** C5 as stated fails: when the first call creates the row it returns
    the row as built, with aware timestamps in microseconds, and the
    second call returns the row read back, whose timestamps are naive
    and cut to the millisecond. *)
Lemma start_competence_twice_differs :
  ~ same_row_twice_as_stated (world_of scenario_database) alice "c-1"
      "p-1" "p-2" 5 6 7 8.
Proof.
  intros (row & w1 & w2 & H1 & H2).
  rewrite start_competence_run in H1. cbn in H1.
  injection H1 as <- <-.
  rewrite start_competence_run in H2. cbn in H2.
  discriminate H2.
Qed.

(** ** Workshop chat ownership *)

(** C7. For an authenticated user, when no workshop session row has
    both the given id and the user's id, the chat fails with 404 "not
    found" and the world is unchanged: no call reaches the chat
    backend and no collection is modified. *)
Theorem chat_with_ai_not_found :
  forall (llm : LlmBackend) (w : World) (user : User)
         (session_id message : string) (now_user now_assistant : Z),
    (forall s, In s (ai_workshop_sessions (db w)) ->
               ~ (w_id s = session_id /\ w_user_id s = u_id user)) ->
    fst (chat_with_ai llm session_id message (Some user) now_user
                      now_assistant w)
      = HTTPException 404 "Workshop session not found" /\
    llm_calls (snd (chat_with_ai llm session_id message (Some user) now_user
                                 now_assistant w)) = llm_calls w /\
    db (snd (chat_with_ai llm session_id message (Some user) now_user
                          now_assistant w)) = db w.
Proof.
  intros llm w user session_id message now_user now_assistant Hnone.
  assert (Hfind :
    find_one (fun s => String.eqb (w_id s) session_id
                       && String.eqb (w_user_id s) (u_id user))
             (ai_workshop_sessions (db w)) = None).
  { apply find_one_None_iff. intros s Hs.
    apply andb_false_iff.
    destruct (String.eqb_spec (w_id s) session_id) as [Hid|]; [|auto].
    destruct (String.eqb_spec (w_user_id s) (u_id user)) as [Hu|]; [|auto].
    destruct (Hnone s Hs (conj Hid Hu)). }
  assert (Hrun :
    chat_with_ai llm session_id message (Some user) now_user now_assistant w
    = (HTTPException 404 "Workshop session not found", w)).
  { unfold chat_with_ai. unfold bind at 1. unfold query at 1.
    rewrite Hfind. reflexivity. }
  rewrite Hrun. repeat split; reflexivity.
Qed.

(** Bob asks for Alice's session [ws-1]; a session id nobody has is
    refused the same way. *)
Lemma chat_with_ai_not_found_witness :
  fst (chat_with_ai echo_llm "ws-1" "Bonjour" (Some bob) 1 2
                    (world_of workshop_database))
    = HTTPException 404 "Workshop session not found" /\
  llm_calls (snd (chat_with_ai echo_llm "ws-1" "Bonjour" (Some bob) 1 2
                               (world_of workshop_database))) = [].
Proof.
  refine (let H := chat_with_ai_not_found echo_llm (world_of workshop_database)
                     bob "ws-1" "Bonjour" 1 2 _ in
          conj (proj1 H) (proj1 (proj2 H))).
  intros s [<-|[]] [_ Hu]. discriminate Hu.
Defined.

(** The owner's message does reach the backend, once. *)
Example chat_with_ai_owner_calls_backend :
  exists call,
    llm_calls (snd (chat_with_ai echo_llm "ws-1" "Bonjour" (Some alice) 1 2
                                 (world_of workshop_database))) = [call] /\
    llm_session_id call = "ws-1" /\ llm_text call = "Bonjour" /\
    fst (chat_with_ai echo_llm "ws-1" "Bonjour" (Some alice) 1 2
                      (world_of workshop_database))
      = Return (PyDict (<["response" := PyStr "Bonjour"]> ∅)).
Proof. eexists. repeat split; reflexivity. Qed.

(** ** Dashboard *)

Lemma filter_all {D} (l : list D) : List.filter (fun _ => true) l = l.
Proof. induction l as [|x l IH]; simpl; [|rewrite IH]; reflexivity. Qed.

Lemma filter_filter {D} (f g : D -> bool) (l : list D) :
  List.filter g (List.filter f l) = List.filter (fun x => f x && g x) l.
Proof.
  induction l as [|x l IH]; simpl; [reflexivity|].
  destruct (f x); simpl; [destruct (g x)|]; rewrite IH; reflexivity.
Qed.

Lemma get_dashboard_run user w :
  get_dashboard (Some user) w = (Return (dashboard_of user (db w)), w).
Proof.
  unfold get_dashboard, dashboard_of, progress_rows_of, certificates_of.
  unfold bind at 1. unfold query at 1.
  unfold bind at 1. unfold query at 1.
  unfold bind at 1. unfold query at 1.
  cbv zeta.
  destruct (Z.ltb_spec 0 (count_documents (fun _ => true)
                                          (competences (db w)))) as [Hpos|H0].
  - unfold bind, truediv.
    rewrite (proj2 (Z.eqb_neq _ 0)) by lia. reflexivity.
  - reflexivity.
Qed.

(** Counting a status among documents is counting it among their
    rows. *)
Lemma count_status_rows status rows :
  count_status status (map WithObjectId rows)
  = Z.of_nat (length (List.filter (fun p => String.eqb (p_status p) status)
                                  rows)).
Proof.
  unfold count_status. f_equal.
  induction rows as [|row rows IH]; [reflexivity|].
  cbn [map List.filter doc_fields].
  destruct (String.eqb (p_status row) status); cbn [length]; rewrite IH;
    reflexivity.
Qed.

(** What the coroutine computes.  For an authenticated user
    [get_dashboard] returns its dict and changes nothing;
    [total_competences] is the size of the catalog,
    [completed_competences] the number of the user's progress rows
    with status [completed]; [overall_progress] is the integer [0]
    when the catalog is empty (no division is attempted) and otherwise
    the binary64 value [(completed / total) * 100].  That value is not
    always the rational [100 completed / total]; for a catalog of up
    to 128 competences of which the user completed at most all, it is
    within [2^-45] of it.  The progress rows and the certificates go
    into the dict as the documents found. *)
Lemma get_dashboard_overall_progress :
  forall (w : World) (user : User),
    exists dash,
      get_dashboard (Some user) w = (Return dash, w) /\
      d_total_competences dash = total_of (db w) /\
      d_completed_competences dash = completed_of user (db w) /\
      d_overall_progress dash =
        (if total_of (db w) =? 0 then PyInt 0
         else PyFloat (percentage (completed_of user (db w))
                                  (total_of (db w)))) /\
      d_progress_list dash = map WithObjectId (progress_rows_of user (db w)) /\
      d_certificates dash = map WithObjectId (certificates_of user (db w)) /\
      (total_of (db w) <> 0 ->
       total_of (db w) <= Z.of_nat checked_size ->
       completed_of user (db w) <= total_of (db w) ->
       within (percentage (completed_of user (db w)) (total_of (db w)))
              (100 * inject_Z (completed_of user (db w))
               / inject_Z (total_of (db w))) slack).
Proof.
  intros w user. exists (dashboard_of user (db w)).
  split; [apply get_dashboard_run|].
  assert (Htotal : count_documents (fun _ => true) (competences (db w))
                   = total_of (db w)).
  { unfold count_documents, total_of. rewrite filter_all. reflexivity. }
  assert (Hcompleted :
    count_status "completed" (map WithObjectId (progress_rows_of user (db w)))
    = completed_of user (db w)).
  { rewrite count_status_rows.
    unfold completed_of, progress_rows_of, find. rewrite filter_filter.
    reflexivity. }
  unfold dashboard_of.
  cbn [d_total_competences d_completed_competences d_overall_progress
       d_progress_list d_certificates].
  rewrite Htotal, Hcompleted.
  split; [reflexivity|]. split; [reflexivity|].
  split.
  { destruct (Z.eqb_spec (total_of (db w)) 0) as [H0|Hpos].
    - rewrite H0. reflexivity.
    - rewrite (proj2 (Z.ltb_lt 0 (total_of (db w)))); [reflexivity|].
      unfold total_of in *. lia. }
  split; [reflexivity|]. split; [reflexivity|].
  intros Hpos Hsize Hle. apply percentage_close.
  - unfold total_of in *. lia.
  - unfold completed_of in *. lia.
Qed.

(** The percentage is not the exact one: with 11 of 20 competences
    completed the coroutine computes 55.00000000000001, not 55. *)
Lemma get_dashboard_progress_not_exact :
  ~ overall_progress_as_stated (world_of (dashboard_database 11 20)) alice.
Proof.
  intros (dash & Hrun & _ & Hexact).
  destruct Hexact as (f & Hf & Hexact); [discriminate|].
  apply (f_equal (fun o => match o with
                           | Return d => Some (d_overall_progress d)
                           | _ => None
                           end)) in Hrun.
  cbv beta iota in Hrun. rewrite Hf in Hrun.
  vm_compute in Hrun. injection Hrun as <-.
  vm_compute in Hexact. discriminate Hexact.
Qed.

(** The route answers exactly when the user has neither a progress row
    nor a certificate; any such document makes the encoding of the
    response fail, with the world unchanged. *)
Lemma dashboard_endpoint_run user w :
  dashboard_endpoint (Some user) w =
  match progress_rows_of user (db w), certificates_of user (db w) with
  | [], [] => (Return (dashboard_of user (db w)), w)
  | _, _ => (Uncaught "ValueError" not_jsonable, w)
  end.
Proof.
  unfold dashboard_endpoint, bind. rewrite get_dashboard_run.
  unfold jsonable_encoder, dashboard_of.
  cbn [d_progress_list d_certificates].
  destruct (progress_rows_of user (db w)) as [|row rows];
    [destruct (certificates_of user (db w)) as [|cert certs]|];
    reflexivity.
Qed.

(** C8 (the failing input). Alice has started the only competence of
    the catalog and completed none.  The coroutine computes
    [overall_progress = 0.0], which is [100 * 0 / 1], but the dict it
    returns carries her progress document with its [ObjectId]: the
    response cannot be encoded, the route ends in an uncaught
    [ValueError] (status 500) and reports no percentage at all. *)
Theorem dashboard_endpoint_crash :
  (exists dash,
      get_dashboard (Some alice) (world_of (quiz_database 1))
      = (Return dash, world_of (quiz_database 1)) /\
      d_overall_progress dash = PyFloat 0 /\
      d_progress_list dash = [WithObjectId progress_1]) /\
  (exists message,
      dashboard_endpoint (Some alice) (world_of (quiz_database 1))
      = (Uncaught "ValueError" message, world_of (quiz_database 1))).
Proof.
  split.
  - eexists. split; [apply get_dashboard_run|]. split; reflexivity.
  - eexists. rewrite dashboard_endpoint_run. reflexivity.
Qed.

(** ** [submit_quiz]: failures *)

Lemma submit_quiz_not_found w user competence_id answers fresh_id now_created
    now_activity :
  questions_of competence_id (db w) = [] ->
  submit_quiz competence_id answers (Some user) fresh_id now_created
              now_activity w
  = (HTTPException 404 "Quiz not found", w).
Proof.
  intros Hq. rewrite submit_quiz_cases. unfold submission_outcome.
  cbv zeta. rewrite Hq. reflexivity.
Qed.

(** Questions without their competence: [competence] is [None] and
    subscripting it raises before anything is written. *)
Lemma submit_quiz_missing_competence w user competence_id answers fresh_id
    now_created now_activity :
  questions_of competence_id (db w) <> [] ->
  find_one (fun c => String.eqb (c_id c) competence_id) (competences (db w))
    = None ->
  submit_quiz competence_id answers (Some user) fresh_id now_created
              now_activity w
  = (Uncaught "TypeError" "'NoneType' object is not subscriptable", w).
Proof.
  intros Hne Hc. rewrite submit_quiz_cases. unfold submission_outcome.
  cbv zeta. rewrite Hc.
  destruct (questions_of competence_id (db w)); [contradiction|reflexivity].
Qed.

(** The submission fails with 404 exactly when no question is stored
    for the competence id. *)
Lemma submit_quiz_not_found_iff w user competence_id answers fresh_id
    now_created now_activity :
  fst (submit_quiz competence_id answers (Some user) fresh_id now_created
                   now_activity w) = HTTPException 404 "Quiz not found"
  <-> questions_of competence_id (db w) = [].
Proof.
  split.
  - rewrite submit_quiz_cases. unfold submission_outcome. cbv zeta.
    destruct (questions_of competence_id (db w)) as [|q qs];
      [reflexivity|].
    destruct (find_one _ (competences (db w))); [|discriminate].
    destruct (forallb int64 answers); discriminate.
  - intros Hq. rewrite submit_quiz_not_found by exact Hq. reflexivity.
Qed.

(** C4 (the failing input). One question is stored for [c-1], whose
    competence row is missing: the submission neither succeeds nor
    fails with 404, it ends in an uncaught [TypeError]. *)
Theorem submit_quiz_orphan_questions_crash :
  questions_of "c-1" (db (world_of orphan_database)) = [question_1 1 1] /\
  submit_quiz "c-1" [1] (Some alice) "a-1" 0 0 (world_of orphan_database)
  = (Uncaught "TypeError" "'NoneType' object is not subscriptable",
     world_of orphan_database).
Proof. split; reflexivity. Qed.

(** ** Collections: [update_one] *)

Section UpdateOne.
Context {D : Type} (q : D -> bool) (set : D -> D).

Lemma update_one_length coll :
  length (update_one q set coll) = length coll.
Proof.
  induction coll as [|d coll IH]; simpl; [reflexivity|].
  destruct (q d); simpl; [|rewrite IH]; reflexivity.
Qed.

(** Every position holds the document it held, or that document
    updated, and then the document matched the query. *)
Lemma update_one_lookup coll : forall i d,
  coll !! i = Some d ->
  update_one q set coll !! i = Some d \/
  (q d = true /\ update_one q set coll !! i = Some (set d)).
Proof.
  induction coll as [|x coll IH]; intros i d Hi; [discriminate Hi|].
  simpl. destruct (q x) eqn:Hq.
  - destruct i as [|i]; simpl in *.
    + injection Hi as <-. right. auto.
    + left. exact Hi.
  - destruct i as [|i]; simpl in *.
    + left. exact Hi.
    + apply IH. exact Hi.
Qed.

(** Without a matching document nothing changes: no upsert. *)
Lemma update_one_no_match coll :
  (forall d, In d coll -> q d = false) -> update_one q set coll = coll.
Proof.
  induction coll as [|x coll IH]; intros H; simpl; [reflexivity|].
  rewrite (H x (or_introl eq_refl)). f_equal.
  apply IH. intros d Hd. apply H. right. exact Hd.
Qed.

End UpdateOne.

(** ** [submit_quiz]: the progress frame *)

Lemma set_quiz_result_frame score attempts last_activity row :
  same_outside_quiz_fields row (set_quiz_result score attempts last_activity row).
Proof. unfold same_outside_quiz_fields. repeat split; reflexivity. Qed.

Lemma same_outside_quiz_fields_refl row : same_outside_quiz_fields row row.
Proof. unfold same_outside_quiz_fields. repeat split; reflexivity. Qed.

(** C9. A submission that succeeds leaves the progress collection
    with as many rows as before; every row keeps its position and all
    its fields other than [current_score], [quiz_attempts] and
    [last_activity], so [status], [certified], [started_at] and
    [completed_at] are untouched; a row that changed at all is a row of
    the (user, competence) pair; and when the pair has no row the
    collection is unchanged: none is created.  Whether a submission
    succeeds does not depend on progress rows: with questions stored
    for the competence id, the competence in the catalog and answers
    that fit in 64 bits, it succeeds also when the pair has no row. *)
Theorem submit_quiz_progress_frame :
  forall (w : World) (user : User) (competence_id : string) (answers : list Z)
         (fresh_id : string) (now_created now_activity : Z),
    (forall result w',
        submit_quiz competence_id answers (Some user) fresh_id now_created
                    now_activity w = (Return result, w') ->
        length (user_progress (db w')) = length (user_progress (db w)) /\
        (forall i row,
            user_progress (db w) !! i = Some row ->
            exists row',
              user_progress (db w') !! i = Some row' /\
              same_outside_quiz_fields row row' /\
              (row' = row \/ progress_of user competence_id row = true)) /\
        ((forall row, In row (user_progress (db w)) ->
                      progress_of user competence_id row = false) ->
         user_progress (db w') = user_progress (db w))) /\
    (forall competence,
        questions_of competence_id (db w) <> [] ->
        find_one (fun c => String.eqb (c_id c) competence_id)
                 (competences (db w)) = Some competence ->
        forallb int64 answers = true ->
        (forall row, In row (user_progress (db w)) ->
                     progress_of user competence_id row = false) ->
        exists result w',
          submit_quiz competence_id answers (Some user) fresh_id now_created
                      now_activity w = (Return result, w') /\
          user_progress (db w') = user_progress (db w)).
Proof.
  intros w user competence_id answers fresh_id now_created now_activity.
  assert (Hframe : forall competence,
    let w' := world_after_submit w user competence_id answers fresh_id
                                 now_created now_activity competence in
    length (user_progress (db w')) = length (user_progress (db w)) /\
    (forall i row,
        user_progress (db w) !! i = Some row ->
        exists row',
          user_progress (db w') !! i = Some row' /\
          same_outside_quiz_fields row row' /\
          (row' = row \/ progress_of user competence_id row = true)) /\
    ((forall row, In row (user_progress (db w)) ->
                  progress_of user competence_id row = false) ->
     user_progress (db w') = user_progress (db w))).
  { intros competence. cbv zeta.
    unfold world_after_submit.
    cbn [db with_user_progress user_progress].
    unfold progress_after_submit.
    split; [apply update_one_length|]. split.
    - intros i row Hi.
      destruct (update_one_lookup
                  (of_user_and_competence p_user_id p_competence_id user
                                          competence_id)
                  (set_quiz_result
                     (percentage
                        (count_correct_positions
                           (questions_of competence_id (db w)) answers)
                        (Z.of_nat
                           (length (questions_of competence_id (db w)))))
                     (count_documents
                        (of_user_and_competence a_user_id a_competence_id user
                                                competence_id)
                        (quiz_attempts (db w)) + 1)
                     (bson_datetime (datetime_now_utc now_activity)))
                  (user_progress (db w)) i row Hi) as [Hsame | [Hq Hset]].
      + exists row. split; [exact Hsame|].
        split; [apply same_outside_quiz_fields_refl | left; reflexivity].
      + eexists. split; [exact Hset|].
        split; [apply set_quiz_result_frame | right; exact Hq].
    - intros Hnone. apply update_one_no_match. exact Hnone. }
  split.
  - intros result w' Hrun.
    destruct (submit_quiz_Return _ _ _ _ _ _ _ _ _ Hrun)
      as (_ & _ & competence & _ & _ & ->).
    exact (Hframe competence).
  - intros competence Hne Hc Hfit Hnone.
    pose proof (submit_quiz_run w user competence_id answers fresh_id
                  now_created now_activity competence Hne Hc Hfit) as Hrun.
    cbv zeta in Hrun.
    eexists. eexists. split; [exact Hrun|].
    exact (proj2 (proj2 (Hframe competence)) Hnone).
Qed.

(** Alice submits to a four-question quiz at time 9: her row keeps its
    status and [started_at]; score, attempt count and last activity
    are the only fields set.  Bob, who has no row for the competence,
    submits as well: his submission succeeds and the progress
    collection stays as it was. *)
Lemma submit_quiz_progress_frame_witness :
  (exists result w',
      submit_quiz "c-1" [1; 1; 0; 0] (Some alice) "a-1" 8 9
                  (world_of (quiz_database 4)) = (Return result, w') /\
      user_progress (db w') =
        [set_quiz_result 50%float 1 (bson_datetime (datetime_now_utc 9))
                         progress_1]) /\
  (exists result w',
      submit_quiz "c-1" [1; 1; 0; 0] (Some bob) "a-2" 8 9
                  (world_of (quiz_database 4)) = (Return result, w') /\
      user_progress (db w') = [progress_1]).
Proof.
  assert (Hne : questions_of "c-1" (db (world_of (quiz_database 4))) <> [])
    by discriminate.
  split.
  - pose proof (submit_quiz_run (world_of (quiz_database 4)) alice "c-1"
                  [1; 1; 0; 0] "a-1" 8 9 competence_1 Hne eq_refl eq_refl)
      as Hrun.
    cbv zeta in Hrun.
    destruct (proj1 (submit_quiz_progress_frame
                       (world_of (quiz_database 4)) alice "c-1"
                       [1; 1; 0; 0] "a-1" 8 9) _ _ Hrun) as (_ & Hrows & _).
    destruct (Hrows 0%nat progress_1 eq_refl) as (row' & Hrow' & _).
    eexists. eexists. split; [exact Hrun|]. reflexivity.
  - refine (proj2 (submit_quiz_progress_frame (world_of (quiz_database 4)) bob
                     "c-1" [1; 1; 0; 0] "a-2" 8 9) competence_1 Hne eq_refl
                  eq_refl _).
    intros row [<-|[]]. reflexivity.
Defined.

(** * The remaining handlers *)

(** ** Collections: [sort], [delete_one] *)

Section SortAscending.
Context {D : Type} (key : D -> Z).

(** Sortedness by key: every document's key is at most the keys of the
    documents after it. *)
Definition ascending : list D -> Prop :=
  StronglySorted (fun a b => key a <= key b).

Lemma insert_by_Permutation d sorted :
  Permutation (insert_by key d sorted) (d :: sorted).
Proof.
  induction sorted as [|x rest IH]; simpl; [reflexivity|].
  destruct (key d <? key x); [reflexivity|].
  rewrite IH. apply perm_swap.
Qed.

Lemma insert_by_ascending d sorted :
  ascending sorted -> ascending (insert_by key d sorted).
Proof.
  unfold ascending. induction sorted as [|x rest IH]; intros Hs; simpl.
  - repeat constructor.
  - apply StronglySorted_inv in Hs. destruct Hs as [Hrest Hx].
    destruct (Z.ltb_spec (key d) (key x)) as [Hlt|Hge].
    + constructor; [constructor; assumption|].
      constructor; [lia|].
      eapply Forall_impl; [exact Hx|]. intros y Hy. simpl in Hy. lia.
    + constructor; [apply IH; exact Hrest|].
      eapply Permutation_Forall;
        [symmetry; apply insert_by_Permutation|].
      constructor; assumption.
Qed.

Lemma sort_ascending_from acc coll :
  ascending acc ->
  ascending (fold_left (fun sorted d => insert_by key d sorted) coll acc) /\
  Permutation (fold_left (fun sorted d => insert_by key d sorted) coll acc)
              (acc ++ coll).
Proof.
  revert acc. induction coll as [|d coll IH]; intros acc Hacc; simpl.
  - rewrite app_nil_r. split; [exact Hacc|reflexivity].
  - destruct (IH (insert_by key d acc) (insert_by_ascending d acc Hacc))
      as [Hs Hp].
    split; [exact Hs|].
    rewrite Hp, insert_by_Permutation.
    change (d :: acc ++ coll) with ((d :: acc) ++ coll).
    rewrite <- Permutation_middle. reflexivity.
Qed.

Lemma sort_ascending_spec coll :
  ascending (sort_ascending key coll) /\
  Permutation (sort_ascending key coll) coll.
Proof.
  unfold sort_ascending.
  apply (sort_ascending_from [] coll). constructor.
Qed.

End SortAscending.

Section DeleteOne.
Context {D : Type}.

(** A query that matches no document matched by the deletion's query
    finds the same document after the deletion. *)
Lemma find_one_delete_one_other (q q' : D -> bool) coll :
  (forall d, q d = true -> q' d = false) ->
  find_one q' (delete_one q coll) = find_one q' coll.
Proof.
  intros Hdisj. unfold find_one.
  induction coll as [|d coll IH]; simpl; [reflexivity|].
  destruct (q d) eqn:Hq; simpl.
  - rewrite (Hdisj d Hq). reflexivity.
  - rewrite IH. reflexivity.
Qed.

(** With at most one matching document, none is left. *)
Lemma find_one_delete_one_unique (q : D -> bool) coll :
  count_documents q coll <= 1 ->
  find_one q (delete_one q coll) = None.
Proof.
  unfold count_documents, find_one.
  induction coll as [|d coll IH]; simpl; intros Hc; [reflexivity|].
  destruct (q d) eqn:Hq; simpl in *.
  - destruct (List.filter q coll) as [|x l] eqn:Hf; [|simpl in Hc; lia].
    apply find_one_None_iff. intros y Hy.
    destruct (q y) eqn:Hqy; [|reflexivity].
    assert (Hin : In y (List.filter q coll)) by (apply filter_In; auto).
    rewrite Hf in Hin. destruct Hin.
  - rewrite Hq. apply IH. exact Hc.
Qed.

(** The first matching document goes, the rest stays in place. *)
Lemma delete_one_first (q : D -> bool) pre d post :
  (forall x, In x pre -> q x = false) -> q d = true ->
  delete_one q (pre ++ d :: post) = (pre ++ post)%list.
Proof.
  intros Hpre Hd. induction pre as [|x pre IH]; simpl.
  - rewrite Hd. reflexivity.
  - rewrite (Hpre x (or_introl eq_refl)). f_equal.
    apply IH. intros y Hy. apply Hpre. right. exact Hy.
Qed.

Lemma find_one_first (q : D -> bool) pre d post :
  (forall x, In x pre -> q x = false) -> q d = true ->
  find_one q (pre ++ d :: post) = Some d.
Proof.
  intros Hpre Hd. unfold find_one. induction pre as [|x pre IH]; simpl.
  - rewrite Hd. reflexivity.
  - rewrite (Hpre x (or_introl eq_refl)).
    apply IH. intros y Hy. apply Hpre. right. exact Hy.
Qed.

(** A key that identifies documents: looking up a stored document by
    its key finds that document. *)
Lemma find_one_by_key (key : D -> string) coll d :
  List.NoDup (map key coll) -> In d coll ->
  find_one (fun x => String.eqb (key x) (key d)) coll = Some d.
Proof.
  unfold find_one. induction coll as [|x coll IH]; intros Hnd Hin;
    [destruct Hin|].
  simpl in *. apply NoDup_cons_iff in Hnd. destruct Hnd as [Hx Hnd].
  destruct Hin as [->|Hin].
  - rewrite String.eqb_refl. reflexivity.
  - destruct (String.eqb_spec (key x) (key d)) as [Heq|_].
    + exfalso. apply Hx. rewrite Heq. apply in_map. exact Hin.
    + apply IH; assumption.
Qed.

End DeleteOne.

(** ** The catalog *)

(** X1. [get_competences] changes nothing and returns the whole
    catalog, each competence as often as it is stored, in ascending
    order of [number]. *)
Theorem get_competences_sorted :
  forall w : World,
    exists listing,
      get_competences w = (Return listing, w) /\
      Permutation listing (competences (db w)) /\
      ascending c_number listing.
Proof.
  intros w. eexists. split; [reflexivity|].
  unfold find. rewrite filter_all.
  destruct (sort_ascending_spec c_number (competences (db w))) as [Hs Hp].
  split; assumption.
Qed.

(** X2. [get_competence] never changes the world; it returns a stored
    competence with the requested id when there is one, and otherwise
    fails with 404: it fails exactly when no stored competence has the
    id. *)
Theorem get_competence_found_or_404 :
  forall (w : World) (competence_id : string),
    snd (get_competence competence_id w) = w /\
    match fst (get_competence competence_id w) with
    | Return c => In c (competences (db w)) /\ c_id c = competence_id
    | HTTPException status_code detail =>
        status_code = 404 /\ detail = "Competence not found" /\
        forall c, In c (competences (db w)) -> c_id c <> competence_id
    | Uncaught _ _ => False
    end.
Proof.
  intros w competence_id. unfold get_competence.
  unfold bind. unfold query.
  destruct (find_one (fun c => String.eqb (c_id c) competence_id)
                     (competences (db w))) as [c|] eqn:Hc; simpl.
  - apply find_one_Some in Hc. destruct Hc as [Hin Hid].
    apply String.eqb_eq in Hid. auto.
  - split; [reflexivity|]. split; [reflexivity|]. split; [reflexivity|].
    intros c Hin. apply String.eqb_neq.
    exact (proj1 (find_one_None_iff _ _) Hc c Hin).
Qed.

(** ** Login *)

Lemma process_session_run auth body fresh_id now_user now_expires now_created w :
  process_session auth body fresh_id now_user now_expires now_created w
  = login_outcome auth body fresh_id now_user now_expires now_created w.
Proof.
  unfold process_session, login_outcome, get_session_data.
  destruct (body !! "session_id") as [sid|]; [|reflexivity]. simpl.
  destruct (String.eqb sid ""); [reflexivity|].
  unfold bind at 1.
  destruct (auth sid) as [status json|exn_type message]; [|reflexivity].
  destruct (status =? 200); [|reflexivity].
  unfold ret at 1. cbn [negb orb].
  destruct (not_value json) eqn:Hfalsy; [reflexivity|].
  destruct json as [| b | z | f | str | items | d]; try reflexivity.
  unfold login_with, getitem_key, get_key, db_insert_one.
  cbn [encodable user_bson session_bson].
  unfold bind, query, modify, ret, throw.
  destruct (d !! "email") as [email|]; [|reflexivity].
  destruct (find_one (fun u => String.eqb (u_email u) email) (users (db w)))
    as [user|].
  - destruct (d !! "session_token") as [token|]; reflexivity.
  - destruct (d !! "name") as [name|]; [|reflexivity].
    destruct (d !! "session_token") as [token|]; reflexivity.
Qed.

(** The fields of an object are those of its dict. *)
Lemma json_lookup_dict (d : JsonObject) (key : string) :
  JsonDict d !! key = d !! key.
Proof. reflexivity. Qed.

(** Once the auth service has described the user, nothing raises an
    [HTTPException]. *)
Lemma login_with_no_http d fresh_id now_user now_expires now_created w
    status_code detail :
  fst (login_with d fresh_id now_user now_expires now_created w)
  <> HTTPException status_code detail.
Proof.
  unfold login_with.
  destruct (d !! "email") as [email|]; [|discriminate].
  destruct (find_one _ (users (db w))) as [user|].
  - destruct (d !! "session_token"); discriminate.
  - destruct (d !! "name"); [|discriminate].
    destruct (d !! "session_token"); discriminate.
Qed.

(** What a successful login leaves behind: the user row was there, or
    the user just built has been inserted; and one more session row. *)
Lemma process_session_Return auth body fresh_id now_user now_expires
    now_created w result w' :
  process_session auth body fresh_id now_user now_expires now_created w
    = (Return result, w') ->
  ((users (db w') = users (db w) /\
    find_one (fun u => String.eqb (u_email u) (u_email (lr_user result)))
             (users (db w)) = Some (lr_user result)) \/
   (users (db w') = insert_one (stored (lr_user result)) (users (db w)) /\
    u_id (lr_user result) = fresh_id /\
    find_one (fun u => String.eqb (u_email u) (u_email (lr_user result)))
             (users (db w)) = None)) /\
  user_sessions (db w')
    = insert_one (session_for (lr_user result) (lr_session_token result)
                              now_expires now_created)
                 (user_sessions (db w)).
Proof.
  rewrite process_session_run. unfold login_outcome.
  destruct (body !! "session_id") as [sid|]; [|discriminate].
  destruct (String.eqb sid ""); [discriminate|].
  destruct (auth sid) as [status json|exn_type message]; [|discriminate].
  destruct (negb (status =? 200) || not_value json); [discriminate|].
  destruct json as [| b | z | f | str | items | d]; try discriminate.
  unfold login_with.
  destruct (d !! "email") as [email|]; [|discriminate].
  destruct (find_one (fun u => String.eqb (u_email u) email) (users (db w)))
    as [user|] eqn:Hfind.
  - destruct (d !! "session_token") as [token|]; [|discriminate].
    intros H. injection H as <- <-. simpl.
    pose proof (find_one_Some _ _ _ Hfind) as [Hin Hemail].
    apply String.eqb_eq in Hemail. rewrite Hemail.
    split; [left; auto|reflexivity].
  - destruct (d !! "name") as [name|]; [|discriminate].
    destruct (d !! "session_token") as [token|]; [|discriminate].
    intros H. injection H as <- <-. simpl.
    split; [right; auto|reflexivity].
Qed.

(** The row the user store holds after a successful login for the
    email of the returned user: the returned user itself, or its
    stored form when the login created it. *)
Lemma process_session_kept auth body fresh_id now_user now_expires
    now_created w result w' :
  process_session auth body fresh_id now_user now_expires now_created w
    = (Return result, w') ->
  exists kept,
    find_one (fun u => String.eqb (u_email u) (u_email (lr_user result)))
             (users (db w')) = Some kept /\
    (kept = lr_user result \/ kept = stored (lr_user result)).
Proof.
  intros Hlogin.
  destruct (process_session_Return _ _ _ _ _ _ _ _ _ Hlogin)
    as ([[Husers Hfind] | (Husers & _ & Hnone)] & _); rewrite Husers.
  - exists (lr_user result). auto.
  - exists (stored (lr_user result)). split; [|auto].
    apply find_one_insert_one; [exact Hnone|].
    simpl. apply String.eqb_refl.
Qed.

(** X3. Login round trip. After a successful [process_session], the
    issued token, presented as the cookie or as bearer credentials,
    resolves through [get_current_user] to the user row of the login
    (the returned user, in its stored form when the login created it),
    so [/auth/me] answers with that user, at any time up to the stored
    expiry: seven days after the login's clock reading, cut to the
    millisecond.  After that instant [/auth/me] answers 401.  This
    needs the token to be non-empty and new to the session store, and
    user ids to be distinct (the drawn uuid included). *)
Theorem login_then_authenticated :
  forall (auth : AuthService) (body : JsonObject) (fresh_id : string)
         (now_user now_expires now_created : Z) (w w' : World)
         (result : LoginResult) (others : gmap string string) (now : Z),
    process_session auth body fresh_id now_user now_expires now_created w
      = (Return result, w') ->
    lr_session_token result <> "" ->
    session_row (lr_session_token result) (db w) = None ->
    List.NoDup (map u_id (users (db w))) ->
    ~ In fresh_id (map u_id (users (db w))) ->
    (now <= 1000 * ((now_expires + seven_days) / 1000) ->
     exists me,
       depends_current_user (cookie_request others (lr_session_token result))
                            None now get_me w'
         = (Return me, w') /\
       depends_current_user (plain_request others)
                            (Some (bearer (lr_session_token result))) now
                            get_me w'
         = (Return me, w') /\
       u_id me = u_id (lr_user result) /\
       (me = lr_user result \/ me = stored (lr_user result)) /\
       stored me = stored (lr_user result)) /\
    (1000 * ((now_expires + seven_days) / 1000) < now ->
     depends_current_user (cookie_request others (lr_session_token result))
                          None now get_me w'
       = (HTTPException 401 "Not authenticated", w') /\
     depends_current_user (plain_request others)
                          (Some (bearer (lr_session_token result))) now
                          get_me w'
       = (HTTPException 401 "Not authenticated", w')).
Proof.
  intros auth body fresh_id now_user now_expires now_created w w' result
         others now Hlogin Htoken Hnew Hids Hfresh.
  destruct (process_session_Return _ _ _ _ _ _ _ _ _ Hlogin)
    as (Husers & Hsessions).
  assert (Hrow :
    session_row (lr_session_token result) (db w')
    = Some (session_for (lr_user result) (lr_session_token result)
                        now_expires now_created)).
  { unfold session_row. rewrite Hsessions.
    unfold session_row in Hnew.
    exact (find_one_insert_one
             (fun s => String.eqb (s_session_token s)
                                  (lr_session_token result))
             (user_sessions (db w))
             (session_for (lr_user result) (lr_session_token result)
                          now_expires now_created)
             Hnew (String.eqb_refl _)). }
  assert (Hexpiry :
    utc_instant (s_expires_at (session_for (lr_user result)
                                 (lr_session_token result) now_expires
                                 now_created))
    = 1000 * ((now_expires + seven_days) / 1000)).
  { unfold session_for, bson_datetime, plus_seven_days, datetime_now_utc,
      utc_instant.
    cbn [s_expires_at wall tzinfo]. rewrite Z.sub_0_r. reflexivity. }
  assert (Hselect :
    select_session_token (cookie_request others (lr_session_token result))
                         None = Some (lr_session_token result) /\
    select_session_token (plain_request others)
                         (Some (bearer (lr_session_token result)))
    = Some (lr_session_token result)).
  { unfold select_session_token, cookie_request, plain_request, bearer.
    simpl. rewrite lookup_insert_eq, lookup_delete_eq. auto. }
  destruct Hselect as [Hcookie Hbearer].
  unfold depends_current_user, bind.
  rewrite !get_current_user_run, Hcookie, Hbearer.
  unfold resolve.
  rewrite (proj2 (String.eqb_neq _ _) Htoken), Hrow, Hexpiry.
  split.
  - intros Hnow.
    rewrite (proj2 (Z.ltb_ge _ _) Hnow).
    cbn [session_for s_user_id].
    destruct Husers as [[Hsame Hfind] | (Hadd & Hid & _)].
    + exists (lr_user result). rewrite Hsame.
      apply find_one_Some in Hfind. destruct Hfind as [Hin _].
      rewrite (find_one_by_key u_id (users (db w)) (lr_user result) Hids Hin).
      unfold get_me, ret. repeat split; auto.
    + exists (stored (lr_user result)). rewrite Hadd.
      assert (Hfound :
        find_one (fun u => String.eqb (u_id u) (u_id (lr_user result)))
                 (insert_one (stored (lr_user result)) (users (db w)))
        = Some (stored (lr_user result))).
      { apply (find_one_insert_one
                 (fun u => String.eqb (u_id u) (u_id (lr_user result))));
          [|apply String.eqb_refl].
        apply find_one_None_iff. intros u Hu. apply String.eqb_neq.
        intros Heq. apply Hfresh. rewrite <- Hid, <- Heq.
        apply in_map. exact Hu. }
      rewrite Hfound. unfold get_me, ret.
      split; [reflexivity|]. split; [reflexivity|]. split; [reflexivity|].
      split; [right; reflexivity|]. apply stored_user_idem.
  - intros Hnow.
    rewrite (proj2 (Z.ltb_lt _ _) Hnow). split; reflexivity.
Qed.

(** Alice logs in to an empty database at clock reading 11 and
    presents her cookie a week later: at the last millisecond of the
    week she is recognised, 11 microseconds later she is not. *)
Lemma login_then_authenticated_witness :
  depends_current_user (cookie_request ∅ "tok-alice") None
    seven_days get_me
    (snd (process_session sample_auth alice_body "u-alice" 0 11 12
                          (world_of empty_database)))
  = (Return alice,
     snd (process_session sample_auth alice_body "u-alice" 0 11 12
                          (world_of empty_database))) /\
  depends_current_user (cookie_request ∅ "tok-alice") None
    (11 + seven_days) get_me
    (snd (process_session sample_auth alice_body "u-alice" 0 11 12
                          (world_of empty_database)))
  = (HTTPException 401 "Not authenticated",
     snd (process_session sample_auth alice_body "u-alice" 0 11 12
                          (world_of empty_database))).
Proof.
  assert (Hids : List.NoDup (map u_id (users (db (world_of empty_database)))))
    by constructor.
  assert (Htoken : "tok-alice" <> "") by discriminate.
  assert (Hfresh : ~ In "u-alice"
                     (map u_id (users (db (world_of empty_database)))))
    by (intros []).
  split.
  - destruct (proj1 (login_then_authenticated sample_auth alice_body "u-alice"
                       0 11 12 (world_of empty_database)
                       (snd (process_session sample_auth alice_body "u-alice"
                               0 11 12 (world_of empty_database)))
                       (login_result
                          (new_user "u-alice" "alice@example.org" "Alice"
                                    None 0)
                          "tok-alice")
                       ∅ seven_days eq_refl Htoken eq_refl Hids Hfresh))
      as (me & Hme & _ & _ & _ & _).
    + vm_compute. discriminate.
    + assert (Heq : me = alice).
      { pose proof Hme as H. vm_compute in H. injection H as H.
        symmetry. exact H. }
      rewrite <- Heq. exact Hme.
  - refine (proj1 (proj2 (login_then_authenticated sample_auth alice_body
                       "u-alice" 0 11 12 (world_of empty_database)
                       (snd (process_session sample_auth alice_body "u-alice"
                               0 11 12 (world_of empty_database)))
                       (login_result
                          (new_user "u-alice" "alice@example.org" "Alice"
                                    None 0)
                          "tok-alice")
                       ∅ (11 + seven_days) eq_refl Htoken eq_refl Hids Hfresh)
                    _)).
    vm_compute. reflexivity.
Defined.

(** X4. Find-or-create. Two successful logins whose returned users
    have the same email are logins of one user row: the second returns
    the row the first left in the store (the user the first returned,
    in its stored form when the first created it) and adds no user
    row; each adds one session row for that user. *)
Theorem login_twice_one_user :
  forall (auth : AuthService) (body1 body2 : JsonObject) (id1 id2 : string)
         (t1 t2 t3 t1' t2' t3' : Z) (w w1 w2 : World)
         (r1 r2 : LoginResult),
    process_session auth body1 id1 t1 t2 t3 w = (Return r1, w1) ->
    process_session auth body2 id2 t1' t2' t3' w1 = (Return r2, w2) ->
    u_email (lr_user r2) = u_email (lr_user r1) ->
    (lr_user r2 = lr_user r1 \/ lr_user r2 = stored (lr_user r1)) /\
    stored (lr_user r2) = stored (lr_user r1) /\
    u_id (lr_user r2) = u_id (lr_user r1) /\
    users (db w2) = users (db w1) /\
    user_sessions (db w2)
      = (user_sessions (db w)
         ++ [session_for (lr_user r1) (lr_session_token r1) t2 t3;
             session_for (lr_user r1) (lr_session_token r2) t2' t3'])%list.
Proof.
  intros auth body1 body2 id1 id2 t1 t2 t3 t1' t2' t3' w w1 w2 r1 r2
         H1 H2 Hemail.
  destruct (process_session_kept _ _ _ _ _ _ _ _ _ H1)
    as (kept & Hkept & Hform).
  destruct (process_session_Return _ _ _ _ _ _ _ _ _ H1) as (_ & Hs1).
  destruct (process_session_Return _ _ _ _ _ _ _ _ _ H2)
    as (Husers2 & Hs2).
  rewrite Hemail in Husers2.
  destruct Husers2 as [[Husers Hfind] | (_ & _ & Hnone)];
    [|rewrite Hkept in Hnone; discriminate Hnone].
  rewrite Hkept in Hfind. injection Hfind as Hsame.
  assert (Hcases : lr_user r2 = lr_user r1 \/ lr_user r2 = stored (lr_user r1)).
  { rewrite <- Hsame. exact Hform. }
  assert (Hid : u_id (lr_user r2) = u_id (lr_user r1)).
  { destruct Hcases as [-> | ->]; reflexivity. }
  split; [exact Hcases|].
  split.
  { destruct Hcases as [-> | ->]; [reflexivity|apply stored_user_idem]. }
  split; [exact Hid|]. split; [exact Husers|].
  rewrite Hs2, Hs1. unfold insert_one, session_for. rewrite Hid.
  rewrite <- app_assoc. reflexivity.
Qed.

(** Alice logs in twice with the same external session: the first
    login returns the user as built, the second the stored row. *)
Lemma login_twice_one_user_witness :
  users (db (snd (process_session sample_auth alice_body "u-2" 20 21 22
      (snd (process_session sample_auth alice_body "u-alice" 0 11 12
                            (world_of empty_database))))))
  = [alice] /\
  stored (new_user "u-alice" "alice@example.org" "Alice" None 0) = alice.
Proof.
  destruct (login_twice_one_user sample_auth alice_body alice_body
           "u-alice" "u-2" 0 11 12 20 21 22 (world_of empty_database)
           (snd (process_session sample_auth alice_body "u-alice" 0 11 12
                                 (world_of empty_database)))
           (snd (process_session sample_auth alice_body "u-2" 20 21 22
              (snd (process_session sample_auth alice_body "u-alice" 0 11 12
                                    (world_of empty_database)))))
           (login_result
              (new_user "u-alice" "alice@example.org" "Alice" None 0)
              "tok-alice")
           (login_result alice "tok-alice")
           eq_refl eq_refl eq_refl) as (_ & _ & _ & Husers & _).
  split; [exact Husers|reflexivity].
Defined.

(** X5. The two refusals of [process_session].  A body whose
    [session_id] is missing or the empty string is refused with 400
    "Session ID required".  For a non-empty session id the handler
    raises an [HTTPException] exactly when the auth service replies
    with a status other than 200 or with a falsy body (no body,
    [null], [false], zero, an empty string, array or object); it is
    then 400 "Invalid session ID".  Every [HTTPException] of the
    handler has status 400 and leaves the world as it was. *)
Theorem process_session_bad_request_iff :
  forall (auth : AuthService) (body : JsonObject) (fresh_id : string)
         (now_user now_expires now_created : Z) (w : World),
    (body !! "session_id" = None \/ body !! "session_id" = Some "" ->
     process_session auth body fresh_id now_user now_expires now_created w
     = (HTTPException 400 "Session ID required", w)) /\
    (forall sid,
        body !! "session_id" = Some sid -> sid <> "" ->
        ((exists status_code detail,
             fst (process_session auth body fresh_id now_user now_expires
                                  now_created w)
             = HTTPException status_code detail)
         <-> refused_reply (auth sid)) /\
        (refused_reply (auth sid) ->
         process_session auth body fresh_id now_user now_expires
                         now_created w
         = (HTTPException 400 "Invalid session ID", w)) /\
        (forall exn_type message,
            auth sid = AuthFailure exn_type message ->
            process_session auth body fresh_id now_user now_expires
                            now_created w
            = (Uncaught exn_type message, w)) /\
        (forall json,
            auth sid = AuthReply 200 json ->
            not_value json = false ->
            (forall d, json <> JsonDict d) ->
            exists message,
              process_session auth body fresh_id now_user now_expires
                              now_created w
              = (Uncaught "TypeError" message, w))) /\
    (forall status_code detail w',
        process_session auth body fresh_id now_user now_expires
                        now_created w
        = (HTTPException status_code detail, w') ->
        status_code = 400 /\ w' = w).
Proof.
  intros auth body fresh_id now_user now_expires now_created w.
  rewrite process_session_run. unfold login_outcome.
  split; [|split].
  - intros [-> | ->]; reflexivity.
  - intros sid -> Hsid.
    rewrite (proj2 (String.eqb_neq _ _) Hsid).
    unfold refused_reply.
    destruct (auth sid) as [status json|exn_type message].
    2:{ split; [split|split; [|split]].
        - intros (c & d & H). discriminate H.
        - intros (status & json & H & _). discriminate H.
        - intros (status & json & H & _). discriminate H.
        - intros t e H. injection H as <- <-. reflexivity.
        - intros json H. discriminate H. }
    destruct (Z.eqb_spec status 200) as [H200|Hnot]; cbn [negb orb].
    2:{ split; [split; [intros _|eauto]|split; [reflexivity|split]].
        - eauto 6.
        - intros t e H. discriminate H.
        - intros json0 H. injection H as H _. contradiction. }
    destruct (not_value json) eqn:Hfalsy.
    { split; [split; [intros _|eauto]|split; [reflexivity|split]].
      - eauto 6.
      - intros t e H. discriminate H.
      - intros json0 H Htruthy. injection H as _ <-.
        rewrite Hfalsy in Htruthy. discriminate Htruthy. }
    assert (Hgood : ~ exists status0 json0,
      AuthReply status json = AuthReply status0 json0 /\
      (status0 <> 200 \/ not_value json0 = true)).
    { intros (status0 & json0 & H & [Hs | Hj]); injection H as <- <-.
      - contradiction.
      - rewrite Hfalsy in Hj. discriminate Hj. }
    split; [split|split; [|split]]; [|tauto|tauto| |].
    + intros (c & d & H). exfalso.
      destruct json as [| b | z | f | str | items | obj];
        try discriminate H.
      exact (login_with_no_http _ _ _ _ _ _ _ _ H).
    + intros t e H. discriminate H.
    + intros json0 H _ Hobject. injection H as _ <-.
      destruct json as [| b | z | f | str | items | obj];
        try (eexists; reflexivity).
      destruct (Hobject obj eq_refl).
  - intros c d w'.
    destruct (body !! "session_id") as [sid|].
    2:{ intros H. injection H as <- _ <-. auto. }
    destruct (String.eqb sid "").
    { intros H. injection H as <- _ <-. auto. }
    destruct (auth sid) as [status json|exn_type message]; [|discriminate].
    destruct (negb (status =? 200) || not_value json).
    { intros H. injection H as <- _ <-. auto. }
    destruct json as [| b | z | f | str | items | obj]; try discriminate.
    intros H. exfalso.
    apply (login_with_no_http obj fresh_id now_user now_expires now_created
                              w c d).
    rewrite H. reflexivity.
Qed.

(** An auth service that answers 200 with [null], with an empty array,
    with the array [[1]], and the sample service: the first two logins
    are refused, like the one the sample service does not know; the
    third ends in an uncaught [TypeError]; Alice's is not refused. *)
Lemma process_session_bad_request_iff_witness :
  process_session (fun _ => AuthReply 200 JsonNull) alice_body "u-alice"
                  0 11 12 (world_of empty_database)
  = (HTTPException 400 "Invalid session ID", world_of empty_database) /\
  process_session (fun _ => AuthReply 200 (JsonArray [])) alice_body "u-alice"
                  0 11 12 (world_of empty_database)
  = (HTTPException 400 "Invalid session ID", world_of empty_database) /\
  process_session sample_auth (<["session_id" := "ext-bob"]> ∅) "u-bob"
                  0 11 12 (world_of empty_database)
  = (HTTPException 400 "Invalid session ID", world_of empty_database) /\
  (exists message,
      process_session (fun _ => AuthReply 200 (JsonArray [JsonInt 1]))
                      alice_body "u-alice" 0 11 12 (world_of empty_database)
      = (Uncaught "TypeError" message, world_of empty_database)) /\
  ~ refused_reply (sample_auth "ext-alice").
Proof.
  assert (Hsid : "ext-alice" <> "") by discriminate.
  assert (Hbob : "ext-bob" <> "") by discriminate.
  split; [|split; [|split; [|split]]].
  - destruct (proj1 (proj2 (process_session_bad_request_iff
                (fun _ => AuthReply 200 JsonNull) alice_body "u-alice" 0 11 12
                (world_of empty_database))) "ext-alice" eq_refl Hsid)
      as (_ & Hrefused & _).
    apply Hrefused. exists 200, JsonNull. auto.
  - destruct (proj1 (proj2 (process_session_bad_request_iff
                (fun _ => AuthReply 200 (JsonArray [])) alice_body "u-alice"
                0 11 12 (world_of empty_database))) "ext-alice" eq_refl Hsid)
      as (_ & Hrefused & _).
    apply Hrefused. exists 200, (JsonArray []). auto.
  - destruct (proj1 (proj2 (process_session_bad_request_iff
                sample_auth (<["session_id" := "ext-bob"]> ∅) "u-bob"
                0 11 12 (world_of empty_database))) "ext-bob"
                (lookup_insert_eq _ _ _) Hbob)
      as (_ & Hrefused & _).
    apply Hrefused. exists 401, (JsonDict ∅).
    split; [reflexivity|]. left. discriminate.
  - destruct (proj1 (proj2 (process_session_bad_request_iff
                (fun _ => AuthReply 200 (JsonArray [JsonInt 1])) alice_body
                "u-alice" 0 11 12 (world_of empty_database)))
                "ext-alice" eq_refl Hsid)
      as (_ & _ & _ & Hother).
    apply (Hother (JsonArray [JsonInt 1])); [reflexivity|reflexivity|].
    intros d. discriminate.
  - intros Hrefused.
    destruct (proj1 (proj2 (process_session_bad_request_iff
                sample_auth alice_body "u-alice" 0 11 12
                (world_of empty_database))) "ext-alice" eq_refl Hsid)
      as (Hiff & _).
    apply Hiff in Hrefused.
    destruct Hrefused as (c & d & H). discriminate H.
Defined.

(** X6. A reply from the auth service that has an email new to the
    user store and a name, but no [session_token], ends in an uncaught
    [KeyError] after the user row has been inserted: the new user is
    stored, without any session. *)
Theorem process_session_missing_token_keeps_user :
  forall (auth : AuthService) (body : JsonObject) (sid fresh_id : string)
         (now_user now_expires now_created : Z) (w : World)
         (email name : string),
    body !! "session_id" = Some sid -> sid <> "" ->
    ar_status (auth sid) = 200 ->
    ar_json (auth sid) !! "email" = Some email ->
    ar_json (auth sid) !! "name" = Some name ->
    ar_json (auth sid) !! "session_token" = None ->
    (forall u, In u (users (db w)) -> u_email u <> email) ->
    process_session auth body fresh_id now_user now_expires now_created w
    = (Uncaught "KeyError" "'session_token'",
       add_user (new_user fresh_id email name
                          (ar_json (auth sid) !! "picture") now_user) w) /\
    user_sessions
      (db (add_user (new_user fresh_id email name
                              (ar_json (auth sid) !! "picture") now_user) w))
    = user_sessions (db w).
Proof.
  intros auth body sid fresh_id now_user now_expires now_created w email name
         Hbody Hsid H200 Hemail Hname Htoken Hnew.
  split; [|reflexivity].
  rewrite process_session_run. unfold login_outcome.
  rewrite Hbody, (proj2 (String.eqb_neq _ _) Hsid).
  destruct (auth sid) as [status json|exn_type message];
    [|discriminate H200].
  cbn [ar_status ar_json] in *. rewrite H200. cbn [Z.eqb Pos.eqb negb orb].
  destruct json as [| b | z | f | str | items | d]; try discriminate Hemail.
  rewrite !json_lookup_dict in *.
  assert (Hdata : d <> ∅).
  { intros Hempty. rewrite Hempty in Hemail. unfold JsonObject in *.
    rewrite lookup_empty in Hemail. discriminate Hemail. }
  cbn [not_value]. rewrite (bool_decide_eq_false_2 _ Hdata).
  unfold login_with. rewrite Hemail.
  assert (Hfind : find_one (fun u => String.eqb (u_email u) email)
                           (users (db w)) = None).
  { apply find_one_None_iff. intros u Hu. apply String.eqb_neq.
    apply Hnew. exact Hu. }
  rewrite Hfind, Hname, Htoken. reflexivity.
Qed.

(** A first login of Alice through the auth service that sends no
    token. *)
Lemma process_session_missing_token_keeps_user_witness :
  process_session tokenless_auth alice_body "u-alice" 0 11 12
                  (world_of empty_database)
  = (Uncaught "KeyError" "'session_token'",
     add_user alice (world_of empty_database)).
Proof.
  refine (proj1 (process_session_missing_token_keeps_user tokenless_auth
            alice_body "ext-alice" "u-alice" 0 11 12
            (world_of empty_database) "alice@example.org" "Alice"
            eq_refl _ eq_refl eq_refl eq_refl eq_refl _)).
  - discriminate.
  - intros u [].
Defined.

(** ** Logout *)

Lemma logout_run request w :
  logout request w =
  (Return logged_out,
   match cookies request !! "session_token" with
   | Some token =>
       if String.eqb token "" then w
       else {| db := with_user_sessions (delete_one (has_token token)) (db w);
               llm_calls := llm_calls w |}
   | None => w
   end).
Proof.
  unfold logout, bind.
  destruct (cookies request !! "session_token") as [token|]; simpl;
    [|reflexivity].
  destruct (String.eqb token ""); reflexivity.
Qed.

(** X7. [logout] always reports success; when the session store holds
    at most one row for the cookie's token, that token resolves to no
    user afterwards, at any time and whether it is presented as cookie
    or as bearer credentials. *)
Theorem logout_then_unauthenticated :
  forall (others : gmap string string) (token : string) (w : World)
         (request : Request) (creds : option HTTPAuthorizationCredentials)
         (now : Z),
    count_documents (has_token token) (user_sessions (db w)) <= 1 ->
    select_session_token request creds = Some token ->
    fst (logout (cookie_request others token) w) = Return logged_out /\
    get_current_user request creds now
                     (snd (logout (cookie_request others token) w))
    = (Return None, snd (logout (cookie_request others token) w)).
Proof.
  intros others token w request creds now Hcount Hsel.
  rewrite logout_run. split; [reflexivity|].
  rewrite get_current_user_run, Hsel. f_equal. f_equal.
  unfold resolve. destruct (String.eqb token "") eqn:Hempty; [reflexivity|].
  unfold cookie_request. simpl. rewrite lookup_insert_eq, Hempty.
  unfold session_row. simpl.
  fold (has_token token).
  rewrite (find_one_delete_one_unique (has_token token) _ Hcount).
  reflexivity.
Qed.

(** Alice, whose token resolves to her, logs out of her only session:
    the token resolves to nobody afterwards. *)
Lemma logout_then_unauthenticated_witness :
  get_current_user (cookie_request ∅ "tok-alice") None 1000
                   (world_of session_database)
  = (Return (Some alice), world_of session_database) /\
  user_sessions
    (db (snd (logout (cookie_request ∅ "tok-alice")
                     (world_of session_database))))
  = [bob_session] /\
  get_current_user (cookie_request ∅ "tok-alice") None 1000
    (snd (logout (cookie_request ∅ "tok-alice") (world_of session_database)))
  = (Return None,
     snd (logout (cookie_request ∅ "tok-alice") (world_of session_database))).
Proof.
  split; [reflexivity|]. split; [reflexivity|].
  refine (proj2 (logout_then_unauthenticated ∅ "tok-alice"
                   (world_of session_database)
                   (cookie_request ∅ "tok-alice") None 1000 _ eq_refl)).
  vm_compute. discriminate.
Defined.

(** X8. [logout] leaves every other session alone: a token different
    from the cookie's one resolves after the logout to what it
    resolved to before; in particular a request without the cookie
    (bearer credentials only) logs nobody out. *)
Theorem logout_keeps_other_sessions :
  forall (leaving : Request) (w : World) (request : Request)
         (creds : option HTTPAuthorizationCredentials) (now : Z)
         (token : string),
    select_session_token request creds = Some token ->
    cookies leaving !! "session_token" <> Some token ->
    fst (get_current_user request creds now (snd (logout leaving w)))
    = fst (get_current_user request creds now w).
Proof.
  intros leaving w request creds now token Hsel Hother.
  rewrite logout_run, !get_current_user_run, Hsel. simpl. f_equal.
  destruct (cookies leaving !! "session_token") as [gone|]; [|reflexivity].
  destruct (String.eqb gone ""); [reflexivity|].
  unfold resolve. destruct (String.eqb token ""); [reflexivity|].
  unfold session_row. simpl.
  rewrite (find_one_delete_one_other (has_token gone)
             (fun s => String.eqb (s_session_token s) token)).
  - reflexivity.
  - intros s Hs. unfold has_token in Hs. apply String.eqb_eq in Hs.
    apply String.eqb_neq. intros Heq. apply Hother. congruence.
Qed.

(** Bob logs out with his cookie: his session row is deleted, and
    Alice's token, presented as bearer credentials, still resolves to
    Alice. *)
Lemma logout_keeps_other_sessions_witness :
  user_sessions
    (db (snd (logout (cookie_request ∅ "tok-bob")
                     (world_of session_database))))
  = [alice_session] /\
  fst (get_current_user (plain_request ∅) (Some (bearer "tok-alice")) 1000
         (snd (logout (cookie_request ∅ "tok-bob")
                      (world_of session_database))))
  = Return (Some alice).
Proof.
  split; [reflexivity|].
  refine (eq_trans (logout_keeps_other_sessions (cookie_request ∅ "tok-bob")
            (world_of session_database) (plain_request ∅)
            (Some (bearer "tok-alice")) 1000 "tok-alice" eq_refl _) eq_refl).
  vm_compute. discriminate.
Defined.

(** X9. [logout] deletes one row per call: of several session rows
    carrying the cookie's token only the first is removed, and the
    token is then looked up among the rows that followed it. *)
Theorem logout_removes_first_row_only :
  forall (others : gmap string string) (token : string) (w : World)
         (pre rest : list UserSession) (s1 : UserSession),
    token <> "" ->
    user_sessions (db w) = (pre ++ s1 :: rest)%list ->
    (forall s, In s pre -> s_session_token s <> token) ->
    s_session_token s1 = token ->
    user_sessions (db (snd (logout (cookie_request others token) w)))
      = (pre ++ rest)%list /\
    session_row token (db (snd (logout (cookie_request others token) w)))
      = find_one (has_token token) rest.
Proof.
  intros others token w pre rest s1 Htoken Hrows Hpre Hs1.
  rewrite logout_run. unfold cookie_request. simpl.
  rewrite lookup_insert_eq, (proj2 (String.eqb_neq _ _) Htoken).
  unfold session_row. simpl. rewrite Hrows.
  assert (Hq : forall s, In s pre -> has_token token s = false).
  { intros s Hs. apply String.eqb_neq. apply Hpre. exact Hs. }
  rewrite (delete_one_first (has_token token) pre s1 rest Hq).
  2:{ unfold has_token. rewrite Hs1. apply String.eqb_refl. }
  split; [reflexivity|].
  fold (has_token token). unfold find_one.
  clear Hrows Hpre. induction pre as [|x pre IH]; simpl; [reflexivity|].
  rewrite (Hq x (or_introl eq_refl)). apply IH.
  intros s Hs. apply Hq. right. exact Hs.
Qed.

(** Alice logged in twice with the same token and logs out once: the
    second session row still answers for her token. *)
Lemma logout_removes_first_row_only_witness :
  session_row "tok-alice"
    (db (snd (logout (cookie_request ∅ "tok-alice")
       (snd (process_session sample_auth alice_body "u-2" 20 21 22
          (snd (process_session sample_auth alice_body "u-alice" 0 11 12
                                (world_of empty_database))))))))
  = Some (session_for alice "tok-alice" 21 22).
Proof.
  refine (eq_trans (proj2 (logout_removes_first_row_only ∅ "tok-alice"
            (snd (process_session sample_auth alice_body "u-2" 20 21 22
               (snd (process_session sample_auth alice_body "u-alice" 0 11 12
                                     (world_of empty_database)))))
            [] [session_for alice "tok-alice" 21 22]
            (session_for alice "tok-alice" 11 12) _ eq_refl _ eq_refl))
            eq_refl).
  - discriminate.
  - intros s [].
Defined.

(** ** Workshop chat: runs past the ownership check *)

(** The lookup that follows an update: when the updated document is
    the first one the narrower query [q] can find, [q] finds its
    updated version. *)
Lemma find_one_update_one {D} (q q' : D -> bool) (set : D -> D) coll d :
  find_one q' coll = Some d ->
  (forall x, q x = true -> q' x = true) ->
  q (set d) = true ->
  find_one q (update_one q' set coll) = Some (set d).
Proof.
  unfold find_one. intros Hfind Hsub Hq.
  induction coll as [|x coll IH]; [discriminate Hfind|].
  simpl in *. destruct (q' x) eqn:Hq'x.
  - injection Hfind as ->. simpl. rewrite Hq. reflexivity.
  - simpl. destruct (q x) eqn:Hqx.
    + rewrite (Hsub x Hqx) in Hq'x. discriminate Hq'x.
    + apply IH. exact Hfind.
Qed.

(** What [chat_with_ai] does for the owner of a session. *)
Lemma chat_with_ai_run llm w user session_id message now_user now_assistant s :
  find_one (owned_session session_id user) (ai_workshop_sessions (db w))
    = Some s ->
  chat_with_ai llm session_id message (Some user) now_user now_assistant w =
  match find_one (fun c => String.eqb (c_id c) (w_competence_id s))
                 (competences (db w)) with
  | None =>
      (HTTPException 500
         "AI service error: 'NoneType' object is not subscriptable", w)
  | Some competence =>
      let call := chat_call session_id competence message in
      match llm call with
      | Failure _ e =>
          (HTTPException 500 ("AI service error: " ++ e),
           {| db := db w; llm_calls := (llm_calls w ++ [call])%list |})
      | Reply response =>
          (Return (chat_response response),
           {| db := with_ai_workshop_sessions
                      (update_one (session_with_id session_id)
                         (set_messages
                            (w_messages s
                             ++ exchange message response now_user
                                         now_assistant)%list))
                      (db w);
              llm_calls := (llm_calls w ++ [call])%list |})
      end
  end.
Proof.
  intros Hs. unfold chat_with_ai.
  unfold bind at 1. unfold query at 1.
  fold (owned_session session_id user). rewrite Hs.
  unfold bind at 1. unfold query at 1.
  destruct (find_one _ (competences (db w))) as [competence|];
    [|reflexivity].
  unfold try_except, bind, ret, send_message, modify, raise_http.
  fold (chat_call session_id competence message).
  destruct (llm (chat_call session_id competence message)); reflexivity.
Qed.

(** X10. [chat_with_ai] never ends in an uncaught exception, and every
    failure (404, or 500 with a detail that starts with [AI service
    error: ]) leaves the database as it was: no transcript is written
    unless the backend replied.  For the owner of the session a
    competence missing from the catalog gives 500 with the message of
    the [TypeError], the backend not being called; and a failure of the
    backend gives 500 with the backend's message, the call being
    logged. *)
Theorem chat_with_ai_failures_write_nothing :
  forall (llm : LlmBackend) (w : World) (user : User)
         (session_id message : string) (now_user now_assistant : Z),
    (forall exn_type e,
        fst (chat_with_ai llm session_id message (Some user) now_user
                          now_assistant w) <> Uncaught exn_type e) /\
    (forall status_code detail w',
        chat_with_ai llm session_id message (Some user) now_user
                     now_assistant w = (HTTPException status_code detail, w') ->
        db w' = db w /\
        (status_code = 404 /\ w' = w \/
         status_code = 500 /\
         exists e, detail = "AI service error: " ++ e)) /\
    (forall s,
        find_one (owned_session session_id user)
                 (ai_workshop_sessions (db w)) = Some s ->
        (find_one (fun c => String.eqb (c_id c) (w_competence_id s))
                  (competences (db w)) = None ->
         chat_with_ai llm session_id message (Some user) now_user
                      now_assistant w
         = (HTTPException 500
              "AI service error: 'NoneType' object is not subscriptable",
            w)) /\
        (forall competence exn_type e,
            find_one (fun c => String.eqb (c_id c) (w_competence_id s))
                     (competences (db w)) = Some competence ->
            llm (chat_call session_id competence message)
              = Failure exn_type e ->
            chat_with_ai llm session_id message (Some user) now_user
                         now_assistant w
            = (HTTPException 500 ("AI service error: " ++ e),
               {| db := db w;
                  llm_calls :=
                    (llm_calls w
                     ++ [chat_call session_id competence message])%list |}))).
Proof.
  intros llm w user session_id message now_user now_assistant.
  destruct (find_one (owned_session session_id user)
                     (ai_workshop_sessions (db w))) as [s|] eqn:Hs.
  - rewrite (chat_with_ai_run llm w user session_id message now_user
               now_assistant s Hs).
    split; [|split].
    + intros exn_type e.
      destruct (find_one _ (competences (db w))) as [c|]; [|discriminate].
      cbv zeta. destruct (llm (chat_call session_id c message));
        discriminate.
    + intros status_code detail w'.
      destruct (find_one _ (competences (db w))) as [c|].
      * cbv zeta. destruct (llm (chat_call session_id c message)) as [r|t e];
          [discriminate|].
        intros H. injection H as <- <- <-.
        split; [reflexivity|]. right. eauto.
      * intros H. injection H as <- <- <-.
        split; [reflexivity|]. right. eauto.
    + intros s' Hs'. injection Hs' as <-. split.
      * intros Hc. rewrite Hc. reflexivity.
      * intros competence exn_type e Hc Hfail. rewrite Hc. cbv zeta.
        rewrite Hfail. reflexivity.
  - assert (Hrun :
      chat_with_ai llm session_id message (Some user) now_user now_assistant w
      = (HTTPException 404 "Workshop session not found", w)).
    { unfold chat_with_ai. unfold bind at 1. unfold query at 1.
      fold (owned_session session_id user). rewrite Hs. reflexivity. }
    rewrite Hrun. split; [|split].
    + intros exn_type e. discriminate.
    + intros status_code detail w' H. injection H as <- <- <-.
      split; [reflexivity|]. left. auto.
    + intros s Hsome. discriminate Hsome.
Qed.

(** Alice's session [ws-1] when the catalog has lost its competence,
    and when the backend is down. *)
Lemma chat_with_ai_failures_write_nothing_witness :
  chat_with_ai echo_llm "ws-1" "Bonjour" (Some alice) 1 2
               (world_of orphan_workshop_database)
  = (HTTPException 500
       "AI service error: 'NoneType' object is not subscriptable",
     world_of orphan_workshop_database) /\
  fst (chat_with_ai (fun _ => Failure "RuntimeError" "backend down") "ws-1"
                    "Bonjour" (Some alice) 1 2 (world_of workshop_database))
  = HTTPException 500 "AI service error: backend down".
Proof.
  split.
  - exact (proj1 (proj2 (proj2 (chat_with_ai_failures_write_nothing echo_llm
             (world_of orphan_workshop_database) alice "ws-1" "Bonjour" 1 2))
             workshop_1 eq_refl) eq_refl).
  - exact (f_equal fst
             (proj2 (proj2 (proj2 (chat_with_ai_failures_write_nothing
                (fun _ => Failure "RuntimeError" "backend down")
                (world_of workshop_database) alice "ws-1" "Bonjour" 1 2))
                workshop_1 eq_refl) competence_1 "RuntimeError"
                "backend down" eq_refl eq_refl)).
Defined.

(** X11. When the backend replies, the owner's chat returns the reply,
    logs exactly one backend call (the session id, the system prompt
    of the session's competence, the message), and the session read
    back afterwards carries the old transcript followed by the two
    entries of the exchange: the transcript only grows.  This needs
    the owner's row to be the first row with that session id. *)
Theorem chat_with_ai_appends_exchange :
  forall (llm : LlmBackend) (w : World) (user : User)
         (session_id message response : string) (now_user now_assistant : Z)
         (s : AIWorkshopSession) (competence : Competence),
    find_one (owned_session session_id user) (ai_workshop_sessions (db w))
      = Some s ->
    find_one (session_with_id session_id) (ai_workshop_sessions (db w))
      = Some s ->
    find_one (fun c => String.eqb (c_id c) (w_competence_id s))
             (competences (db w)) = Some competence ->
    llm (chat_call session_id competence message) = Reply response ->
    exists w',
      chat_with_ai llm session_id message (Some user) now_user
                   now_assistant w
      = (Return (chat_response response), w') /\
      llm_calls w'
      = (llm_calls w ++ [chat_call session_id competence message])%list /\
      find_one (owned_session session_id user) (ai_workshop_sessions (db w'))
      = Some (set_messages
                (w_messages s
                 ++ exchange message response now_user now_assistant)%list
                s) /\
      length (ai_workshop_sessions (db w'))
      = length (ai_workshop_sessions (db w)).
Proof.
  intros llm w user session_id message response now_user now_assistant s
         competence Hown Hfirst Hc Hreply.
  rewrite (chat_with_ai_run llm w user session_id message now_user
             now_assistant s Hown), Hc.
  cbv zeta. rewrite Hreply.
  eexists. split; [reflexivity|]. split; [reflexivity|]. simpl.
  split; [|apply update_one_length].
  apply find_one_update_one.
  - exact Hfirst.
  - intros x Hx. unfold owned_session in Hx.
    apply andb_true_iff in Hx. exact (proj1 Hx).
  - apply find_one_Some in Hown. exact (proj2 Hown).
Qed.

(** Alice says hello in her session [ws-1]. *)
Lemma chat_with_ai_appends_exchange_witness :
  exists w',
    chat_with_ai echo_llm "ws-1" "Bonjour" (Some alice) 1 2
                 (world_of workshop_database)
    = (Return (chat_response "Bonjour"), w') /\
    find_one (owned_session "ws-1" alice) (ai_workshop_sessions (db w'))
    = Some (set_messages (exchange "Bonjour" "Bonjour" 1 2) workshop_1).
Proof.
  destruct (chat_with_ai_appends_exchange echo_llm
              (world_of workshop_database) alice "ws-1" "Bonjour" "Bonjour"
              1 2 workshop_1 competence_1 eq_refl eq_refl eq_refl eq_refl)
    as (w' & Hrun & _ & Hread & _).
  exists w'. split; [exact Hrun|exact Hread].
Defined.

(** X12. A workshop started by a user can be used by that user and by
    nobody else: after [start_ai_workshop] with a session id not yet
    in the store, for a competence of the catalog, the starter's chat
    on the returned id goes through (when the backend replies), and
    the chat of any user with another id fails with 404 without
    reaching the backend. *)
Theorem start_ai_workshop_then_chat :
  forall (llm : LlmBackend) (w : World) (user : User)
         (competence_id fresh_id message response : string)
         (now_created now_user now_assistant : Z) (competence : Competence),
    (forall s, In s (ai_workshop_sessions (db w)) -> w_id s <> fresh_id) ->
    find_one (fun c => String.eqb (c_id c) competence_id) (competences (db w))
      = Some competence ->
    llm (chat_call fresh_id competence message) = Reply response ->
    exists w1,
      start_ai_workshop competence_id (Some user) fresh_id now_created w
      = (Return (workshop_started fresh_id), w1) /\
      fst (chat_with_ai llm fresh_id message (Some user) now_user
                        now_assistant w1)
      = Return (chat_response response) /\
      forall other : User,
        u_id other <> u_id user ->
        chat_with_ai llm fresh_id message (Some other) now_user
                     now_assistant w1
        = (HTTPException 404 "Workshop session not found", w1).
Proof.
  intros llm w user competence_id fresh_id message response now_created
         now_user now_assistant competence Hfresh Hc Hreply.
  exists {| db := with_ai_workshop_sessions
                    (insert_one (new_workshop fresh_id user competence_id
                                              now_created))
                    (db w);
            llm_calls := llm_calls w |}.
  split; [reflexivity|].
  assert (Hnone : forall q : AIWorkshopSession -> bool,
    (forall s, q s = true -> w_id s = fresh_id) ->
    find_one q (ai_workshop_sessions (db w)) = None).
  { intros q Hq. apply find_one_None_iff. intros s Hs.
    destruct (q s) eqn:Hqs; [|reflexivity].
    destruct (Hfresh s Hs (Hq s Hqs)). }
  split.
  - rewrite (chat_with_ai_run llm _ user fresh_id message now_user
               now_assistant
               (new_workshop fresh_id user competence_id now_created)).
    + simpl. rewrite Hc. cbv zeta. rewrite Hreply. reflexivity.
    + simpl. apply find_one_insert_one.
      * apply Hnone. intros s Hs. unfold owned_session in Hs.
        apply andb_true_iff in Hs. apply String.eqb_eq. exact (proj1 Hs).
      * unfold owned_session. simpl. rewrite !String.eqb_refl. reflexivity.
  - intros other Hother. unfold chat_with_ai.
    unfold bind at 1. unfold query at 1.
    fold (owned_session fresh_id other).
    assert (Hmiss : find_one (owned_session fresh_id other)
        (insert_one (new_workshop fresh_id user competence_id now_created)
                    (ai_workshop_sessions (db w))) = None).
    { apply find_one_None_iff. intros s Hs. unfold insert_one in Hs.
      apply in_app_or in Hs. unfold owned_session.
      destruct Hs as [Hs | [<- | []]].
      - apply andb_false_iff. left. apply String.eqb_neq.
        apply Hfresh. exact Hs.
      - simpl. apply andb_false_iff. right. apply String.eqb_neq.
        intros Heq. apply Hother. symmetry. exact Heq. }
    cbn [db with_ai_workshop_sessions ai_workshop_sessions].
    rewrite Hmiss. reflexivity.
Qed.

(** Alice starts a workshop on [c-1] and chats; Bob is turned away. *)
Lemma start_ai_workshop_then_chat_witness :
  exists w1,
    start_ai_workshop "c-1" (Some alice) "ws-2" 5 (world_of workshop_database)
    = (Return (workshop_started "ws-2"), w1) /\
    fst (chat_with_ai echo_llm "ws-2" "Bonjour" (Some alice) 6 7 w1)
    = Return (chat_response "Bonjour") /\
    chat_with_ai echo_llm "ws-2" "Bonjour" (Some bob) 6 7 w1
    = (HTTPException 404 "Workshop session not found", w1).
Proof.
  destruct (start_ai_workshop_then_chat echo_llm (world_of workshop_database)
              alice "c-1" "ws-2" "Bonjour" "Bonjour" 5 6 7 competence_1)
    as (w1 & Hstart & Hchat & Hother).
  - intros s [<-|[]]. discriminate.
  - reflexivity.
  - reflexivity.
  - exists w1. split; [exact Hstart|]. split; [exact Hchat|].
    apply Hother. discriminate.
Defined.

(** ** Progress listing *)

Lemma start_competence_Return w user competence_id fresh_id now_started
    now_activity row w1 :
  start_competence competence_id (Some user) fresh_id now_started
                   now_activity w = (Return row, w1) ->
  progress_of user competence_id row = true /\
  ((w1 = w /\
    find_one (progress_of user competence_id) (user_progress (db w))
      = Some row) \/
   (find_one (progress_of user competence_id) (user_progress (db w)) = None /\
    row = new_progress fresh_id user competence_id now_started now_activity /\
    w1 = add_progress row w)).
Proof.
  rewrite start_competence_run.
  destruct (find_one _ (competences (db w))); [|discriminate].
  destruct (find_one (progress_of user competence_id) (user_progress (db w)))
    as [existing|] eqn:Hfind.
  - intros H. injection H as <- <-.
    pose proof (find_one_Some _ _ _ Hfind) as [_ Hq]. auto.
  - intros H. injection H as <- <-.
    split; [|right; auto].
    unfold progress_of. simpl. rewrite !String.eqb_refl. reflexivity.
Qed.

(** The row the progress collection holds after a successful start:
    the returned row, or its stored form when the start created it. *)
Lemma start_competence_kept w user competence_id fresh_id now_started
    now_activity row w1 :
  start_competence competence_id (Some user) fresh_id now_started
                   now_activity w = (Return row, w1) ->
  p_user_id row = u_id user /\
  exists kept,
    In kept (user_progress (db w1)) /\
    (kept = row \/ kept = stored row) /\
    ((w1 = w /\ kept = row) \/
     (user_progress (db w1) = (user_progress (db w) ++ [kept])%list /\
      kept = stored row /\
      p_status row = "in_progress" /\
      users (db w1) = users (db w) /\
      competences (db w1) = competences (db w) /\
      certificates (db w1) = certificates (db w))).
Proof.
  intros Hstart.
  destruct (start_competence_Return _ _ _ _ _ _ _ _ Hstart) as [Hrow Hcase].
  unfold progress_of in Hrow. apply andb_true_iff in Hrow.
  destruct Hrow as [Huser _]. apply String.eqb_eq in Huser.
  split; [exact Huser|].
  destruct Hcase as [[-> Hfind] | (_ & Hnew & ->)].
  - exists row. apply find_one_Some in Hfind. destruct Hfind as [Hin _].
    auto.
  - exists (stored row).
    cbn [add_progress db with_user_progress user_progress users competences
         certificates].
    unfold insert_one. split; [apply in_or_app; right; left; reflexivity|].
    split; [auto|]. right. rewrite Hnew. repeat split; reflexivity.
Qed.

(** X13. The row a successful [start_competence] returns is listed by
    [get_user_progress] for that user (as the database holds it: in
    its stored form when the start created it), and that listing
    holds only rows of that user; the listing of any user with another
    id is what it was before the start and does not show the row. *)
Theorem start_competence_then_listed :
  forall (w w1 : World) (user : User) (competence_id fresh_id : string)
         (now_started now_activity : Z) (row : UserProgress),
    start_competence competence_id (Some user) fresh_id now_started
                     now_activity w = (Return row, w1) ->
    (exists rows listed,
        get_user_progress (Some user) w1 = (Return rows, w1) /\
        In listed rows /\
        (listed = row \/ listed = stored row) /\
        stored listed = stored row /\
        forall p, In p rows -> p_user_id p = u_id user) /\
    (forall other : User,
        u_id other <> u_id user ->
        exists rows,
          get_user_progress (Some other) w1 = (Return rows, w1) /\
          get_user_progress (Some other) w = (Return rows, w) /\
          ~ In row rows /\ ~ In (stored row) rows).
Proof.
  intros w w1 user competence_id fresh_id now_started now_activity row Hstart.
  destruct (start_competence_kept _ _ _ _ _ _ _ _ Hstart)
    as (Huser & kept & Hin & Hform & Hcase).
  assert (Hkept_user : p_user_id kept = u_id user).
  { destruct Hform as [-> | ->]; exact Huser. }
  split.
  - eexists. exists kept. split; [reflexivity|]. unfold find.
    split; [|split; [exact Hform|split]].
    + apply filter_In. split; [exact Hin|]. apply String.eqb_eq.
      exact Hkept_user.
    + destruct Hform as [-> | ->];
        [reflexivity|apply stored_progress_idem].
    + intros p Hp. apply filter_In in Hp. apply String.eqb_eq.
      exact (proj2 Hp).
  - intros other Hother. eexists. split; [reflexivity|]. unfold find.
    split; [|split].
    + unfold get_user_progress, query. f_equal. f_equal.
      destruct Hcase as [[-> _] | (-> & _)]; [reflexivity|].
      rewrite List.filter_app. simpl.
      rewrite Hkept_user, (proj2 (String.eqb_neq _ _)) by congruence.
      rewrite app_nil_r. reflexivity.
    + intros Hp. apply filter_In in Hp. destruct Hp as [_ Hp].
      apply String.eqb_eq in Hp. apply Hother. congruence.
    + intros Hp. apply filter_In in Hp. destruct Hp as [_ Hp].
      apply String.eqb_eq in Hp. apply Hother.
      simpl in Hp. congruence.
Qed.

(** Bob starts [c-1], for which he has no row: his listing shows the
    new row as stored, and Alice's listing is unchanged. *)
Lemma start_competence_then_listed_witness :
  (exists rows listed,
      get_user_progress (Some bob)
        (snd (start_competence "c-1" (Some bob) "p-2" 5 6
                               (world_of (quiz_database 1))))
      = (Return rows,
         snd (start_competence "c-1" (Some bob) "p-2" 5 6
                               (world_of (quiz_database 1)))) /\
      In listed rows /\
      stored listed = stored (new_progress "p-2" bob "c-1" 5 6)) /\
  (exists rows,
      get_user_progress (Some alice)
        (snd (start_competence "c-1" (Some bob) "p-2" 5 6
                               (world_of (quiz_database 1))))
      = (Return rows,
         snd (start_competence "c-1" (Some bob) "p-2" 5 6
                               (world_of (quiz_database 1)))) /\
      get_user_progress (Some alice) (world_of (quiz_database 1))
      = (Return rows, world_of (quiz_database 1))).
Proof.
  pose proof (start_competence_then_listed (world_of (quiz_database 1))
                (snd (start_competence "c-1" (Some bob) "p-2" 5 6
                                       (world_of (quiz_database 1))))
                bob "c-1" "p-2" 5 6 (new_progress "p-2" bob "c-1" 5 6)
                eq_refl) as [Hmine Hothers].
  split.
  - destruct Hmine as (rows & listed & Hget & Hin & _ & Hstored & _).
    exists rows, listed. auto.
  - destruct (Hothers alice) as (rows & H1 & H0 & _).
    + discriminate.
    + exists rows. split; assumption.
Defined.

(** ** The authentication gate *)

(** X14. When [get_current_user] resolves no user, every protected
    endpoint answers 401 and leaves the world as it was: nothing is
    read out, written, or sent to the chat backend, whatever the
    other arguments. *)
Theorem protected_endpoints_require_user :
  forall (request : Request) (creds : option HTTPAuthorizationCredentials)
         (now : Z) (w : World) (llm : LlmBackend),
    get_current_user request creds now w = (Return None, w) ->
    depends_current_user request creds now get_me w
      = (HTTPException 401 "Not authenticated", w) /\
    depends_current_user request creds now get_user_progress w
      = (HTTPException 401 "Not authenticated", w) /\
    depends_current_user request creds now get_dashboard w
      = (HTTPException 401 "Not authenticated", w) /\
    (forall competence_id,
        depends_current_user request creds now
          (get_quiz_questions competence_id) w
        = (HTTPException 401 "Not authenticated", w)) /\
    (forall competence_id fresh_id t1 t2,
        depends_current_user request creds now
          (fun user => start_competence competence_id user fresh_id t1 t2) w
        = (HTTPException 401 "Not authenticated", w)) /\
    (forall competence_id answers fresh_id t1 t2,
        depends_current_user request creds now
          (fun user => submit_quiz competence_id answers user fresh_id t1 t2) w
        = (HTTPException 401 "Not authenticated", w)) /\
    (forall competence_id fresh_id t1,
        depends_current_user request creds now
          (fun user => start_ai_workshop competence_id user fresh_id t1) w
        = (HTTPException 401 "Not authenticated", w)) /\
    (forall session_id message t1 t2,
        depends_current_user request creds now
          (fun user => chat_with_ai llm session_id message user t1 t2) w
        = (HTTPException 401 "Not authenticated", w)).
Proof.
  intros request creds now w llm Hnone.
  unfold depends_current_user, bind. rewrite Hnone.
  repeat split; intros; reflexivity.
Qed.

(** A request without any token. *)
Lemma protected_endpoints_require_user_witness :
  depends_current_user (plain_request ∅) None 0 get_dashboard
                       (world_of (quiz_database 1))
  = (HTTPException 401 "Not authenticated", world_of (quiz_database 1)).
Proof.
  exact (proj1 (proj2 (proj2 (protected_endpoints_require_user
           (plain_request ∅) None 0 (world_of (quiz_database 1)) echo_llm
           eq_refl)))).
Defined.

(** ** Attempt numbering *)

Lemma count_documents_insert_one {D} (q : D -> bool) coll d :
  q d = true ->
  count_documents q (insert_one d coll) = count_documents q coll + 1.
Proof.
  intros Hq. unfold count_documents, insert_one.
  rewrite List.filter_app, length_app. simpl. rewrite Hq. simpl. lia.
Qed.

(** X15. After a successful submission the number of attempts stored
    for the (user, competence) pair has grown by one; the attempt just
    stored, last in the collection, carries the submitted answers, that
    number as [attempt_number] and the returned score; and when the
    pair has a progress row, the row found for the pair afterwards
    carries the same number as [quiz_attempts] and the same score as
    [current_score]. *)
Theorem submit_quiz_counts_attempts :
  forall (w w' : World) (user : User) (competence_id : string)
         (answers : list Z) (fresh_id : string) (now_created now_activity : Z)
         (result : pyval),
    submit_quiz competence_id answers (Some user) fresh_id now_created
                now_activity w = (Return result, w') ->
    exists attempt,
      quiz_attempts (db w') = (quiz_attempts (db w) ++ [attempt])%list /\
      count_documents (attempt_of_pair user competence_id)
                      (quiz_attempts (db w'))
      = count_documents (attempt_of_pair user competence_id)
                        (quiz_attempts (db w)) + 1 /\
      a_attempt_number attempt
      = count_documents (attempt_of_pair user competence_id)
                        (quiz_attempts (db w')) /\
      a_answers attempt = answers /\
      a_id attempt = fresh_id /\
      py_get "score" result = Some (PyFloat (a_score attempt)) /\
      forall row,
        find_one (progress_of user competence_id) (user_progress (db w))
          = Some row ->
        exists row',
          find_one (progress_of user competence_id) (user_progress (db w'))
            = Some row' /\
          p_quiz_attempts row' = a_attempt_number attempt /\
          p_current_score row' = a_score attempt.
Proof.
  intros w w' user competence_id answers fresh_id now_created now_activity
         result Hrun.
  destruct (submit_quiz_Return _ _ _ _ _ _ _ _ _ Hrun)
    as (_ & _ & competence & _ & Hscore & ->).
  exists (attempt_of user competence_id answers fresh_id now_created
                     competence (db w)).
  unfold world_after_submit.
  cbn [db with_user_progress with_quiz_attempts quiz_attempts user_progress].
  assert (Hcount :
    count_documents (attempt_of_pair user competence_id)
      (insert_one (attempt_of user competence_id answers fresh_id
                              now_created competence (db w))
                  (quiz_attempts (db w)))
    = count_documents (attempt_of_pair user competence_id)
                      (quiz_attempts (db w)) + 1).
  { apply count_documents_insert_one.
    unfold attempt_of_pair, of_user_and_competence, attempt_of. simpl.
    rewrite !String.eqb_refl. reflexivity. }
  split; [reflexivity|]. split; [exact Hcount|].
  split; [rewrite Hcount; reflexivity|].
  split; [reflexivity|]. split; [reflexivity|].
  split; [exact Hscore|].
  intros row Hrow. eexists. split.
  - unfold progress_after_submit.
    apply (find_one_update_one (progress_of user competence_id)
             (of_user_and_competence p_user_id p_competence_id user
                                     competence_id)).
    + exact Hrow.
    + intros x Hx. exact Hx.
    + apply find_one_Some in Hrow. exact (proj2 Hrow).
  - split; reflexivity.
Qed.

(** Alice's first submission to a four-question quiz: attempt number 1,
    and her row counts one attempt. *)
Lemma submit_quiz_counts_attempts_witness :
  exists result w' attempt,
    submit_quiz "c-1" [1; 1; 0; 0] (Some alice) "a-1" 8 9
                (world_of (quiz_database 4)) = (Return result, w') /\
    quiz_attempts (db w') = [attempt] /\
    a_attempt_number attempt = 1 /\
    a_answers attempt = [1; 1; 0; 0].
Proof.
  assert (Hne : questions_of "c-1" (db (world_of (quiz_database 4))) <> [])
    by discriminate.
  pose proof (submit_quiz_run (world_of (quiz_database 4)) alice "c-1"
                [1; 1; 0; 0] "a-1" 8 9 competence_1 Hne eq_refl eq_refl)
    as Hrun.
  cbv zeta in Hrun.
  destruct (submit_quiz_counts_attempts _ _ _ _ _ _ _ _ _ Hrun)
    as (attempt & Hlast & Hgrow & Hnum & Hanswers & _).
  eexists. eexists. exists attempt. split; [exact Hrun|].
  split; [exact Hlast|]. split; [|exact Hanswers].
  rewrite Hnum, Hgrow. reflexivity.
Defined.

(** X20. A submission writes only when it returns.  Whenever
    [submit_quiz] fails (no user, no question, a competence missing
    from the catalog, an answer that does not fit in 64 bits) the
    world is exactly what it was: no attempt is stored and no progress
    row is touched.  The failure for an answer outside 64 bits, the
    questions and the competence being there, is an uncaught
    [OverflowError]. *)
Theorem submit_quiz_failure_writes_nothing :
  forall (w : World) (user : option User) (competence_id : string)
         (answers : list Z) (fresh_id : string) (now_created now_activity : Z),
    ((forall result,
         fst (submit_quiz competence_id answers user fresh_id now_created
                          now_activity w) <> Return result) ->
     snd (submit_quiz competence_id answers user fresh_id now_created
                      now_activity w) = w) /\
    (forall submitter competence,
        user = Some submitter ->
        questions_of competence_id (db w) <> [] ->
        find_one (fun c => String.eqb (c_id c) competence_id)
                 (competences (db w)) = Some competence ->
        forallb int64 answers = false ->
        exists message,
          submit_quiz competence_id answers user fresh_id now_created
                      now_activity w
          = (Uncaught "OverflowError" message, w)).
Proof.
  intros w user competence_id answers fresh_id now_created now_activity.
  split.
  - destruct user as [submitter|]; [|reflexivity].
    rewrite submit_quiz_cases. unfold submission_outcome. cbv zeta.
    destruct (questions_of competence_id (db w)) as [|q qs]; [reflexivity|].
    destruct (find_one _ (competences (db w))) as [competence|];
      [|reflexivity].
    destruct (forallb int64 answers); [|reflexivity].
    intros Hfail. exfalso. exact (Hfail _ eq_refl).
  - intros submitter competence -> Hne Hc Hfit. eexists.
    exact (submit_quiz_overflow w submitter competence_id answers fresh_id
             now_created now_activity competence Hne Hc Hfit).
Qed.

(** Alice answers [-2^63 - 1] to the first question: nothing is
    stored. *)
Lemma submit_quiz_failure_writes_nothing_witness :
  snd (submit_quiz "c-1" [- 2 ^ 63 - 1; 1; 0; 0] (Some alice) "a-1" 8 9
                   (world_of (quiz_database 4)))
  = world_of (quiz_database 4) /\
  exists message,
    submit_quiz "c-1" [- 2 ^ 63 - 1; 1; 0; 0] (Some alice) "a-1" 8 9
                (world_of (quiz_database 4))
    = (Uncaught "OverflowError" message, world_of (quiz_database 4)).
Proof.
  assert (Hne : questions_of "c-1" (db (world_of (quiz_database 4))) <> [])
    by discriminate.
  split.
  - apply (proj1 (submit_quiz_failure_writes_nothing
                    (world_of (quiz_database 4)) (Some alice) "c-1"
                    [- 2 ^ 63 - 1; 1; 0; 0] "a-1" 8 9)).
    intros result. discriminate.
  - exact (proj2 (submit_quiz_failure_writes_nothing
                    (world_of (quiz_database 4)) (Some alice) "c-1"
                    [- 2 ^ 63 - 1; 1; 0; 0] "a-1" 8 9)
                 alice competence_1 eq_refl Hne eq_refl eq_refl).
Defined.

(** ** Starting a competence and the dashboard *)

(** X16. After a successful [start_competence] the user's dashboard
    cannot be served.  The coroutine still computes its dict, which
    lists the started row (as the database holds it) among the raw
    progress documents; the encoding of that dict fails on the
    document's [ObjectId], so the route ends in an uncaught
    [ValueError], the world being left as the start left it. *)
Theorem start_competence_then_dashboard :
  forall (w w1 : World) (user : User) (competence_id fresh_id : string)
         (now_started now_activity : Z) (row : UserProgress),
    start_competence competence_id (Some user) fresh_id now_started
                     now_activity w = (Return row, w1) ->
    (exists dash listed,
        get_dashboard (Some user) w1 = (Return dash, w1) /\
        In (WithObjectId listed) (d_progress_list dash) /\
        (listed = row \/ listed = stored row) /\
        stored listed = stored row) /\
    (exists message,
        dashboard_endpoint (Some user) w1
        = (Uncaught "ValueError" message, w1)).
Proof.
  intros w w1 user competence_id fresh_id now_started now_activity row Hstart.
  destruct (start_competence_kept _ _ _ _ _ _ _ _ Hstart)
    as (Huser & kept & Hin & Hform & _).
  assert (Hkept_user : p_user_id kept = u_id user).
  { destruct Hform as [-> | ->]; exact Huser. }
  assert (Hlisted : In kept (progress_rows_of user (db w1))).
  { unfold progress_rows_of, find. apply filter_In.
    split; [exact Hin|]. apply String.eqb_eq. exact Hkept_user. }
  split.
  - exists (dashboard_of user (db w1)), kept.
    split; [apply get_dashboard_run|].
    split; [|split; [exact Hform|]].
    + unfold dashboard_of. cbn [d_progress_list].
      apply in_map. exact Hlisted.
    + destruct Hform as [-> | ->];
        [reflexivity|apply stored_progress_idem].
  - exists not_jsonable. rewrite dashboard_endpoint_run.
    destruct (progress_rows_of user (db w1)) as [|p rows];
      [destruct Hlisted|reflexivity].
Qed.

(** Bob, who has neither progress nor certificate, gets his dashboard;
    once he has started [c-1] the route fails. *)
Lemma start_competence_then_dashboard_witness :
  (exists dash,
      dashboard_endpoint (Some bob) (world_of (quiz_database 1))
      = (Return dash, world_of (quiz_database 1)) /\
      d_in_progress_competences dash = 0) /\
  (exists message,
      dashboard_endpoint (Some bob)
        (snd (start_competence "c-1" (Some bob) "p-2" 5 6
                               (world_of (quiz_database 1))))
      = (Uncaught "ValueError" message,
         snd (start_competence "c-1" (Some bob) "p-2" 5 6
                               (world_of (quiz_database 1))))).
Proof.
  split.
  - eexists. split; reflexivity.
  - exact (proj2 (start_competence_then_dashboard (world_of (quiz_database 1))
                    (snd (start_competence "c-1" (Some bob) "p-2" 5 6
                                           (world_of (quiz_database 1))))
                    bob "c-1" "p-2" 5 6 (new_progress "p-2" bob "c-1" 5 6)
                    eq_refl)).
Defined.

(** X21. The dashboard route never changes the world, and it answers
    with a dashboard exactly for a user who has no progress row and no
    certificate; the dashboard then counts no completed and no
    in-progress competence and its two lists are empty.  For every
    other authenticated user the route ends in an uncaught
    [ValueError]. *)
Theorem dashboard_endpoint_returns_iff :
  forall (w : World) (user : User),
    snd (dashboard_endpoint (Some user) w) = w /\
    ((exists dash, fst (dashboard_endpoint (Some user) w) = Return dash)
     <-> (forall p, In p (user_progress (db w)) -> p_user_id p <> u_id user)
         /\ (forall c, In c (certificates (db w)) ->
                       ct_user_id c <> u_id user)) /\
    (forall dash,
        fst (dashboard_endpoint (Some user) w) = Return dash ->
        d_user dash = user /\
        d_total_competences dash = total_of (db w) /\
        d_completed_competences dash = 0 /\
        d_in_progress_competences dash = 0 /\
        d_certificates_earned dash = 0 /\
        d_progress_list dash = [] /\
        d_certificates dash = []) /\
    ((forall dash, fst (dashboard_endpoint (Some user) w) <> Return dash) ->
     exists message,
       fst (dashboard_endpoint (Some user) w) = Uncaught "ValueError" message).
Proof.
  intros w user. rewrite dashboard_endpoint_run.
  assert (Hrows : progress_rows_of user (db w) = [] <->
                  forall p, In p (user_progress (db w)) ->
                            p_user_id p <> u_id user).
  { unfold progress_rows_of, find. split.
    - intros Hnil p Hp Heq.
      assert (Hin : In p (List.filter
                            (fun p => String.eqb (p_user_id p) (u_id user))
                            (user_progress (db w)))).
      { apply filter_In. split; [exact Hp|]. apply String.eqb_eq. exact Heq. }
      rewrite Hnil in Hin. destruct Hin.
    - intros Hnone.
      destruct (List.filter _ (user_progress (db w))) as [|p rows] eqn:Hf;
        [reflexivity|].
      assert (Hin : In p (p :: rows)) by (left; reflexivity).
      rewrite <- Hf in Hin. apply filter_In in Hin. destruct Hin as [Hp Heq].
      apply String.eqb_eq in Heq. destruct (Hnone p Hp Heq). }
  assert (Hcerts : certificates_of user (db w) = [] <->
                   forall c, In c (certificates (db w)) ->
                             ct_user_id c <> u_id user).
  { unfold certificates_of, find. split.
    - intros Hnil c Hc Heq.
      assert (Hin : In c (List.filter
                            (fun c => String.eqb (ct_user_id c) (u_id user))
                            (certificates (db w)))).
      { apply filter_In. split; [exact Hc|]. apply String.eqb_eq. exact Heq. }
      rewrite Hnil in Hin. destruct Hin.
    - intros Hnone.
      destruct (List.filter _ (certificates (db w))) as [|c certs] eqn:Hf;
        [reflexivity|].
      assert (Hin : In c (c :: certs)) by (left; reflexivity).
      rewrite <- Hf in Hin. apply filter_In in Hin. destruct Hin as [Hc Heq].
      apply String.eqb_eq in Heq. destruct (Hnone c Hc Heq). }
  unfold dashboard_of.
  destruct (progress_rows_of user (db w)) as [|p rows].
  - destruct (certificates_of user (db w)) as [|c certs].
    + split; [reflexivity|]. split.
      { split; [intros _|eauto].
        split; [apply Hrows|apply Hcerts]; reflexivity. }
      split.
      { intros dash H. injection H as <-. cbn.
        repeat split; try reflexivity.
        unfold count_documents, total_of. rewrite filter_all. reflexivity. }
      intros Hfail. exfalso. exact (Hfail _ eq_refl).
    + split; [reflexivity|]. split.
      { split.
        - intros (dash & H). discriminate H.
        - intros [_ Hnone]. apply Hcerts in Hnone. discriminate Hnone. }
      split; [intros dash H; discriminate H|].
      intros _. eexists. reflexivity.
  - split; [reflexivity|]. split.
    { split.
      - intros (dash & H). discriminate H.
      - intros [Hnone _]. apply Hrows in Hnone. discriminate Hnone. }
    split; [intros dash H; discriminate H|].
    intros _. eexists. reflexivity.
Qed.

(** Bob has no row and no certificate: the route answers.  Alice has a
    row: it does not. *)
Lemma dashboard_endpoint_returns_iff_witness :
  (exists dash,
      fst (dashboard_endpoint (Some bob) (world_of (quiz_database 1)))
      = Return dash) /\
  (exists message,
      fst (dashboard_endpoint (Some alice) (world_of (quiz_database 1)))
      = Uncaught "ValueError" message).
Proof.
  split.
  - apply (proj2 (proj1 (proj2 (dashboard_endpoint_returns_iff
                                  (world_of (quiz_database 1)) bob)))).
    split.
    + intros p [<-|[]]. discriminate.
    + intros c [].
  - apply (proj2 (proj2 (proj2 (dashboard_endpoint_returns_iff
                                  (world_of (quiz_database 1)) alice)))).
    intros dash. discriminate.
Defined.

(** ** Seeding *)

Lemma initialize_data_again draws w :
  competences (db w) <> [] ->
  initialize_data draws w = (Return already_initialized, w).
Proof.
  intros Hne. unfold initialize_data.
  unfold bind at 1. unfold query at 1. unfold count_documents.
  rewrite filter_all.
  destruct (competences (db w)) as [|c coll]; [contradiction|].
  reflexivity.
Qed.

Lemma database_ext (d d' : Database) :
  users d = users d' ->
  user_sessions d = user_sessions d' ->
  competences d = competences d' ->
  user_progress d = user_progress d' ->
  quiz_questions d = quiz_questions d' ->
  quiz_attempts d = quiz_attempts d' ->
  ai_workshop_sessions d = ai_workshop_sessions d' ->
  certificates d = certificates d' ->
  d = d'.
Proof.
  destruct d, d'. simpl. intros. subst. reflexivity.
Qed.

Lemma initialize_data_seeds draws w :
  competences (db w) = [] ->
  initialize_data draws w = (Return initialized_ten, seeded_world draws w).
Proof.
  intros Hempty. unfold initialize_data.
  unfold bind at 1. unfold query at 1. unfold count_documents.
  rewrite Hempty.
  change (0 <? Z.of_nat (length (List.filter (fun _ : Competence => true) [])))
    with false.
  cbv iota.
  unfold seeded_world, seeded_questions, seeded_competences.
  unfold bind, modify, ret. cbn.
  apply pair_equal_spec. split; [reflexivity|].
  f_equal.
  apply database_ext;
    cbn [db llm_calls users user_sessions competences user_progress
         quiz_questions quiz_attempts ai_workshop_sessions certificates
         with_quiz_questions with_competences];
    try reflexivity.
  - rewrite Hempty. reflexivity.
  - unfold insert_one. rewrite <- !app_assoc. reflexivity.
Qed.

(** X17. Seeding is idempotent. [initialize_data] always returns; on a
    non-empty catalog it changes nothing; on an empty one it inserts
    ten competences numbered 1 to 10 in that order and four questions,
    touching no other collection; and in both cases a second call,
    whatever it would draw, changes nothing. *)
Theorem initialize_data_idempotent :
  forall (draws draws' : SeedDraws) (w : World),
    exists message w1,
      initialize_data draws w = (Return message, w1) /\
      initialize_data draws' w1 = (Return already_initialized, w1) /\
      (competences (db w) <> [] -> message = already_initialized /\ w1 = w) /\
      (competences (db w) = [] ->
       message = initialized_ten /\
       map c_number (competences (db w1)) = [1; 2; 3; 4; 5; 6; 7; 8; 9; 10] /\
       length (quiz_questions (db w1))
         = (length (quiz_questions (db w)) + 4)%nat /\
       users (db w1) = users (db w) /\
       user_sessions (db w1) = user_sessions (db w) /\
       user_progress (db w1) = user_progress (db w) /\
       quiz_attempts (db w1) = quiz_attempts (db w) /\
       ai_workshop_sessions (db w1) = ai_workshop_sessions (db w) /\
       certificates (db w1) = certificates (db w) /\
       llm_calls w1 = llm_calls w).
Proof.
  intros draws draws' w.
  destruct (competences (db w)) as [|c coll] eqn:Hc.
  - exists initialized_ten, (seeded_world draws w).
    split; [apply initialize_data_seeds; exact Hc|].
    split; [apply initialize_data_again; discriminate|].
    split; [intros H; contradiction|]. intros _.
    split; [reflexivity|]. split; [reflexivity|].
    split; [|repeat split; reflexivity].
    simpl. rewrite length_app. reflexivity.
  - exists already_initialized, w.
    assert (Hne : competences (db w) <> []) by (rewrite Hc; discriminate).
    split; [apply initialize_data_again; exact Hne|].
    split; [apply initialize_data_again; exact Hne|].
    split; [auto|]. intros H. discriminate H.
Qed.

Lemma find_one_exists {D} (q : D -> bool) coll d :
  In d coll -> q d = true -> exists d', find_one q coll = Some d'.
Proof.
  intros Hin Hq. destruct (find_one q coll) as [d'|] eqn:Hfind; [eauto|].
  rewrite (proj1 (find_one_None_iff q coll) Hfind d Hin) in Hq.
  discriminate Hq.
Qed.

(** Every sample question of a competence carries that competence's
    id, and its correct answer is one of its options. *)
Lemma sample_questions_spec competence q_data :
  In q_data (sample_questions competence) ->
  qd_competence_id q_data = c_id competence /\
  0 <= qd_correct_answer q_data < Z.of_nat (length (qd_options q_data)).
Proof.
  unfold sample_questions. cbv zeta.
  destruct (c_number competence =? 1).
  { intros [<- | [<- | []]]; simpl; split; (reflexivity || lia). }
  destruct (c_number competence =? 2).
  { intros [<- | []]; simpl; split; (reflexivity || lia). }
  destruct (c_number competence =? 4).
  { intros [<- | []]; simpl; split; (reflexivity || lia). }
  intros [].
Qed.

(** Every seeded question is a sample question of a seeded competence. *)
Lemma seeded_questions_spec draws q :
  In q (seeded_questions draws) ->
  exists competence q_data,
    In competence (seeded_competences draws) /\
    In q_data (sample_questions competence) /\
    q_competence_id q = qd_competence_id q_data /\
    q_correct_answer q = qd_correct_answer q_data /\
    q_options q = qd_options q_data.
Proof.
  unfold seeded_questions. intros Hq.
  apply list_elem_of_In in Hq. apply elem_of_lookup_imap in Hq.
  destruct Hq as (j & q_data & -> & Hlookup).
  apply list_elem_of_lookup_2, list_elem_of_In, in_flat_map in Hlookup.
  destruct Hlookup as (competence & Hc & Hqd).
  exists competence, q_data. simpl. auto.
Qed.

(** X18. The seed is consistent with the quiz engine: after the
    seeding of an empty catalog, every question the seeding added
    belongs to a competence that is in the catalog and has its correct
    answer among its options, so a submission to that competence's
    quiz by any user, with any answers that fit in 64 bits, returns a
    result. *)
Theorem seeded_quizzes_can_be_submitted :
  forall (draws : SeedDraws) (w : World) (q : QuizQuestion) (user : User)
         (answers : list Z) (fresh_id : string) (now_created now_activity : Z),
    competences (db w) = [] ->
    In q (quiz_questions (db (snd (initialize_data draws w)))) ->
    ~ In q (quiz_questions (db w)) ->
    forallb int64 answers = true ->
    (exists c, In c (competences (db (snd (initialize_data draws w)))) /\
               c_id c = q_competence_id q) /\
    0 <= q_correct_answer q < Z.of_nat (length (q_options q)) /\
    exists result w2,
      submit_quiz (q_competence_id q) answers (Some user) fresh_id
                  now_created now_activity (snd (initialize_data draws w))
      = (Return result, w2).
Proof.
  intros draws w q user answers fresh_id now_created now_activity Hempty
         Hin Hnew Hfit.
  rewrite (initialize_data_seeds draws w Hempty) in *.
  cbn [snd] in *.
  assert (Hseeded : In q (seeded_questions draws)).
  { simpl in Hin. apply in_app_or in Hin. tauto. }
  destruct (seeded_questions_spec draws q Hseeded)
    as (c0 & q_data & Hc0 & Hqd & Hid & Hanswer0 & Hoptions).
  destruct (sample_questions_spec c0 q_data Hqd) as [Hcomp Hbound].
  assert (Hc : exists c, In c (seeded_competences draws) /\
                         c_id c = q_competence_id q).
  { exists c0. split; [exact Hc0|congruence]. }
  assert (Hanswer : 0 <= q_correct_answer q < Z.of_nat (length (q_options q))).
  { rewrite Hanswer0, Hoptions. exact Hbound. }
  split; [exact Hc|]. split; [exact Hanswer|].
  destruct Hc as (c & Hcin & Hcid).
  destruct (find_one_exists
              (fun c' => String.eqb (c_id c') (q_competence_id q))
              (competences (db (seeded_world draws w))) c Hcin)
    as [c' Hfind]; [apply String.eqb_eq; exact Hcid|].
  assert (Hne : questions_of (q_competence_id q) (db (seeded_world draws w))
                <> []).
  { intros Hnil.
    assert (Hq : In q (questions_of (q_competence_id q)
                                    (db (seeded_world draws w)))).
    { apply questions_of_spec. split; [exact Hin|reflexivity]. }
    rewrite Hnil in Hq. destruct Hq. }
  pose proof (submit_quiz_run (seeded_world draws w) user (q_competence_id q)
                answers fresh_id now_created now_activity c' Hne Hfind Hfit)
    as Hrun.
  cbv zeta in Hrun. eauto.
Qed.

(** The first seeded question, in a seeded empty database. *)
Lemma seeded_quizzes_can_be_submitted_witness :
  exists result w2,
    submit_quiz "c-0" [1; 2] (Some alice) "a-1" 20 21
      (snd (initialize_data numbered_draws (world_of empty_database)))
    = (Return result, w2).
Proof.
  refine (proj2 (proj2 (seeded_quizzes_can_be_submitted numbered_draws
            (world_of empty_database)
            (make_question "q-0"
               {| qd_competence_id := "c-0";
                  qd_question := "Quel est l'objectif principal de la formation d'alphabétiseur numérique ?";
                  qd_options :=
                    ["Apprendre uniquement l'informatique";
                     "Former des personnes capables d'enseigner la lecture et l'écriture avec des outils numériques";
                     "Devenir développeur web";
                     "Vendre des ordinateurs"];
                  qd_correct_answer := 1;
                  qd_explanation := Some "L'alphabétiseur numérique combine l'enseignement traditionnel de la lecture/écriture avec les outils numériques." |})
            alice [1; 2] "a-1" 20 21 eq_refl _ _ eq_refl))).
  - left. reflexivity.
  - intros [].
Defined.

(** The first document, in stored order, that a query matches is the
    one [find_one] returns. *)
Lemma find_one_first_index {D} (q : D -> bool) coll : forall i d,
  coll !! i = Some d -> q d = true ->
  (forall j d', (j < i)%nat -> coll !! j = Some d' -> q d' = false) ->
  find_one q coll = Some d.
Proof.
  unfold find_one. induction coll as [|x coll IH]; intros i d Hi Hq Hbefore;
    [discriminate Hi|].
  destruct i as [|i]; simpl in *.
  - injection Hi as ->. rewrite Hq. reflexivity.
  - rewrite (Hbefore 0%nat x (Nat.lt_0_succ i) eq_refl).
    apply (IH i d Hi Hq). intros j d' Hj Hd'.
    apply (Hbefore (S j) d'); [lia|exact Hd'].
Qed.

(** X19. Seed then look up. After the seeding of an empty catalog,
    [get_competence] on the uuid drawn for the [i]-th competence
    ([i] from 0 to 9) returns the competence numbered [i + 1], whose
    creation time is the [i]-th clock reading as the database keeps
    it (without timezone, cut to the millisecond), provided no earlier
    draw gave the same uuid. *)
Theorem initialize_data_then_get_competence :
  forall (draws : SeedDraws) (w : World) (i : nat),
    competences (db w) = [] ->
    (i < 10)%nat ->
    (forall j, (j < i)%nat ->
               competence_uuid draws j <> competence_uuid draws i) ->
    exists c,
      get_competence (competence_uuid draws i)
                     (snd (initialize_data draws w))
      = (Return c, snd (initialize_data draws w)) /\
      c_id c = competence_uuid draws i /\
      c_number c = Z.of_nat i + 1 /\
      c_created_at c = bson_datetime (datetime_now_utc (competence_now draws i)).
Proof.
  intros draws w i Hempty Hi Hfresh.
  rewrite (initialize_data_seeds draws w Hempty). cbn [snd].
  assert (Hdata : exists comp_data,
    competences_data !! i = Some comp_data /\
    cd_number comp_data = Z.of_nat i + 1).
  { do 10 (destruct i as [|i]; [eexists; split; reflexivity|]). lia. }
  destruct Hdata as (comp_data & Hlookup & Hnumber).
  exists (stored (make_competence (competence_uuid draws i)
                                  (competence_now draws i) comp_data)).
  split; [|repeat split; exact Hnumber].
  unfold get_competence. unfold bind at 1. unfold query at 1.
  cbn [db seeded_world with_quiz_questions with_competences competences].
  rewrite (find_one_first_index
             (fun c => String.eqb (c_id c) (competence_uuid draws i))
             (seeded_competences draws) i
             (stored (make_competence (competence_uuid draws i)
                                      (competence_now draws i) comp_data))).
  - reflexivity.
  - unfold seeded_competences. rewrite list_lookup_imap, Hlookup. reflexivity.
  - apply String.eqb_refl.
  - intros j c Hj Hc. unfold seeded_competences in Hc.
    rewrite list_lookup_imap in Hc.
    destruct (competences_data !! j) as [cd|]; [|discriminate Hc].
    injection Hc as <-. apply String.eqb_neq. apply Hfresh. exact Hj.
Qed.

(** The fourth competence of the curriculum, by the fourth uuid. *)
Lemma initialize_data_then_get_competence_witness :
  exists c,
    get_competence "c-3"
      (snd (initialize_data numbered_draws (world_of empty_database)))
    = (Return c,
       snd (initialize_data numbered_draws (world_of empty_database))) /\
    c_number c = 4 /\
    c_created_at c = {| wall := 0; tzinfo := None |}.
Proof.
  destruct (initialize_data_then_get_competence numbered_draws
              (world_of empty_database) 3 eq_refl) as (c & Hget & _ & Hn & Ht).
  - lia.
  - intros j Hj. do 3 (destruct j as [|j]; [discriminate|]). lia.
  - exists c. split; [exact Hget|]. split; [exact Hn|exact Ht].
Defined.
